(** * cloud-secure dashboard: aggregation, presentation mapping and API client

    Shallow embedding of [frontend/static/js/dashboard.js] (the aggregation
    and card-building functions) and [frontend/static/js/api-client.js]
    (the [request] wrapper and its mock fallback).

    JavaScript values are embedded as an inductive type of JSON values plus
    [undefined]; property reads, truthiness, [||], [?.], spread and the
    string methods the code calls are written out with the semantics the
    language gives them, and a thrown exception is an explicit [Throw]. *)

From Stdlib Require Import ZArith QArith Qround String List Ascii Bool Lia
  Permutation DecimalString.
#[local] Set Warnings "-register-all".
Import ListNotations.
Open Scope string_scope.

(** ** Numbers

    A JavaScript number is a double: a finite value (every finite double is
    a rational), [NaN], or one of the two infinities.  The two zeros are not
    told apart: no function below distinguishes them. *)

Inductive number : Type :=
| Fin (q : Q)
| NaN
| PosInf
| NegInf.

Definition num_of_Z (z : Z) : number := Fin (inject_Z z).
Definition num_of_nat (n : nat) : number := num_of_Z (Z.of_nat n).

(** [IsLessThan]: [None] is the "undefined" outcome of a comparison that
    involves [NaN]. *)
Definition num_lt (a b : number) : option bool :=
  match a, b with
  | NaN, _ | _, NaN => None
  | PosInf, _ => Some false
  | _, PosInf => Some true
  | _, NegInf => Some false
  | NegInf, _ => Some true
  | Fin x, Fin y => Some (negb (Qle_bool y x))
  end.

(** [a >= b] is "[a < b] is false"; [a < b] is "[a < b] is true". *)
Definition num_ge (a b : number) : bool :=
  match num_lt a b with Some false => true | _ => false end.

Definition num_ltb (a b : number) : bool :=
  match num_lt a b with Some true => true | _ => false end.

(** [Math.round]: the integer nearest to the argument, ties towards
    plus infinity. *)
Definition Math_round (n : number) : number :=
  match n with
  | Fin q => num_of_Z (Qfloor (q + (1 # 2)))
  | other => other
  end.

(** A number is falsy when it is zero or [NaN]. *)
Definition num_truthy (n : number) : bool :=
  match n with
  | Fin q => negb (Qeq_bool q 0)
  | NaN => false
  | PosInf | NegInf => true
  end.

(** ** Score tiers: [getRiskLevel], [getScoreColor], [getScoreGradient]

    The three functions compare their argument with number literals.  [>=]
    first converts its operand to a number; here the argument is a number,
    and a caller that holds another value passes it through [ToNumber]. *)

Definition getRiskLevel (score : number) : string :=
  if num_ge score (num_of_Z 80) then "Low"
  else if num_ge score (num_of_Z 60) then "Medium"
  else if num_ge score (num_of_Z 40) then "High"
  else "Critical".

Definition getScoreColor (score : number) : string :=
  if num_ge score (num_of_Z 80) then "#2D8B47"
  else if num_ge score (num_of_Z 60) then "#FFC107"
  else if num_ge score (num_of_Z 40) then "#FF9800"
  else "#D32F2F".

Definition getScoreGradient (score : number) : string :=
  if num_ge score (num_of_Z 80) then "linear-gradient(90deg, #2D8B47, #4CAF50)"
  else if num_ge score (num_of_Z 60) then "linear-gradient(90deg, #FFC107, #FF9800)"
  else if num_ge score (num_of_Z 40) then "linear-gradient(90deg, #FF9800, #FF6B6B)"
  else "linear-gradient(90deg, #D32F2F, #F44336)".

(** The order on numbers as a proposition, for stating the tiers: it holds
    of no pair that involves [NaN]. *)
Inductive num_le : number -> number -> Prop :=
| le_fin x y : (x <= y)%Q -> num_le (Fin x) (Fin y)
| le_neg_any b : b <> NaN -> num_le NegInf b
| le_any_pos a : a <> NaN -> num_le a PosInf.

Inductive num_less : number -> number -> Prop :=
| less_fin x y : (x < y)%Q -> num_less (Fin x) (Fin y)
| less_neg_fin y : num_less NegInf (Fin y)
| less_neg_pos : num_less NegInf PosInf
| less_fin_pos x : num_less (Fin x) PosInf.

(** ** Values, exceptions and results

    A payload is what [response.json()] or the mock returns: JSON data.
    [VUndefined] is the result of reading an absent property.  An object
    lists its own data properties, each name once; whatever [JSON.parse]
    builds has [Object.prototype] or [Array.prototype] as prototype and only
    data properties of its own.  A string is the sequence of its bytes; its
    [length] is in bytes, and the code only compares it with 0. *)

Inductive value : Type :=
| VUndefined
| VNull
| VBool (b : bool)
| VNum (n : number)
| VStr (s : string)
| VArr (elems : list value)
| VObj (props : list (string * value)).

(** What a [throw] carries.  [TypeError] is raised by the language itself:
    a property read on [undefined] or [null], a call of something that is
    not a function, a spread of something that is not iterable.  [Error] is
    [new Error(message)]; [Rejection] is the reason of a promise rejected by
    the transport. *)
Inductive exn : Type :=
| TypeError
| Error (message : string)
| Rejection (reason : string).

Inductive result (A : Type) : Type :=
| Ok (a : A)
| Throw (e : exn).
Arguments Ok {A} a.
Arguments Throw {A} e.

Definition bind {A B} (c : result A) (k : A -> result B) : result B :=
  match c with
  | Ok a => k a
  | Throw e => Throw e
  end.

Declare Scope js_scope.
Delimit Scope js_scope with js.
Notation "x <- c ;; k" := (bind c (fun x => k))
  (at level 61, c at next level, right associativity) : js_scope.
Open Scope js_scope.

Definition succeeds {A} (r : result A) : Prop := exists a, r = Ok a.

Definition nullish (v : value) : bool :=
  match v with
  | VUndefined | VNull => true
  | _ => false
  end.

Definition truthy (v : value) : bool :=
  match v with
  | VUndefined | VNull => false
  | VBool b => b
  | VNum n => num_truthy n
  | VStr s => negb (s =? "")
  | VArr _ | VObj _ => true
  end.

(** [a || b] *)
Definition js_or (a b : value) : value := if truthy a then a else b.

Fixpoint lookup (k : string) (props : list (string * value)) : option value :=
  match props with
  | [] => None
  | (k', v) :: rest => if k' =? k then Some v else lookup k rest
  end.

(** The object has an own property of that name. *)
Definition has_own (k : string) (props : list (string * value)) : bool :=
  match lookup k props with
  | Some _ => true
  | None => false
  end.

(** [v.k] on a [v] that is neither [undefined] nor [null], for the data
    property names the code reads. *)
Definition member (v : value) (k : string) : value :=
  match v with
  | VObj props => match lookup k props with Some x => x | None => VUndefined end
  | VArr l => if k =? "length" then VNum (num_of_nat (List.length l)) else VUndefined
  | VStr s => if k =? "length" then VNum (num_of_nat (String.length s)) else VUndefined
  | _ => VUndefined
  end.

(** [v.k] *)
Definition get (v : value) (k : string) : result value :=
  if nullish v then Throw TypeError else Ok (member v k).

(** [v?.k] *)
Definition get_opt (v : value) (k : string) : value :=
  if nullish v then VUndefined else member v k.

(** [v === 'lit'] *)
Definition strict_eq_str (v : value) (lit : string) : bool :=
  match v with
  | VStr s => s =? lit
  | _ => false
  end.

(** [v === 0] for a number literal *)
Definition strict_eq_num (v : value) (lit : Z) : bool :=
  match v with
  | VNum (Fin q) => Qeq_bool q (inject_Z lit)
  | _ => false
  end.

(** [[...v]]: arrays and strings are iterable, nothing else here is. *)
Definition spread (v : value) : result (list value) :=
  match v with
  | VArr l => Ok l
  | VStr s => Ok (map (fun c => VStr (String c "")) (list_ascii_of_string s))
  | _ => Throw TypeError
  end.

(** The receiver of an array method ([forEach], [map], [slice] followed by
    [map]): only an array has it; on anything else the call is a call of
    [undefined] (of a string, for [slice(...).map]). *)
Definition array_receiver (v : value) : result (list value) :=
  match v with
  | VArr l => Ok l
  | _ => Throw TypeError
  end.

(** [l.forEach(x => body)], where the body updates the variables it
    captures: their values are threaded as [s]. *)
Fixpoint forEach {S : Type} (l : list value) (body : value -> S -> result S)
    (s : S) : result S :=
  match l with
  | [] => Ok s
  | x :: rest => s' <- body x s ;; forEach rest body s'
  end.

(** [l.map(f)] for an [f] that may throw. *)
Fixpoint mapM {A B} (f : A -> result B) (l : list A) : result (list B) :=
  match l with
  | [] => Ok []
  | x :: rest => y <- f x ;; ys <- mapM f rest ;; Ok (y :: ys)
  end.

(** The texts [Array.prototype.join] joins: the empty text for an element
    that is [undefined] or [null], the conversion of any other element. *)
Definition element_texts (to_string : value -> result string)
  : list value -> result (list string) :=
  fix elements (l : list value) : result (list string) :=
    match l with
    | [] => Ok []
    | x :: rest =>
        t <- (if nullish x then Ok "" else to_string x) ;;
        ts <- elements rest ;;
        Ok (t :: ts)
    end.

(** [l.slice(start, end)] *)
Definition Array_slice {A} (l : list A) (start stop : Z) : list A :=
  let len := Z.of_nat (List.length l) in
  let clamp i := if (i <? 0)%Z then Z.max (len + i) 0 else Z.min i len in
  let k := clamp start in
  let final := clamp stop in
  firstn (Z.to_nat (Z.max (final - k) 0)) (skipn (Z.to_nat k) l).

(** [l.join(sep)] on strings *)
Fixpoint join (sep : string) (l : list string) : string :=
  match l with
  | [] => ""
  | [s] => s
  | s :: rest => s ++ sep ++ join sep rest
  end.

(** ** String methods *)

Definition dq : string := String (ascii_of_nat 34) "".

(** [s.startsWith(p)] *)
Definition startsWith (s p : string) : bool := String.prefix p s.

(** [s.includes(sub)] *)
Fixpoint includes (s sub : string) : bool :=
  String.prefix sub s ||
  match s with
  | "" => false
  | String _ rest => includes rest sub
  end.

Definition lower_ascii (c : ascii) : ascii :=
  let n := nat_of_ascii c in
  if (65 <=? n)%nat && (n <=? 90)%nat then ascii_of_nat (n + 32) else c.

(** The letters A-Z of a string mapped to a-z, every other character
    kept: what [toLowerCase] does to a string of ASCII characters. *)
Fixpoint lower_letters (s : string) : string :=
  match s with
  | "" => ""
  | String c rest => String (lower_ascii c) (lower_letters rest)
  end.

(** Every character of the string is an ASCII character. *)
Definition is_ascii (s : string) : bool :=
  forallb (fun c => (nat_of_ascii c <? 128)%nat) (list_ascii_of_string s).

Definition is_upper_letter (c : ascii) : bool :=
  (65 <=? nat_of_ascii c)%nat && (nat_of_ascii c <=? 90)%nat.

Definition string_of_Z (z : Z) : string := NilZero.string_of_int (Z.to_int z).

(** Members every object inherits from [Object.prototype]: the [in]
    operator and a keyed read find them on any object literal. *)
Definition Object_prototype_members : list string :=
  [ "constructor"; "__proto__"; "hasOwnProperty"; "isPrototypeOf";
    "propertyIsEnumerable"; "toLocaleString"; "toString"; "valueOf";
    "__defineGetter__"; "__defineSetter__"; "__lookupGetter__";
    "__lookupSetter__" ].

Definition mem_string (k : string) (l : list string) : bool :=
  existsb (String.eqb k) l.

Definition nl : string := String (ascii_of_nat 10) "".

(** The three characters that open the "no issues" line of a card, as the
    bytes of the source file. *)
Definition no_issues_mark : string :=
  string_of_list_ascii (map ascii_of_nat [195; 162; 197; 147; 226; 128; 156]%nat).

(** The [breakdown] objects of the two breakdown charts. *)
Module EC2.
Record breakdown : Type := mk
  { encrypted : nat; notEncrypted : nat; publicAccess : nat; restricted : nat }.
End EC2.

Module S3.
Record breakdown : Type := mk
  { encrypted : nat; notEncrypted : nat; publicAccessAllowed : nat; secured : nat }.
End S3.

(** ** The dashboard ([dashboard.js])

    The conversions the language applies implicitly are explicit here, and
    throw where the language makes them throw.  Four things are left to the
    host: how a string converts to a number ([StringToNumber]), the digits
    of a number that is not an integer of magnitude up to 2^53
    ([FractionToString]), the text of a built-in function
    ([NativeFunctionToString]), and the lower-casing of a string that has
    characters outside ASCII ([UnicodeToLowerCase]). *)

Section Dashboard.

Variable StringToNumber : string -> number.
Variable FractionToString : Q -> string.
Variable NativeFunctionToString : string -> string.
Variable UnicodeToLowerCase : string -> string.

(** [Number::toString]: an integer that every double near it can tell
    apart (magnitude up to 2^53) prints as its decimal digits. *)
Definition NumberToString (n : number) : string :=
  match n with
  | NaN => "NaN"
  | PosInf => "Infinity"
  | NegInf => "-Infinity"
  | Fin q =>
      let r := Qred q in
      if (Qden r =? 1)%positive && (Z.abs (Qnum r) <=? 2 ^ 53)%Z
      then string_of_Z (Qnum r)
      else FractionToString q
  end.

(** [ToString], which is also [ToPropertyKey] on these values and what a
    template literal applies to each [${...}].  An object is converted by
    its [toString]: the inherited one gives "[object Object]"; an own
    property of that name is data, not a function, and then neither it nor
    the inherited [valueOf] yields a primitive, which is a [TypeError].  An
    array is converted by joining the conversions of its elements. *)
Fixpoint ToString (v : value) : result string :=
  match v with
  | VUndefined => Ok "undefined"
  | VNull => Ok "null"
  | VBool true => Ok "true"
  | VBool false => Ok "false"
  | VNum n => Ok (NumberToString n)
  | VStr s => Ok s
  | VArr l => texts <- element_texts ToString l ;; Ok (join "," texts)
  | VObj props =>
      if has_own "toString" props then Throw TypeError
      else Ok "[object Object]"
  end.

(** [ToNumber], applied by [>=], [>] and [Math.round] to their operands;
    an object or array goes through the same methods as for [ToString]. *)
Definition ToNumber (v : value) : result number :=
  match v with
  | VUndefined => Ok NaN
  | VNull => Ok (num_of_Z 0)
  | VBool true => Ok (num_of_Z 1)
  | VBool false => Ok (num_of_Z 0)
  | VNum n => Ok n
  | VStr s => Ok (StringToNumber s)
  | VArr _ | VObj _ => s <- ToString v ;; Ok (StringToNumber s)
  end.

(** [s.toLowerCase()] *)
Definition toLowerCase (s : string) : string :=
  if is_ascii s then lower_letters s else UnicodeToLowerCase s.

(** [v.toLowerCase()]: a method of strings only. *)
Definition call_toLowerCase (v : value) : result string :=
  match v with
  | VStr s => Ok (toLowerCase s)
  | _ => Throw TypeError
  end.

(** The conversions as total functions, for values on which they do not
    throw: [convertible] tells which these are, [text_of] and [number_of]
    what they give. *)
Fixpoint convertible (v : value) : bool :=
  match v with
  | VArr l => forallb (fun x => nullish x || convertible x) l
  | VObj props => negb (has_own "toString" props)
  | _ => true
  end.

Fixpoint text_of (v : value) : string :=
  match v with
  | VUndefined => "undefined"
  | VNull => "null"
  | VBool true => "true"
  | VBool false => "false"
  | VNum n => NumberToString n
  | VStr s => s
  | VArr l => join "," (map (fun x => if nullish x then "" else text_of x) l)
  | VObj _ => "[object Object]"
  end.

Definition number_of (v : value) : number :=
  match v with
  | VUndefined => NaN
  | VNull => num_of_Z 0
  | VBool true => num_of_Z 1
  | VBool false => num_of_Z 0
  | VNum n => n
  | VStr s => StringToNumber s
  | VArr _ | VObj _ => StringToNumber (text_of v)
  end.

(** One assignment to a property of the element with a given id. *)
Record dom_write : Type := mk_write
  { element : string; property : string; text : string }.

(** *** KPI cards *)

Definition setScoreCard (cardId : string) (score : number) (riskLevel : string)
  : list dom_write :=
  ([ mk_write (cardId ++ "Score") "textContent" (NumberToString (Math_round score));
     mk_write (cardId ++ "ScoreFill") "style.width" (NumberToString score ++ "%") ]
   ++ (if cardId =? "overall"
       then [ mk_write "overallRiskLevel" "textContent" ("Risk Level: " ++ riskLevel);
              mk_write "overallRiskLevel" "className"
                ("risk-level " ++ toLowerCase riskLevel) ]
       else []))%list.

(** [dashboardData.<category>?.assessments || []] *)
Definition assessments_of (dashboardData : value) (category : string)
  : result value :=
  c <- get dashboardData category ;;
  Ok (js_or (get_opt c "assessments") (VArr [])).

(** [[...(dashboardData.ec2?.assessments || []),
      ...(dashboardData.s3?.assessments || [])]] *)
Definition all_assessments (dashboardData : value) : result (list value) :=
  e <- assessments_of dashboardData "ec2" ;;
  ec2 <- spread e ;;
  s <- assessments_of dashboardData "s3" ;;
  s3 <- spread s ;;
  Ok (ec2 ++ s3)%list.

(** The callback of [countCriticalIssues], on the captured [count]. *)
Definition critical_step (assessment : value) (count : nat) : result nat :=
  r <- get assessment "risk_level" ;;
  Ok (if strict_eq_str r "Critical" then S count else count).

Definition countCriticalIssues (dashboardData : value) : result nat :=
  assessments <- all_assessments dashboardData ;;
  forEach assessments critical_step 0%nat.

Definition updateKPICards (dashboardData : value) : result (list dom_write) :=
  summary <- get dashboardData "summary" ;;
  overall <- get summary "overall" ;;
  let overallScore := js_or (get_opt overall "average_score") (VNum (num_of_Z 0)) in
  overall_number <- ToNumber overallScore ;;
  let w_overall :=
    setScoreCard "overall" (Math_round overall_number)
      (getRiskLevel overall_number) in
  ec2 <- get summary "ec2" ;;
  let ec2Score := js_or (get_opt ec2 "average_score") (VNum (num_of_Z 0)) in
  ec2_number <- ToNumber ec2Score ;;
  ec2_width <- ToString ec2Score ;;
  ec2_count <- ToString (js_or (get_opt ec2 "count") (VNum (num_of_Z 0))) ;;
  let w_ec2 :=
    [ mk_write "ec2Score" "textContent" (NumberToString (Math_round ec2_number));
      mk_write "ec2ScoreFill" "style.width" (ec2_width ++ "%");
      mk_write "ec2Count" "textContent" (ec2_count ++ " instances") ] in
  s3 <- get summary "s3" ;;
  let s3Score := js_or (get_opt s3 "average_score") (VNum (num_of_Z 0)) in
  s3_number <- ToNumber s3Score ;;
  s3_width <- ToString s3Score ;;
  s3_count <- ToString (js_or (get_opt s3 "count") (VNum (num_of_Z 0))) ;;
  let w_s3 :=
    [ mk_write "s3Score" "textContent" (NumberToString (Math_round s3_number));
      mk_write "s3ScoreFill" "style.width" (s3_width ++ "%");
      mk_write "s3Count" "textContent" (s3_count ++ " buckets") ] in
  criticalCount <- countCriticalIssues dashboardData ;;
  Ok (w_overall ++ w_ec2 ++ w_s3
      ++ [ mk_write "criticalCount" "textContent"
             (NumberToString (num_of_nat criticalCount)) ])%list.

(** *** Breakdown charts

    Each function returns the [breakdown] object whose four counters are the
    chart's dataset, in the order of the fields. *)

Definition ec2_step (assessment : value) (b : EC2.breakdown)
  : result EC2.breakdown :=
  enc <- get assessment "ebs_encryption_enabled" ;;
  let b1 :=
    if truthy enc
    then EC2.mk (S (EC2.encrypted b)) (EC2.notEncrypted b)
                (EC2.publicAccess b) (EC2.restricted b)
    else EC2.mk (EC2.encrypted b) (S (EC2.notEncrypted b))
                (EC2.publicAccess b) (EC2.restricted b) in
  pub <- get assessment "has_public_ip" ;;
  Ok (if truthy pub
      then EC2.mk (EC2.encrypted b1) (EC2.notEncrypted b1)
                  (S (EC2.publicAccess b1)) (EC2.restricted b1)
      else EC2.mk (EC2.encrypted b1) (EC2.notEncrypted b1)
                  (EC2.publicAccess b1) (S (EC2.restricted b1))).

Definition updateEC2BreakdownChart (dashboardData : value)
  : result EC2.breakdown :=
  a <- assessments_of dashboardData "ec2" ;;
  assessments <- array_receiver a ;;
  forEach assessments ec2_step (EC2.mk 0 0 0 0).

Definition s3_step (assessment : value) (b : S3.breakdown)
  : result S3.breakdown :=
  enc <- get assessment "encryption_enabled" ;;
  let b1 :=
    if truthy enc
    then S3.mk (S (S3.encrypted b)) (S3.notEncrypted b)
               (S3.publicAccessAllowed b) (S3.secured b)
    else S3.mk (S3.encrypted b) (S (S3.notEncrypted b))
               (S3.publicAccessAllowed b) (S3.secured b) in
  pub <- get assessment "public_access_block_disabled" ;;
  Ok (if negb (truthy pub)
      then S3.mk (S3.encrypted b1) (S3.notEncrypted b1)
                 (S3.publicAccessAllowed b1) (S (S3.secured b1))
      else S3.mk (S3.encrypted b1) (S3.notEncrypted b1)
                 (S (S3.publicAccessAllowed b1)) (S3.secured b1)).

Definition updateS3BreakdownChart (dashboardData : value)
  : result S3.breakdown :=
  a <- assessments_of dashboardData "s3" ;;
  assessments <- array_receiver a ;;
  forEach assessments s3_step (S3.mk 0 0 0 0).

(** *** Risk distribution

    [riskCounts] has the four own properties the chart reads.  [in] turns
    its left operand into a property key and also finds the members
    inherited from [Object.prototype]; [riskCounts[k]++] on such a [k]
    writes a property named [k], which is never read, and leaves the four
    counters as they are. *)

Record riskCounts : Type := mk_counts
  { Low : nat; Medium : nat; High : nat; Critical : nat }.

Definition risk_levels : list string := ["Low"; "Medium"; "High"; "Critical"].

Definition in_riskCounts (k : string) : bool :=
  mem_string k risk_levels || mem_string k Object_prototype_members.

Definition increment (k : string) (c : riskCounts) : riskCounts :=
  if k =? "Low" then mk_counts (S (Low c)) (Medium c) (High c) (Critical c)
  else if k =? "Medium" then mk_counts (Low c) (S (Medium c)) (High c) (Critical c)
  else if k =? "High" then mk_counts (Low c) (Medium c) (S (High c)) (Critical c)
  else if k =? "Critical" then mk_counts (Low c) (Medium c) (High c) (S (Critical c))
  else c.

Definition risk_step (assessment : value) (c : riskCounts) : result riskCounts :=
  r <- get assessment "risk_level" ;;
  let risk := js_or r (VStr "Unknown") in
  k <- ToString risk ;;
  Ok (if in_riskCounts k then increment k c else c).

Definition updateRiskDistributionChart (dashboardData : value)
  : result riskCounts :=
  assessments <- all_assessments dashboardData ;;
  forEach assessments risk_step (mk_counts 0 0 0 0).

(** *** Recommendation cards *)

Definition resource_type_block (resource_type : value) : result string :=
  if truthy resource_type then
    t <- ToString resource_type ;;
    Ok (nl ++ "                <div class=" ++ dq ++ "resource-info" ++ dq ++ ">"
        ++ nl ++ "                    <strong>Type:</strong> " ++ t
        ++ nl ++ "                </div>"
        ++ nl ++ "            ")
  else Ok "".

(** The card, given the lower-cased priority for the two [class]
    attributes, the text of the badge, and the three texts of the body. *)
Definition recommendation_html (class_priority badge title description issue
    type_block : string) : string :=
    nl ++ "        <div class=" ++ dq ++ "recommendation-card " ++ class_priority ++ dq ++ ">"
    ++ nl ++ "            <div class=" ++ dq ++ "priority-badge " ++ class_priority ++ dq
      ++ ">"
    ++ nl ++ "                " ++ badge
    ++ nl ++ "            </div>"
    ++ nl ++ "            <h4>" ++ title ++ "</h4>"
    ++ nl ++ "            <p>" ++ description ++ "</p>"
    ++ nl ++ "            <div class=" ++ dq ++ "resource-info" ++ dq ++ ">"
    ++ nl ++ "                <strong>Issue:</strong> " ++ issue
    ++ nl ++ "            </div>"
    ++ nl ++ "            " ++ type_block
    ++ nl ++ "        </div>"
    ++ nl ++ "    ".

Definition createRecommendationCard (recommendation : value) : result string :=
  p <- get recommendation "priority" ;;
  let priority := js_or p (VStr "MEDIUM") in
  lower <- call_toLowerCase priority ;;
  badge <- ToString priority ;;
  title <- get recommendation "title" ;;
  title_text <- ToString (js_or title (VStr "Security Recommendation")) ;;
  description <- get recommendation "description" ;;
  description_text <-
    ToString (js_or description (VStr "Review security configuration")) ;;
  issue <- get recommendation "issue" ;;
  issue_text <- ToString (js_or issue (VStr "General security concern")) ;;
  resource_type <- get recommendation "resource_type" ;;
  type_block <- resource_type_block resource_type ;;
  Ok (recommendation_html lower badge title_text description_text issue_text
        type_block).

(** The value assigned to [container.innerHTML]. *)
Definition updateRecommendations (dashboardData : value) : result dom_write :=
  r <- get dashboardData "recommendations" ;;
  let recommendations := js_or r (VArr []) in
  if strict_eq_num (member recommendations "length") 0 then
    Ok (mk_write "recommendationsContainer" "innerHTML"
          ("<div class=" ++ dq ++ "loading" ++ dq
           ++ ">No critical recommendations at this time</div>"))
  else
    l <- array_receiver recommendations ;;
    cards <- mapM createRecommendationCard l ;;
    Ok (mk_write "recommendationsContainer" "innerHTML" (join "" cards)).

(** *** Assessment cards *)

(** [colors[k] || '#B0B8C1'] for a property key [k], as the text a
    template literal makes of it: a keyed read on the [colors] literal
    also finds the members inherited from [Object.prototype], which are
    truthy. *)
Definition colors_lookup (k : string) : string :=
  if k =? "Low" then "#2D8B47"
  else if k =? "Medium" then "#FFC107"
  else if k =? "High" then "#FF9800"
  else if k =? "Critical" then "#D32F2F"
  else if k =? "__proto__" then "[object Object]"
  else if mem_string k Object_prototype_members then NativeFunctionToString k
  else "#B0B8C1".

Definition getRiskColor (riskLevel : value) : result string :=
  k <- ToString riskLevel ;;
  Ok (colors_lookup k).

Definition state_badge (type : string) (state : value) : result string :=
  if type =? "EC2" then
    t <- ToString state ;;
    Ok ("<span class=" ++ dq ++ "status-badge " ++ t ++ dq ++ ">"
        ++ t ++ "</span>")
  else Ok "".

Definition issue_item (issue : value) : result string :=
  t <- ToString issue ;;
  Ok ("<li>" ++ t ++ "</li>").

(** [issues.length > 3 ? `<li>... and ${issues.length - 3} more issues</li>` : ''] *)
Definition more_marker (issues : list value) : string :=
  if num_ltb (num_of_Z 3) (num_of_nat (List.length issues)) then
    "<li>... and "
      ++ NumberToString (num_of_Z (Z.of_nat (List.length issues) - 3))
      ++ " more issues</li>"
  else "".

Definition issues_list_html (items marker : string) : string :=
    nl ++ "                <div class=" ++ dq ++ "issues-list" ++ dq ++ ">"
    ++ nl ++ "                    " ++ items
    ++ nl ++ "                    " ++ marker
    ++ nl ++ "                </div>"
    ++ nl ++ "            ".

Definition no_issues_html : string :=
  "<p style=" ++ dq ++ "color: #2D8B47; font-size: 0.9rem;" ++ dq ++ ">"
    ++ no_issues_mark ++ " No issues found</p>".

(** The last interpolation of the card: [issues.length > 0 ? ... : ...]. *)
Definition issues_block (issues : value) : result string :=
  len <- ToNumber (member issues "length") ;;
  if num_ltb (num_of_Z 0) len then
    l <- array_receiver issues ;;
    items <- mapM issue_item (Array_slice l 0 3) ;;
    Ok (issues_list_html (join "" items) (more_marker l))
  else Ok no_issues_html.

(** The template of the card, given the text of each interpolation. *)
Definition assessment_html (type name_text badge color rounded width gradient
    risk_color risk_text issuesHtml : string) : string :=
    nl ++ "        <div class=" ++ dq ++ "assessment-item" ++ dq ++ ">"
    ++ nl ++ "            <h4>" ++ name_text ++ "</h4>"
    ++ nl ++ "            <p class=" ++ dq ++ "resource-name" ++ dq ++ ">"
    ++ nl ++ "                "
      ++ (if type =? "EC2" then type ++ " Instance" else "S3 Bucket")
    ++ nl ++ "                " ++ badge
    ++ nl ++ "            </p>"
    ++ nl ++ "            <div class=" ++ dq ++ "assessment-score" ++ dq ++ ">"
    ++ nl ++ "                <div class=" ++ dq ++ "assessment-score-value" ++ dq
      ++ " style=" ++ dq ++ "color: " ++ color ++ dq ++ ">"
    ++ nl ++ "                    " ++ rounded
    ++ nl ++ "                </div>"
    ++ nl ++ "                <div class=" ++ dq ++ "assessment-score-bar" ++ dq
      ++ ">"
    ++ nl ++ "                    <div class=" ++ dq ++ "score-bar" ++ dq ++ ">"
    ++ nl ++ "                        <div class=" ++ dq ++ "score-fill" ++ dq
      ++ " style=" ++ dq ++ "width: " ++ width ++ "%; background: "
      ++ gradient ++ dq ++ "></div>"
    ++ nl ++ "                    </div>"
    ++ nl ++ "                    <p style=" ++ dq
      ++ "font-size: 0.8rem; color: #B0B8C1; margin-top: 0.25rem;" ++ dq ++ ">"
    ++ nl ++ "                        Risk: <strong style=" ++ dq ++ "color: "
      ++ risk_color ++ dq ++ ">" ++ risk_text ++ "</strong>"
    ++ nl ++ "                    </p>"
    ++ nl ++ "                </div>"
    ++ nl ++ "            </div>"
    ++ nl ++ "            " ++ issuesHtml
    ++ nl ++ "        </div>"
    ++ nl ++ "    ".

Definition createAssessmentCard (assessment : value) (type : string)
  : result string :=
  s <- get assessment "security_score" ;;
  let score := js_or s (VNum (num_of_Z 0)) in
  r <- get assessment "risk_level" ;;
  let riskLevel := js_or r (VStr "Unknown") in
  n1 <- get assessment "instance_name" ;;
  n2 <- get assessment "bucket_name" ;;
  let name := js_or (js_or n1 n2) (VStr "Unknown") in
  st <- get assessment "state" ;;
  let state := js_or st (VStr "unknown") in
  i <- get assessment "issues" ;;
  let issues := js_or i (VArr []) in
  name_text <- ToString name ;;
  badge <- state_badge type state ;;
  score_number <- ToNumber score ;;
  width <- ToString score ;;
  risk_color <- getRiskColor riskLevel ;;
  risk_text <- ToString riskLevel ;;
  issuesHtml <- issues_block issues ;;
  Ok (assessment_html type name_text badge (getScoreColor score_number)
        (NumberToString (Math_round score_number)) width
        (getScoreGradient score_number) risk_color risk_text issuesHtml).

Definition updateAssessmentList (elementId : string) (assessments : value)
    (type : string) : result dom_write :=
  if strict_eq_num (member assessments "length") 0 then
    Ok (mk_write elementId "innerHTML"
          ("<div class=" ++ dq ++ "loading" ++ dq ++ ">No " ++ type
           ++ " assessments found</div>"))
  else
    l <- array_receiver assessments ;;
    cards <- mapM (fun assessment => createAssessmentCard assessment type) l ;;
    Ok (mk_write elementId "innerHTML" (join "" cards)).

Definition updateAssessments (dashboardData : value) : result (list dom_write) :=
  ec2Assessments <- assessments_of dashboardData "ec2" ;;
  s3Assessments <- assessments_of dashboardData "s3" ;;
  w1 <- updateAssessmentList "ec2AssessmentList" ec2Assessments "EC2" ;;
  w2 <- updateAssessmentList "s3AssessmentList" s3Assessments "S3" ;;
  Ok [w1; w2].

End Dashboard.

(** ** The API client ([api-client.js]) *)

Definition num (z : Z) : value := VNum (num_of_Z z).

Definition sample_summary : value :=
  VObj [ ("overall", VObj [("average_score", num 85)]);
         ("ec2", VObj [("average_score", num 90); ("count", num 2)]);
         ("s3", VObj [("average_score", num 80); ("count", num 1)]) ].

Definition sample_ec2 : value :=
  VObj [ ("assessments", VArr
    [ VObj [ ("instance_name", VStr "web-server-01");
             ("security_score", num 92);
             ("risk_level", VStr "Low");
             ("ebs_encryption_enabled", VBool true);
             ("has_public_ip", VBool false);
             ("state", VStr "running");
             ("issues", VArr []) ];
      VObj [ ("instance_name", VStr "db-server-01");
             ("security_score", num 78);
             ("risk_level", VStr "Medium");
             ("ebs_encryption_enabled", VBool false);
             ("has_public_ip", VBool true);
             ("state", VStr "stopped");
             ("issues", VArr [VStr "EBS not encrypted"]) ] ]) ].

Definition sample_s3 : value :=
  VObj [ ("assessments", VArr
    [ VObj [ ("bucket_name", VStr "my-app-data");
             ("security_score", num 80);
             ("risk_level", VStr "Medium");
             ("encryption_enabled", VBool true);
             ("public_access_block_disabled", VBool false);
             ("issues", VArr []) ] ]) ].

Definition sample_recommendations : value :=
  VArr [ VObj [ ("title", VStr "Enable EBS encryption");
                ("description",
                 VStr "EBS volumes should be encrypted to protect data at rest.");
                ("priority", VStr "HIGH");
                ("issue", VStr "EBS not encrypted");
                ("resource_type", VStr "EC2") ] ].

Definition sample : value :=
  VObj [ ("summary", sample_summary);
         ("ec2", sample_ec2);
         ("s3", sample_s3);
         ("recommendations", sample_recommendations) ].

Definition mockApiResponse (endpoint : string) (method : string) : value :=
  if includes endpoint "/api/dashboard" then sample
  else if includes endpoint "/api/assessments"
       then VObj [("ec2", sample_ec2); ("s3", sample_s3)]
  else if includes endpoint "/api/recommendations" then sample_recommendations
  else if includes endpoint "/api/security-score-summary" then sample_summary
  else VObj [].

(** The second argument of [fetch]. *)
Record options : Type := mk_options
  { opt_method : string;
    opt_headers : list (string * string);
    opt_body : option string }.

(** What the code reads of a [Response]: [ok], [status], [statusText], and
    the outcome of [await response.json()]. *)
Record response : Type := mk_response
  { ok : bool;
    status : Z;
    statusText : string;
    json : result value }.

(** [await fetch(url, options)] either yields a response or throws the
    reason the promise was rejected with. *)
Inductive fetch_outcome : Type :=
| Fulfilled (r : response)
| Rejected (reason : exn).

Inductive console_entry : Type :=
| console_error (label : string) (error : exn)
| console_warn (label : string) (arg : string).

Record APIClient : Type := mk_client { baseUrl : string }.

Section Client.

(** The transport and the serializer are the host's. *)
Variable fetch : string -> options -> fetch_outcome.
Variable JSON_stringify : value -> string.

(** The body of the [try] block of [request]. *)
Definition request_try (this : APIClient) (endpoint method : string)
    (data : value) : result value :=
  let options :=
    mk_options method [("Content-Type", "application/json")]
      (if truthy data then Some (JSON_stringify data) else None) in
  match fetch (baseUrl this ++ endpoint) options with
  | Rejected reason => Throw reason
  | Fulfilled response =>
      if negb (ok response) then
        Throw (Error ("API Error: " ++ string_of_Z (status response) ++ " "
                      ++ statusText response))
      else json response
  end.

(** [request] returns what it wrote to the console together with its
    outcome: [Ok] when the promise it returns is fulfilled, [Throw] when it
    is rejected. *)
Definition request (this : APIClient) (endpoint method : string) (data : value)
  : list console_entry * result value :=
  match request_try this endpoint method data with
  | Ok v => ([], Ok v)
  | Throw error =>
      if truthy (VStr endpoint) && startsWith endpoint "/api" then
        ([ console_error "API Request Error:" error;
           console_warn "Falling back to mock data for" endpoint ],
         Ok (mockApiResponse endpoint method))
      else ([ console_error "API Request Error:" error ], Throw error)
  end.

Definition getDashboardData (this : APIClient) :=
  request this "/api/dashboard" "GET" VNull.

Definition getAssessments (this : APIClient) :=
  request this "/api/assessments" "GET" VNull.

Definition getRecommendations (this : APIClient) :=
  request this "/api/recommendations" "GET" VNull.

Definition getSecurityScoreSummary (this : APIClient) :=
  request this "/api/security-score-summary" "GET" VNull.

Definition saveAssessment (this : APIClient) (assessment : value) :=
  request this "/api/assessment" "POST" assessment.

Definition saveRecommendation (this : APIClient) (recommendation : value) :=
  request this "/api/recommendation" "POST" recommendation.

(** The transport call of [request] fails: the promise of [fetch] is
    rejected (network error), or the response has a non-success status. *)
Definition transport_fails (this : APIClient) (endpoint method : string)
    (data : value) : Prop :=
  match fetch (baseUrl this ++ endpoint)
          (mk_options method [("Content-Type", "application/json")]
             (if truthy data then Some (JSON_stringify data) else None)) with
  | Rejected _ => True
  | Fulfilled r => ok r = false
  end.

End Client.

(** The endpoint names the six methods of the client pass to [request]. *)
Definition client_endpoints : list string :=
  [ "/api/dashboard"; "/api/assessments"; "/api/recommendations";
    "/api/security-score-summary"; "/api/assessment"; "/api/recommendation" ].

(** ** Notions used to state the properties *)

(** A payload that carries the two assessment lists. *)
Definition payload_of (ec2 s3 : list value) : value :=
  VObj [ ("ec2", VObj [("assessments", VArr ec2)]);
         ("s3", VObj [("assessments", VArr s3)]) ].

(** The entry is an object or another value with properties: reading a
    property of it does not throw. *)
Definition present (a : value) : bool := negb (nullish a).

Definition count_where (p : value -> bool) (l : list value) : nat :=
  List.length (filter p l).

Definition b2n (b : bool) : nat := if b then 1%nat else 0%nat.

(** [a.risk_level === lvl] *)
Definition risk_level_is (lvl : string) (a : value) : bool :=
  strict_eq_str (member a "risk_level") lvl.

(** The flag [a.flag] is truthy. *)
Definition flag_set (flag : string) (a : value) : bool :=
  truthy (member a flag).

Definition flag_clear (flag : string) (a : value) : bool :=
  negb (truthy (member a flag)).

(** The entry can be read and its [risk_level] is a string or is absent
    ([undefined] or [null]). *)
Definition risk_level_text_or_absent (a : value) : bool :=
  present a &&
  match member a "risk_level" with
  | VStr _ | VUndefined | VNull => true
  | _ => false
  end.

(** The [priority] of a recommendation is a string or is absent. *)
Definition priority_text_or_absent (r : value) : bool :=
  match member r "priority" with
  | VStr _ | VUndefined | VNull => true
  | _ => false
  end.

(** The priority a card works with: the one supplied, 'MEDIUM' when none
    (or the empty string) is. *)
Definition priority_of (r : value) : string :=
  match member r "priority" with
  | VStr s => if s =? "" then "MEDIUM" else s
  | _ => "MEDIUM"
  end.

(** The entry can be read and its [risk_level] can be made a property
    key. *)
Definition entry_readable (a : value) : bool :=
  present a && convertible (member a "risk_level").

(** An [assessments] field is absent or an array of such entries. *)
Definition entries_or_absent (v : value) : bool :=
  match v with
  | VUndefined | VNull => true
  | VArr l => forallb entry_readable l
  | _ => false
  end.

(** The scores and counts of a summary can be converted to numbers and
    texts. *)
Definition summary_convertible (summary : value) : bool :=
  convertible (get_opt (member summary "overall") "average_score")
  && convertible (get_opt (member summary "ec2") "average_score")
  && convertible (get_opt (member summary "ec2") "count")
  && convertible (get_opt (member summary "s3") "average_score")
  && convertible (get_opt (member summary "s3") "count").

(** A payload the aggregation functions are written for: an object with a
    [summary] of convertible scores and counts, and assessment lists that
    are absent or arrays of readable entries. *)
Definition well_shaped (d : value) : bool :=
  present d && present (member d "summary")
  && summary_convertible (member d "summary")
  && entries_or_absent (get_opt (member d "ec2") "assessments")
  && entries_or_absent (get_opt (member d "s3") "assessments").

(** The fields of an assessment that its card shows can be converted. *)
Definition card_fields_convertible (a : value) : bool :=
  convertible (member a "instance_name")
  && convertible (member a "bucket_name")
  && convertible (member a "state")
  && convertible (member a "security_score")
  && convertible (member a "risk_level").

(** What a card converts of an assessment, given the type of the card:
    the name, the state on an EC2 card, the score and the risk level, each
    after its default was filled in. *)
Definition card_convertible (a : value) (type : string) : bool :=
  convertible (js_or (js_or (member a "instance_name") (member a "bucket_name"))
                 (VStr "Unknown"))
  && (negb (type =? "EC2")
      || convertible (js_or (member a "state") (VStr "unknown")))
  && convertible (js_or (member a "security_score") (VNum (num_of_Z 0)))
  && convertible (js_or (member a "risk_level") (VStr "Unknown")).

(** An [issues] field is absent, or an array whose first three entries can
    be converted. *)
Definition issues_usable (v : value) : bool :=
  match v with
  | VUndefined | VNull => true
  | VArr l => forallb convertible (firstn 3 l)
  | _ => false
  end.

(** The texts of a recommendation that its card shows can be converted. *)
Definition recommendation_fields_convertible (r : value) : bool :=
  convertible (member r "title")
  && convertible (member r "description")
  && convertible (member r "issue")
  && convertible (member r "resource_type").

(** The two assessments of the worked example. *)
Definition example_ec2 : value :=
  VObj [ ("ebs_encryption_enabled", VBool false);
         ("has_public_ip", VBool true);
         ("risk_level", VStr "Medium") ].

Definition example_s3 : value :=
  VObj [ ("encryption_enabled", VBool true);
         ("public_access_block_disabled", VBool false);
         ("risk_level", VStr "Low") ].

(** ** The refresh cycle ([dashboard.js], lines 34-64 and 139-143) *)

(** [String(n)] for a natural number. *)
Definition String_of_nat (n : nat) : string := string_of_Z (Z.of_nat n).

Fixpoint repeat_string (s : string) (n : nat) : string :=
  match n with
  | O => ""
  | S k => s ++ repeat_string s k
  end.

(** [s.padStart(targetLength, padString)] *)
Definition padStart (s : string) (targetLength : nat) (padString : string)
  : string :=
  let len := String.length s in
  if (targetLength <=? len)%nat || (padString =? "") then s
  else substring 0 (targetLength - len)
         (repeat_string padString (targetLength - len)) ++ s.

(** [updateLastUpdatedTime], given what [now.getHours()] and
    [now.getMinutes()] return. *)
Definition updateLastUpdatedTime (hours minutes : nat) : dom_write :=
  mk_write "lastUpdated" "textContent"
    (padStart (String_of_nat hours) 2 "0" ++ ":"
     ++ padStart (String_of_nat minutes) 2 "0").

(** The client the page creates, given [window.location.hostname]. *)
Definition apiClient (hostname : string) : APIClient :=
  mk_client (if hostname =? "localhost" then "http://localhost:3000" else "").

(** What the console of the page receives: the entries of the client, and
    the one-argument calls of [console.log] and [console.error]. *)
Inductive page_console : Type :=
| client_entry (e : console_entry)
| console_log (message : string)
| console_error_message (message : string).

(** [showError(message)] *)
Definition showError (message : string) : list page_console :=
  [console_error_message message].

(** What one run of the four update steps hands to the page. *)
Record rendering : Type := mk_rendering
  { kpi_writes : list dom_write;
    ec2_chart : EC2.breakdown;
    s3_chart : S3.breakdown;
    risk_chart : riskCounts;
    recommendations_write : dom_write;
    assessment_writes : list dom_write }.

(** The outcome of [refreshDashboard]: the clock text, the console output,
    the value of [dashboardData] afterwards, and the rendering when every
    update step completed.  When a step throws, the writes made before the
    throw stay on the page; they are not tracked, and [rendered] is
    [None]. *)
Record refreshed : Type := mk_refreshed
  { clock_write : dom_write;
    console_out : list page_console;
    dashboardData_after : value;
    rendered : option rendering }.

Section Refresh.

Variable StringToNumber : string -> number.
Variable FractionToString : Q -> string.
Variable NativeFunctionToString : string -> string.
Variable UnicodeToLowerCase : string -> string.
Variable fetch : string -> options -> fetch_outcome.
Variable JSON_stringify : value -> string.

Definition updateCharts (dashboardData : value)
  : result (EC2.breakdown * S3.breakdown * riskCounts) :=
  e <- updateEC2BreakdownChart dashboardData ;;
  s <- updateS3BreakdownChart dashboardData ;;
  r <- updateRiskDistributionChart FractionToString dashboardData ;;
  Ok (e, s, r).

(** The four update calls of [refreshDashboard], on the new
    [dashboardData]. *)
Definition update_all (dashboardData : value) : result rendering :=
  k <- updateKPICards StringToNumber FractionToString UnicodeToLowerCase
         dashboardData ;;
  c <- updateCharts dashboardData ;;
  r <- updateRecommendations FractionToString UnicodeToLowerCase
         dashboardData ;;
  a <- updateAssessments StringToNumber FractionToString
         NativeFunctionToString dashboardData ;;
  Ok (mk_rendering k (fst (fst c)) (snd (fst c)) (snd c) r a).

(** The [catch] block of [refreshDashboard]. *)
Definition refresh_failed (error : exn) : list page_console :=
  (client_entry (console_error "Dashboard refresh error:" error)
   :: showError "Failed to refresh dashboard data")%list.

Definition refreshDashboard (hostname : string) (hours minutes : nat)
    (dashboardData : value) : refreshed :=
  let clock := updateLastUpdatedTime hours minutes in
  let '(client_console, response) :=
    getDashboardData fetch JSON_stringify (apiClient hostname) in
  match response with
  | Throw error =>
      mk_refreshed clock
        (map client_entry client_console ++ refresh_failed error)%list
        dashboardData None
  | Ok response =>
      match update_all response with
      | Ok r =>
          mk_refreshed clock
            (map client_entry client_console
             ++ [console_log "Dashboard refreshed successfully"])%list
            response (Some r)
      | Throw error =>
          mk_refreshed clock
            (map client_entry client_console ++ refresh_failed error)%list
            response None
      end
  end.

End Refresh.

(** Reading a clock text back: two digits, a colon, two digits. *)
Definition digit_of (c : ascii) : option nat :=
  let n := nat_of_ascii c in
  if (48 <=? n)%nat && (n <=? 57)%nat then Some (n - 48)%nat else None.

Definition clock_of_text (s : string) : option (nat * nat) :=
  match s with
  | String a (String b (String c (String d (String e "")))) =>
      match digit_of a, digit_of b, digit_of d, digit_of e with
      | Some h1, Some h0, Some m1, Some m0 =>
          if (nat_of_ascii c =? 58)%nat
          then Some (10 * h1 + h0, 10 * m1 + m0)%nat
          else None
      | _, _, _, _ => None
      end
  | _ => None
  end.

(** A recommendation record a card can be built from. *)
Definition recommendation_ok (r : value) : bool :=
  present r && priority_text_or_absent r
  && recommendation_fields_convertible r.

(** An assessment a card can be built from. *)
Definition assessment_ok (a : value) : bool :=
  present a && card_fields_convertible a
  && issues_usable (member a "issues").

(** A [recommendations] field that is absent or an array of such records. *)
Definition recommendations_ok (v : value) : bool :=
  match v with
  | VUndefined | VNull => true
  | VArr l => forallb recommendation_ok l
  | _ => false
  end.

(** An [assessments] field that is absent or an array of such
    assessments. *)
Definition assessments_ok (v : value) : bool :=
  match v with
  | VUndefined | VNull => true
  | VArr l => forallb assessment_ok l
  | _ => false
  end.

(** A payload on which a refresh renders every section. *)
Definition renderable (d : value) : bool :=
  present d && present (member d "summary")
  && summary_convertible (member d "summary")
  && assessments_ok (get_opt (member d "ec2") "assessments")
  && assessments_ok (get_opt (member d "s3") "assessments")
  && recommendations_ok (member d "recommendations").


(** The only exception the computation can throw is a [TypeError]. *)
Definition throws_only_TypeError {A} (r : result A) : Prop :=
  forall e, r = Throw e -> e = TypeError.

(** ** Tabs ([switchTab], lines 472-492)

    The document is the list of its elements in document order; an element
    is referred to by its position.  Of an element the code uses the id and
    the class list, the ordered set of tokens that [classList] shows.  The
    global [event] is [None] when no event is being handled. *)

Record dom_element : Type := mk_element
  { el_id : string; el_class : list string }.

Definition classList_contains (token : string) (el : dom_element) : bool :=
  mem_string token (el_class el).

Definition classList_remove (token : string) (el : dom_element) : dom_element :=
  mk_element (el_id el) (filter (fun t => negb (t =? token)) (el_class el)).

Definition classList_add (token : string) (el : dom_element) : dom_element :=
  if classList_contains token el then el
  else mk_element (el_id el) (el_class el ++ [token])%list.

(** [document.querySelectorAll('.' + cls).forEach(el =>
      el.classList.remove('active'))] *)
Definition deactivate_all (cls : string) (doc : list dom_element)
  : list dom_element :=
  map (fun el => if classList_contains cls el
                 then classList_remove "active" el else el) doc.

(** [document.getElementById(id)]: the first element with that id, none
    for the empty id. *)
Fixpoint getElementById (id : string) (doc : list dom_element) : option nat :=
  match doc with
  | [] => None
  | el :: rest =>
      if negb (id =? "") && (el_id el =? id) then Some 0%nat
      else option_map S (getElementById id rest)
  end.

(** A method call on the element at a position. *)
Fixpoint update_at (k : nat) (f : dom_element -> dom_element)
    (doc : list dom_element) : list dom_element :=
  match doc, k with
  | [], _ => []
  | el :: rest, O => f el :: rest
  | el :: rest, S k' => el :: update_at k' f rest
  end.

Record tabs_page : Type := mk_tabs_page
  { document : list dom_element; currentTab : string }.

(** [switchTab(tabName)], with [event.target] the element at position
    [target] when an event is being handled (a position past the end
    stands for a target outside the document, which the call cannot
    show).  Without one, reading [event.target] throws after the classes
    were changed and before [currentTab] is assigned. *)
Definition switchTab (tabName : string) (event : option nat)
    (page : tabs_page) : tabs_page * result unit :=
  let d1 := deactivate_all "assessment-tab" (document page) in
  let d2 := deactivate_all "tab-btn" d1 in
  let d3 := match getElementById tabName d2 with
            | Some selectedTab => update_at selectedTab (classList_add "active") d2
            | None => d2
            end in
  match event with
  | None => (mk_tabs_page d3 (currentTab page), Throw TypeError)
  | Some target =>
      (mk_tabs_page (update_at target (classList_add "active") d3) tabName,
       Ok tt)
  end.

(** The element is a tab panel or a tab button. *)
Definition is_tab_or_button (el : dom_element) : bool :=
  classList_contains "assessment-tab" el || classList_contains "tab-btn" el.

(** What [switchTab] does to one element, given whether it is the selected
    tab and whether it is the event target. *)
Definition switch_element (selected target : bool) (el : dom_element)
  : dom_element :=
  let e := if is_tab_or_button el then classList_remove "active" el else el in
  if selected || target then classList_add "active" e else e.

(** * Properties *)

Lemma num_ge_spec a b : num_ge a b = true <-> num_le b a.
Proof.
  split.
  - destruct a as [x| | |], b as [y| | |]; cbn; try discriminate;
      intros H; try (constructor; congruence).
    constructor. apply Qle_bool_iff.
    destruct (Qle_bool y x); [reflexivity|discriminate].
  - intros H; inversion H; subst; cbn.
    + apply Qle_bool_iff in H0. now rewrite H0.
    + destruct a; cbn; congruence.
    + destruct b; cbn; congruence.
Qed.

Lemma num_ltb_spec a b : num_ltb a b = true <-> num_less a b.
Proof.
  split.
  - destruct a as [x| | |], b as [y| | |]; cbn; try discriminate;
      intros H; try constructor.
    apply Qnot_le_lt. intros Hle. apply Qle_bool_iff in Hle.
    rewrite Hle in H. discriminate.
  - intros H; inversion H; subst; cbn; try reflexivity.
    destruct (Qle_bool y x) eqn:E; [|reflexivity].
    apply Qle_bool_iff in E. exfalso. exact (Qlt_not_le _ _ H0 E).
Qed.

(** On numbers that are not [NaN], [a < b] is the negation of [a >= b]. *)
Lemma num_ltb_ge a b : num_ltb a b = true -> num_ge a b = false.
Proof.
  unfold num_ltb, num_ge. destruct (num_lt a b) as [[|]|]; congruence.
Qed.

(** The three comparisons of a tier function are nested: a score that
    passes a higher threshold passes every lower one. *)
Lemma num_ge_weaken (s : number) (a b : Z) :
  (b <= a)%Z -> num_ge s (num_of_Z a) = true -> num_ge s (num_of_Z b) = true.
Proof.
  intros Hba. destruct s as [q| | |]; cbn; try congruence.
  destruct (Qle_bool (inject_Z a) q) eqn:Ea; [intros _|discriminate].
  apply Qle_bool_iff in Ea.
  assert (Hb : Qle_bool (inject_Z b) q = true).
  { apply Qle_bool_iff. eapply Qle_trans; [|exact Ea]. now rewrite <- Zle_Qle. }
  now rewrite Hb.
Qed.

Lemma num_ge_false_strengthen (s : number) (a b : Z) :
  (b <= a)%Z -> num_ge s (num_of_Z b) = false -> num_ge s (num_of_Z a) = false.
Proof.
  intros Hba Hb. destruct (num_ge s (num_of_Z a)) eqn:Ea; [|reflexivity].
  apply (num_ge_weaken s a b Hba) in Ea. congruence.
Qed.

(** C1. For every number [score], [getRiskLevel] returns 'Low' when
    [score >= 80], 'Medium' when [60 <= score < 80], 'High' when
    [40 <= score < 60] and 'Critical' in every other case ([NaN] included);
    it is total, and its result is always one of the four levels. *)
Theorem getRiskLevel_tiers (score : number) :
  (num_le (num_of_Z 80) score -> getRiskLevel score = "Low") /\
  (num_le (num_of_Z 60) score -> num_less score (num_of_Z 80) ->
     getRiskLevel score = "Medium") /\
  (num_le (num_of_Z 40) score -> num_less score (num_of_Z 60) ->
     getRiskLevel score = "High") /\
  (~ num_le (num_of_Z 40) score -> getRiskLevel score = "Critical") /\
  In (getRiskLevel score) ["Low"; "Medium"; "High"; "Critical"].
Proof.
  unfold getRiskLevel.
  repeat split.
  - intros H. apply num_ge_spec in H. now rewrite H.
  - intros H60 H80. apply num_ge_spec in H60.
    apply num_ltb_spec, num_ltb_ge in H80. now rewrite H80, H60.
  - intros H40 H60. apply num_ge_spec in H40.
    apply num_ltb_spec, num_ltb_ge in H60.
    rewrite (num_ge_false_strengthen score 80 60), H60, H40; [reflexivity|lia|assumption].
  - intros H40.
    assert (E40 : num_ge score (num_of_Z 40) = false).
    { destruct (num_ge score (num_of_Z 40)) eqn:E; [|reflexivity].
      exfalso. apply H40. now apply num_ge_spec. }
    rewrite (num_ge_false_strengthen score 80 40), (num_ge_false_strengthen score 60 40), E40;
      [reflexivity|lia|assumption|lia|assumption].
  - destruct (num_ge score (num_of_Z 80)); [simpl; auto|].
    destruct (num_ge score (num_of_Z 60)); [simpl; auto|].
    destruct (num_ge score (num_of_Z 40)); simpl; auto 6.
Qed.

(** C2. For every score (so for every score in [0,100]), the color and the
    gradient fall in the tier of the risk level: the color is '#2D8B47'
    exactly when the level is 'Low', '#FFC107' exactly when 'Medium',
    '#FF9800' exactly when 'High', '#D32F2F' exactly when 'Critical', and
    likewise for the four gradients; the cut points 40, 60 and 80 belong to
    the upper tier in all three functions. *)
Theorem score_color_agrees_with_risk_level (s : number) :
  ((getScoreColor s = "#2D8B47" <-> getRiskLevel s = "Low") /\
   (getScoreColor s = "#FFC107" <-> getRiskLevel s = "Medium") /\
   (getScoreColor s = "#FF9800" <-> getRiskLevel s = "High") /\
   (getScoreColor s = "#D32F2F" <-> getRiskLevel s = "Critical")) /\
  ((getScoreGradient s = "linear-gradient(90deg, #2D8B47, #4CAF50)"
      <-> getRiskLevel s = "Low") /\
   (getScoreGradient s = "linear-gradient(90deg, #FFC107, #FF9800)"
      <-> getRiskLevel s = "Medium") /\
   (getScoreGradient s = "linear-gradient(90deg, #FF9800, #FF6B6B)"
      <-> getRiskLevel s = "High") /\
   (getScoreGradient s = "linear-gradient(90deg, #D32F2F, #F44336)"
      <-> getRiskLevel s = "Critical")) /\
  (map getRiskLevel [num_of_Z 40; num_of_Z 60; num_of_Z 80]
     = ["High"; "Medium"; "Low"] /\
   map getScoreColor [num_of_Z 40; num_of_Z 60; num_of_Z 80]
     = ["#FF9800"; "#FFC107"; "#2D8B47"] /\
   map getScoreGradient [num_of_Z 40; num_of_Z 60; num_of_Z 80]
     = [ "linear-gradient(90deg, #FF9800, #FF6B6B)";
         "linear-gradient(90deg, #FFC107, #FF9800)";
         "linear-gradient(90deg, #2D8B47, #4CAF50)" ]).
Proof.
  unfold getScoreColor, getScoreGradient, getRiskLevel.
  split; [|split; [|repeat split]].
  - destruct (num_ge s (num_of_Z 80)), (num_ge s (num_of_Z 60)),
      (num_ge s (num_of_Z 40)); repeat split; intros H;
      first [reflexivity | discriminate H].
  - destruct (num_ge s (num_of_Z 80)), (num_ge s (num_of_Z 60)),
      (num_ge s (num_of_Z 40)); repeat split; intros H;
      first [reflexivity | discriminate H].
Qed.

(** ** Loops over assessment lists *)

Lemma get_present (a : value) (k : string) :
  present a = true -> get a k = Ok (member a k).
Proof.
  unfold present, get. now destruct (nullish a).
Qed.

Lemma get_absent (a : value) (k : string) :
  present a = false -> get a k = Throw TypeError.
Proof.
  unfold present, get. now destruct (nullish a).
Qed.

Lemma count_where_cons (p : value -> bool) (a : value) (l : list value) :
  count_where p (a :: l) = (b2n (p a) + count_where p l)%nat.
Proof.
  unfold count_where. simpl. now destruct (p a).
Qed.

Lemma count_where_perm (p : value -> bool) (l l' : list value) :
  Permutation l l' -> count_where p l = count_where p l'.
Proof.
  induction 1 as [|x l l' _ IH|x y l|l l' l'' _ IH1 _ IH2].
  - reflexivity.
  - now rewrite !count_where_cons, IH.
  - rewrite !count_where_cons. lia.
  - congruence.
Qed.

Lemma forallb_perm (p : value -> bool) (l l' : list value) :
  Permutation l l' -> forallb p l = forallb p l'.
Proof.
  induction 1 as [|x l l' _ IH|x y l|l l' l'' _ IH1 _ IH2]; simpl.
  - reflexivity.
  - now rewrite IH.
  - now destruct (p x), (p y).
  - congruence.
Qed.

(** A loop whose callback throws on an entry never yields a result. *)
Lemma forEach_absent {S : Type} (body : value -> S -> result S) :
  (forall a s, present a = false -> body a s = Throw TypeError) ->
  (forall a s, present a = true -> exists s', body a s = Ok s') ->
  forall l s, forallb present l = false -> forEach l body s = Throw TypeError.
Proof.
  intros Habs Hpres l. induction l as [|a l IH]; intros s Hl; simpl in *.
  - discriminate.
  - destruct (present a) eqn:Ea; simpl in Hl.
    + destruct (Hpres a s Ea) as [s' ->]. simpl. now apply IH.
    + now rewrite (Habs a s Ea).
Qed.

(** The branch of a loop lemma in which some entry cannot be read. *)
Ltac loop_throws step step_present :=
  apply forEach_absent;
  [ intros ? ? Habsent; unfold step; now rewrite (get_absent _ _ Habsent)
  | intros ? ? Hpresent; rewrite (step_present _ _ Hpresent); eauto
  | assumption ].

Lemma critical_step_present (a : value) (n : nat) :
  present a = true ->
  critical_step a n = Ok (b2n (risk_level_is "Critical" a) + n)%nat.
Proof.
  intros Ha. unfold critical_step. rewrite (get_present _ _ Ha). simpl.
  unfold risk_level_is. now destruct (strict_eq_str _ _).
Qed.

Lemma critical_loop (l : list value) (n : nat) :
  forEach l critical_step n =
  if forallb present l
  then Ok (n + count_where (risk_level_is "Critical") l)%nat
  else Throw TypeError.
Proof.
  destruct (forallb present l) eqn:El.
  - revert n. induction l as [|a l IH]; intros n; simpl.
    + unfold count_where. simpl. f_equal. lia.
    + simpl in El. apply andb_prop in El as [Ea El].
      rewrite (critical_step_present _ _ Ea). simpl.
      rewrite (IH El), count_where_cons. f_equal. lia.
  - loop_throws critical_step critical_step_present.
Qed.

(** C9. The critical count does not depend on the order of the
    assessments: two payloads whose combined assessment lists (EC2 entries
    followed by S3 entries) are permutations of each other give the same
    result of [countCriticalIssues]. *)
Theorem countCriticalIssues_permutation (d d' : value) (l l' : list value) :
  all_assessments d = Ok l ->
  all_assessments d' = Ok l' ->
  Permutation l l' ->
  countCriticalIssues d = countCriticalIssues d'.
Proof.
  intros Hd Hd' Hperm. unfold countCriticalIssues. rewrite Hd, Hd'. simpl.
  rewrite !critical_loop.
  rewrite (forallb_perm present _ _ Hperm).
  now rewrite (count_where_perm _ _ _ Hperm).
Qed.

Lemma countCriticalIssues_counts (d : value) (l : list value) :
  all_assessments d = Ok l ->
  forallb present l = true ->
  countCriticalIssues d = Ok (count_where (risk_level_is "Critical") l).
Proof.
  intros Hd Hl. unfold countCriticalIssues. rewrite Hd. simpl.
  now rewrite critical_loop, Hl.
Qed.

Lemma all_assessments_payload (ec2 s3 : list value) :
  all_assessments (payload_of ec2 s3) = Ok (ec2 ++ s3)%list.
Proof. reflexivity. Qed.

(** *** The two breakdowns *)

Lemma ec2_step_present (a : value) (b : EC2.breakdown) :
  present a = true ->
  ec2_step a b =
  Ok (EC2.mk
        (b2n (flag_set "ebs_encryption_enabled" a) + EC2.encrypted b)
        (b2n (flag_clear "ebs_encryption_enabled" a) + EC2.notEncrypted b)
        (b2n (flag_set "has_public_ip" a) + EC2.publicAccess b)
        (b2n (flag_clear "has_public_ip" a) + EC2.restricted b)).
Proof.
  intros Ha. unfold ec2_step. rewrite !(get_present _ _ Ha). simpl.
  unfold flag_set, flag_clear.
  now destruct (truthy (member a "ebs_encryption_enabled")),
    (truthy (member a "has_public_ip")).
Qed.

Lemma ec2_loop (l : list value) (b : EC2.breakdown) :
  forEach l ec2_step b =
  if forallb present l
  then Ok (EC2.mk
             (EC2.encrypted b + count_where (flag_set "ebs_encryption_enabled") l)
             (EC2.notEncrypted b + count_where (flag_clear "ebs_encryption_enabled") l)
             (EC2.publicAccess b + count_where (flag_set "has_public_ip") l)
             (EC2.restricted b + count_where (flag_clear "has_public_ip") l))
  else Throw TypeError.
Proof.
  destruct (forallb present l) eqn:El.
  - revert b. induction l as [|a l IH]; intros b; simpl.
    + destruct b. unfold count_where. simpl. f_equal. f_equal; lia.
    + simpl in El. apply andb_prop in El as [Ea El].
      rewrite (ec2_step_present _ _ Ea). simpl.
      rewrite (IH El), !count_where_cons. simpl. f_equal. f_equal; lia.
  - loop_throws ec2_step ec2_step_present.
Qed.

Lemma s3_step_present (a : value) (b : S3.breakdown) :
  present a = true ->
  s3_step a b =
  Ok (S3.mk
        (b2n (flag_set "encryption_enabled" a) + S3.encrypted b)
        (b2n (flag_clear "encryption_enabled" a) + S3.notEncrypted b)
        (b2n (flag_set "public_access_block_disabled" a) + S3.publicAccessAllowed b)
        (b2n (flag_clear "public_access_block_disabled" a) + S3.secured b)).
Proof.
  intros Ha. unfold s3_step. rewrite !(get_present _ _ Ha). simpl.
  unfold flag_set, flag_clear.
  now destruct (truthy (member a "encryption_enabled")),
    (truthy (member a "public_access_block_disabled")).
Qed.

Lemma s3_loop (l : list value) (b : S3.breakdown) :
  forEach l s3_step b =
  if forallb present l
  then Ok (S3.mk
             (S3.encrypted b + count_where (flag_set "encryption_enabled") l)
             (S3.notEncrypted b + count_where (flag_clear "encryption_enabled") l)
             (S3.publicAccessAllowed b
                + count_where (flag_set "public_access_block_disabled") l)
             (S3.secured b
                + count_where (flag_clear "public_access_block_disabled") l))
  else Throw TypeError.
Proof.
  destruct (forallb present l) eqn:El.
  - revert b. induction l as [|a l IH]; intros b; simpl.
    + destruct b. unfold count_where. simpl. f_equal. f_equal; lia.
    + simpl in El. apply andb_prop in El as [Ea El].
      rewrite (s3_step_present _ _ Ea). simpl.
      rewrite (IH El), !count_where_cons. simpl. f_equal. f_equal; lia.
  - loop_throws s3_step s3_step_present.
Qed.

(** A flag splits a list in two: every entry is counted on exactly one
    side. *)
Lemma flag_split (flag : string) (l : list value) :
  (count_where (flag_set flag) l + count_where (flag_clear flag) l)%nat
  = List.length l.
Proof.
  induction l as [|a l IH]; [reflexivity|].
  rewrite !count_where_cons. simpl. unfold flag_set, flag_clear in *.
  destruct (truthy (member a flag)); simpl; lia.
Qed.

(** Finds a write in the list a run of [updateKPICards] returns, by the
    element and the property it sets. *)
Ltac find_write :=
  lazymatch goal with
  | |- In (mk_write ?e ?p _) (mk_write ?e ?p _ :: _) => left; reflexivity
  | |- In _ (_ :: _) => right; find_write
  end.

(** *** Conversions *)

Lemma value_nested_ind (P : value -> Prop) :
  P VUndefined -> P VNull -> (forall b, P (VBool b)) -> (forall n, P (VNum n)) ->
  (forall s, P (VStr s)) -> (forall l, Forall P l -> P (VArr l)) ->
  (forall props, P (VObj props)) ->
  forall v, P v.
Proof.
  intros Hundef Hnull Hbool Hnum Hstr Harr Hobj. fix IH 1.
  intros [| |b|n|s|l|props];
    [exact Hundef|exact Hnull|apply Hbool|apply Hnum|apply Hstr| |apply Hobj].
  apply Harr. induction l as [|x l IHl]; constructor; [apply IH|exact IHl].
Qed.

Lemma element_texts_spec (f : value -> result string) (g : value -> string)
    (l : list value) :
  Forall (fun x => f x = if convertible x then Ok (g x) else Throw TypeError) l ->
  element_texts f l
  = if forallb (fun x => nullish x || convertible x) l
    then Ok (map (fun x => if nullish x then "" else g x) l)
    else Throw TypeError.
Proof.
  induction 1 as [|x l Hx _ IH]; [reflexivity|].
  cbn [element_texts forallb map]. fold (element_texts f l). rewrite IH.
  destruct (nullish x); cbn [orb bind].
  - now destruct (forallb _ l).
  - rewrite Hx. destruct (convertible x); cbn [andb bind]; [|reflexivity].
    now destruct (forallb _ l).
Qed.

Section DashboardProperties.

Variable StringToNumber : string -> number.
Variable FractionToString : Q -> string.
Variable NativeFunctionToString : string -> string.
Variable UnicodeToLowerCase : string -> string.

(** [ToString] throws exactly on the values that are not [convertible],
    and gives [text_of] on the others. *)
Lemma ToString_spec (v : value) :
  ToString FractionToString v
  = if convertible v then Ok (text_of FractionToString v) else Throw TypeError.
Proof.
  induction v as [| |b|n|s|l Hl|props] using value_nested_ind;
    try reflexivity.
  - now destruct b.
  - cbn [ToString convertible text_of].
    rewrite (element_texts_spec _ (text_of FractionToString) l Hl).
    now destruct (forallb _ l).
  - cbn [ToString convertible]. now destruct (has_own "toString" props).
Qed.

Lemma ToNumber_spec (v : value) :
  ToNumber StringToNumber FractionToString v
  = if convertible v
    then Ok (number_of StringToNumber FractionToString v)
    else Throw TypeError.
Proof.
  destruct v as [| |b|n|s|l|props]; try reflexivity.
  - now destruct b.
  - unfold ToNumber, number_of. rewrite ToString_spec.
    now destruct (convertible (VArr l)).
  - unfold ToNumber, number_of. rewrite ToString_spec.
    now destruct (convertible (VObj props)).
Qed.

Lemma ToString_convertible (v : value) :
  convertible v = true ->
  ToString FractionToString v = Ok (text_of FractionToString v).
Proof. intros H. now rewrite ToString_spec, H. Qed.

Lemma ToNumber_convertible (v : value) :
  convertible v = true ->
  ToNumber StringToNumber FractionToString v
  = Ok (number_of StringToNumber FractionToString v).
Proof. intros H. now rewrite ToNumber_spec, H. Qed.

Lemma ToString_unconvertible (v : value) :
  convertible v = false -> ToString FractionToString v = Throw TypeError.
Proof. intros H. now rewrite ToString_spec, H. Qed.

Lemma ToNumber_unconvertible (v : value) :
  convertible v = false ->
  ToNumber StringToNumber FractionToString v = Throw TypeError.
Proof. intros H. now rewrite ToNumber_spec, H. Qed.

(** A default that is a string or a number keeps a value convertible. *)
Lemma convertible_js_or (v w : value) :
  convertible v = true -> convertible w = true ->
  convertible (js_or v w) = true.
Proof. unfold js_or. now destruct (truthy v). Qed.

(** *** The risk distribution *)

Lemma increment_level (k : string) (c : riskCounts) :
  increment k c =
  mk_counts (b2n (k =? "Low") + Low c) (b2n (k =? "Medium") + Medium c)
            (b2n (k =? "High") + High c) (b2n (k =? "Critical") + Critical c).
Proof.
  unfold increment.
  destruct (k =? "Low") eqn:E1; [apply String.eqb_eq in E1; subst; now destruct c|].
  destruct (k =? "Medium") eqn:E2; [apply String.eqb_eq in E2; subst; now destruct c|].
  destruct (k =? "High") eqn:E3; [apply String.eqb_eq in E3; subst; now destruct c|].
  destruct (k =? "Critical") eqn:E4; [apply String.eqb_eq in E4; subst|]; now destruct c.
Qed.

(** A key that passes the [in] test without being one of the four levels
    changes no counter; a key that fails it is skipped. *)
Lemma risk_key_effect (k : string) (c : riskCounts) :
  (if in_riskCounts k then increment k c else c) = increment k c.
Proof.
  destruct (in_riskCounts k) eqn:E; [reflexivity|].
  unfold in_riskCounts in E. apply orb_false_elim in E as [E _].
  unfold mem_string, risk_levels in E. simpl in E.
  repeat (apply orb_false_elim in E as [? E]).
  unfold increment.
  now repeat match goal with H : (k =? _) = false |- _ => rewrite H; clear H end.
Qed.

Lemma risk_step_text (a : value) (c : riskCounts) :
  risk_level_text_or_absent a = true ->
  risk_step FractionToString a c =
  Ok (mk_counts (b2n (risk_level_is "Low" a) + Low c)
                (b2n (risk_level_is "Medium" a) + Medium c)
                (b2n (risk_level_is "High" a) + High c)
                (b2n (risk_level_is "Critical" a) + Critical c)).
Proof.
  unfold risk_level_text_or_absent. intros H. apply andb_prop in H as [Ha Hr].
  unfold risk_step. rewrite (get_present _ _ Ha). cbn [bind].
  unfold risk_level_is.
  destruct (member a "risk_level") as [| | | |s| |]; try discriminate Hr;
    cbn [js_or truthy ToString bind strict_eq_str];
    rewrite ?risk_key_effect, ?increment_level; try (now destruct c).
  unfold js_or. cbn [truthy].
  destruct (s =? "") eqn:Es; cbn [negb ToString bind];
    rewrite risk_key_effect, increment_level; [|reflexivity].
  apply String.eqb_eq in Es. now subst.
Qed.

Lemma risk_loop (l : list value) (c : riskCounts) :
  Forall (fun a => risk_level_text_or_absent a = true) l ->
  forEach l (risk_step FractionToString) c =
  Ok (mk_counts (Low c + count_where (risk_level_is "Low") l)
                (Medium c + count_where (risk_level_is "Medium") l)
                (High c + count_where (risk_level_is "High") l)
                (Critical c + count_where (risk_level_is "Critical") l)).
Proof.
  intros Hl. revert c. induction Hl as [|a l Ha _ IH]; intros c; simpl.
  - destruct c. unfold count_where. simpl. f_equal. f_equal; lia.
  - rewrite (risk_step_text _ _ Ha). simpl. rewrite IH, !count_where_cons.
    simpl. f_equal. f_equal; lia.
Qed.

(** C4. The risk distribution runs its callback over the EC2 list followed
    by the S3 list; with entries whose risk_level is a string or absent,
    each of the four counts is the number of entries whose risk_level is
    that level, an entry whose risk_level is none of the four (absent and
    'Unknown' included) leaves every count as it is, and on empty input the
    four counts are 0. *)
Theorem risk_distribution_counts (ec2 s3 : list value) :
  Forall (fun a => risk_level_text_or_absent a = true) (ec2 ++ s3) ->
  updateRiskDistributionChart FractionToString (payload_of ec2 s3)
    = forEach (ec2 ++ s3) (risk_step FractionToString) (mk_counts 0 0 0 0) /\
  updateRiskDistributionChart FractionToString (payload_of ec2 s3)
    = Ok (mk_counts (count_where (risk_level_is "Low") (ec2 ++ s3))
                    (count_where (risk_level_is "Medium") (ec2 ++ s3))
                    (count_where (risk_level_is "High") (ec2 ++ s3))
                    (count_where (risk_level_is "Critical") (ec2 ++ s3))) /\
  (forall a c, In a (ec2 ++ s3) ->
     existsb (fun lvl => risk_level_is lvl a) risk_levels = false ->
     risk_step FractionToString a c = Ok c) /\
  updateRiskDistributionChart FractionToString (payload_of [] [])
    = Ok (mk_counts 0 0 0 0).
Proof.
  intros Hl.
  assert (Hrun : updateRiskDistributionChart FractionToString (payload_of ec2 s3)
                 = forEach (ec2 ++ s3) (risk_step FractionToString) (mk_counts 0 0 0 0))
    by reflexivity.
  split; [exact Hrun|]. split; [|split; [|reflexivity]].
  - rewrite Hrun. now rewrite (risk_loop _ _ Hl).
  - intros a c Hin Hnone.
    rewrite Forall_forall in Hl. rewrite (risk_step_text _ _ (Hl a Hin)).
    unfold risk_levels in Hnone. simpl in Hnone.
    repeat (apply orb_false_elim in Hnone as [? Hnone]).
    repeat match goal with H : risk_level_is _ a = false |- _ => rewrite H; clear H end.
    now destruct c.
Qed.

(** C5. Each breakdown is two independent binary splits of its list: one
    counter pair splits it by the encryption flag, the other by the
    public-access flag, so the four counters add up to twice the length of
    the list.  On the example, the EC2 counts are 0, 1, 1, 0, the S3 counts
    are 1, 0, 0, 1, and the risk distribution over both is Low 1, Medium 1,
    High 0, Critical 0. *)
Theorem breakdown_independent_splits (ec2 s3 : list value) :
  (updateEC2BreakdownChart (payload_of ec2 s3) =
     if forallb present ec2
     then Ok (EC2.mk (count_where (flag_set "ebs_encryption_enabled") ec2)
                     (count_where (flag_clear "ebs_encryption_enabled") ec2)
                     (count_where (flag_set "has_public_ip") ec2)
                     (count_where (flag_clear "has_public_ip") ec2))
     else Throw TypeError) /\
  (updateS3BreakdownChart (payload_of ec2 s3) =
     if forallb present s3
     then Ok (S3.mk (count_where (flag_set "encryption_enabled") s3)
                    (count_where (flag_clear "encryption_enabled") s3)
                    (count_where (flag_set "public_access_block_disabled") s3)
                    (count_where (flag_clear "public_access_block_disabled") s3))
     else Throw TypeError) /\
  ((count_where (flag_set "ebs_encryption_enabled") ec2
    + count_where (flag_clear "ebs_encryption_enabled") ec2 = List.length ec2)%nat /\
   (count_where (flag_set "has_public_ip") ec2
    + count_where (flag_clear "has_public_ip") ec2 = List.length ec2)%nat /\
   (count_where (flag_set "encryption_enabled") s3
    + count_where (flag_clear "encryption_enabled") s3 = List.length s3)%nat /\
   (count_where (flag_set "public_access_block_disabled") s3
    + count_where (flag_clear "public_access_block_disabled") s3
    = List.length s3)%nat) /\
  updateEC2BreakdownChart (payload_of [example_ec2] [example_s3])
    = Ok (EC2.mk 0 1 1 0) /\
  updateS3BreakdownChart (payload_of [example_ec2] [example_s3])
    = Ok (S3.mk 1 0 0 1) /\
  updateRiskDistributionChart FractionToString
    (payload_of [example_ec2] [example_s3])
    = Ok (mk_counts 1 1 0 0).
Proof.
  repeat split; try apply flag_split.
  - change (updateEC2BreakdownChart (payload_of ec2 s3))
      with (forEach ec2 ec2_step (EC2.mk 0 0 0 0)).
    now rewrite ec2_loop.
  - change (updateS3BreakdownChart (payload_of ec2 s3))
      with (forEach s3 s3_step (S3.mk 0 0 0 0)).
    now rewrite s3_loop.
Qed.

(** *** Assessment cards *)

Lemma num_ltb_Z (a b : Z) : num_ltb (num_of_Z a) (num_of_Z b) = (a <? b)%Z.
Proof.
  unfold num_ltb, num_of_Z, num_lt, Qle_bool, inject_Z. simpl.
  rewrite !Z.mul_1_r, Z.ltb_antisym. now destruct (b <=? a)%Z.
Qed.

Lemma Array_slice_0_3 {A} (l : list A) : Array_slice l 0 3 = firstn 3 l.
Proof.
  unfold Array_slice. cbv zeta.
  change (0 <? 0)%Z with false. change (3 <? 0)%Z with false. cbv iota.
  replace (Z.to_nat (Z.min 0 (Z.of_nat (List.length l)))) with 0%nat by lia.
  replace (Z.to_nat (Z.max (Z.min 3 (Z.of_nat (List.length l))
                            - Z.min 0 (Z.of_nat (List.length l))) 0))
    with (Nat.min 3 (List.length l)) by lia.
  simpl skipn.
  destruct (Nat.le_gt_cases 3 (List.length l)) as [H|H].
  - now rewrite Nat.min_l.
  - rewrite Nat.min_r by lia. rewrite firstn_all. symmetry. apply firstn_all2. lia.
Qed.

Lemma createAssessmentCard_present (a : value) (type : string) :
  present a = true ->
  createAssessmentCard StringToNumber FractionToString NativeFunctionToString
    a type
  = (let score := js_or (member a "security_score") (VNum (num_of_Z 0)) in
     let riskLevel := js_or (member a "risk_level") (VStr "Unknown") in
     name_text <- ToString FractionToString
                    (js_or (js_or (member a "instance_name")
                                  (member a "bucket_name")) (VStr "Unknown")) ;;
     badge <- state_badge FractionToString type
                (js_or (member a "state") (VStr "unknown")) ;;
     score_number <- ToNumber StringToNumber FractionToString score ;;
     width <- ToString FractionToString score ;;
     risk_color <- getRiskColor FractionToString NativeFunctionToString
                     riskLevel ;;
     risk_text <- ToString FractionToString riskLevel ;;
     issuesHtml <- issues_block StringToNumber FractionToString
                     (js_or (member a "issues") (VArr [])) ;;
     Ok (assessment_html type name_text badge (getScoreColor score_number)
           (NumberToString FractionToString (Math_round score_number)) width
           (getScoreGradient score_number) risk_color risk_text issuesHtml)).
Proof.
  intros Ha. unfold createAssessmentCard. now rewrite !(get_present _ _ Ha).
Qed.

Lemma mapM_issue_items_spec (l : list value) :
  mapM (issue_item FractionToString) l
  = if forallb convertible l
    then Ok (map (fun i => "<li>" ++ text_of FractionToString i ++ "</li>") l)
    else Throw TypeError.
Proof.
  induction l as [|i l IH]; [reflexivity|]. cbn [forallb mapM map].
  unfold issue_item at 1. rewrite ToString_spec.
  destruct (convertible i); cbn [bind andb]; [|reflexivity].
  rewrite IH. now destruct (forallb convertible l).
Qed.

Lemma issues_block_array_spec (l : list value) :
  issues_block StringToNumber FractionToString (VArr l) =
  if forallb convertible (firstn 3 l)
  then Ok (match l with
           | [] => no_issues_html
           | _ => issues_list_html
                    (join ""
                       (map (fun i => "<li>" ++ text_of FractionToString i
                                      ++ "</li>")
                          (firstn 3 l)))
                    (more_marker FractionToString l)
           end)
  else Throw TypeError.
Proof.
  unfold issues_block.
  change (ToNumber StringToNumber FractionToString (member (VArr l) "length"))
    with (@Ok number (num_of_Z (Z.of_nat (List.length l)))).
  cbn [bind]. rewrite num_ltb_Z. destruct l as [|i l]; [reflexivity|].
  replace (0 <? Z.of_nat (List.length (i :: l)))%Z with true
    by (symmetry; apply Z.ltb_lt; simpl List.length; lia).
  unfold array_receiver. cbn [bind]. rewrite Array_slice_0_3.
  rewrite mapM_issue_items_spec.
  now destruct (forallb convertible (firstn 3 (i :: l))).
Qed.

Lemma issues_block_array (l : list value) :
  forallb convertible (firstn 3 l) = true ->
  issues_block StringToNumber FractionToString (VArr l) =
  Ok (match l with
      | [] => no_issues_html
      | _ => issues_list_html
               (join ""
                  (map (fun i => "<li>" ++ text_of FractionToString i ++ "</li>")
                     (firstn 3 l)))
               (more_marker FractionToString l)
      end).
Proof.
  intros Hl. now rewrite issues_block_array_spec, Hl.
Qed.

(** The card of an assessment, or the [TypeError] that takes its place
    when one of the values it shows cannot be converted. *)
Lemma createAssessmentCard_spec (a : value) (type : string) :
  present a = true ->
  createAssessmentCard StringToNumber FractionToString NativeFunctionToString
    a type
  = if card_convertible a type
    then
      let name := js_or (js_or (member a "instance_name")
                               (member a "bucket_name")) (VStr "Unknown") in
      let state := text_of FractionToString
                     (js_or (member a "state") (VStr "unknown")) in
      let score := js_or (member a "security_score") (VNum (num_of_Z 0)) in
      let score_number := number_of StringToNumber FractionToString score in
      let risk := text_of FractionToString
                    (js_or (member a "risk_level") (VStr "Unknown")) in
      issuesHtml <- issues_block StringToNumber FractionToString
                      (js_or (member a "issues") (VArr [])) ;;
      Ok (assessment_html type (text_of FractionToString name)
            (if type =? "EC2"
             then "<span class=" ++ dq ++ "status-badge " ++ state ++ dq ++ ">"
                  ++ state ++ "</span>"
             else "")
            (getScoreColor score_number)
            (NumberToString FractionToString (Math_round score_number))
            (text_of FractionToString score)
            (getScoreGradient score_number)
            (colors_lookup NativeFunctionToString risk) risk issuesHtml)
    else Throw TypeError.
Proof.
  intros Ha. rewrite (createAssessmentCard_present _ _ Ha). cbv zeta.
  unfold card_convertible, state_badge, getRiskColor.
  rewrite !ToString_spec, !ToNumber_spec.
  destruct (convertible (js_or (js_or (member a "instance_name")
                                  (member a "bucket_name")) (VStr "Unknown")));
    cbn [bind andb]; [|reflexivity].
  destruct (type =? "EC2"); cbn [negb orb].
  - destruct (convertible (js_or (member a "state") (VStr "unknown")));
      cbn [bind andb]; [|reflexivity].
    destruct (convertible (js_or (member a "security_score")
                             (VNum (num_of_Z 0))));
      cbn [bind andb]; [|reflexivity].
    destruct (convertible (js_or (member a "risk_level") (VStr "Unknown")));
      cbn [bind andb]; reflexivity.
  - cbn [bind].
    destruct (convertible (js_or (member a "security_score")
                             (VNum (num_of_Z 0))));
      cbn [bind andb]; [|reflexivity].
    destruct (convertible (js_or (member a "risk_level") (VStr "Unknown")));
      cbn [bind andb]; reflexivity.
Qed.

Lemma card_fields_card_convertible (a : value) (type : string) :
  card_fields_convertible a = true -> card_convertible a type = true.
Proof.
  unfold card_fields_convertible, card_convertible. intros H.
  apply andb_prop in H as [H Hrisk]. apply andb_prop in H as [H Hscore].
  apply andb_prop in H as [H Hstate]. apply andb_prop in H as [Hn1 Hn2].
  rewrite !convertible_js_or by (repeat apply convertible_js_or; auto).
  now rewrite orb_true_r.
Qed.

Lemma issues_is_member_of_object (a : value) (issues : list value) :
  member a "issues" = VArr issues -> present a = true.
Proof.
  destruct a; try discriminate; reflexivity.
Qed.

(** The conversions of a card, for an assessment whose shown fields are
    convertible. *)
Lemma card_conversions (a : value) (type : string) :
  card_fields_convertible a = true ->
  let name := js_or (js_or (member a "instance_name") (member a "bucket_name"))
                (VStr "Unknown") in
  let state := js_or (member a "state") (VStr "unknown") in
  let score := js_or (member a "security_score") (VNum (num_of_Z 0)) in
  let riskLevel := js_or (member a "risk_level") (VStr "Unknown") in
  ToString FractionToString name = Ok (text_of FractionToString name) /\
  state_badge FractionToString type state
  = Ok (if type =? "EC2"
        then "<span class=" ++ dq ++ "status-badge "
             ++ text_of FractionToString state ++ dq ++ ">"
             ++ text_of FractionToString state ++ "</span>"
        else "") /\
  ToNumber StringToNumber FractionToString score
  = Ok (number_of StringToNumber FractionToString score) /\
  ToString FractionToString score = Ok (text_of FractionToString score) /\
  getRiskColor FractionToString NativeFunctionToString riskLevel
  = Ok (colors_lookup NativeFunctionToString
          (text_of FractionToString riskLevel)) /\
  ToString FractionToString riskLevel
  = Ok (text_of FractionToString riskLevel).
Proof.
  unfold card_fields_convertible. intros H.
  apply andb_prop in H as [H Hrisk]. apply andb_prop in H as [H Hscore].
  apply andb_prop in H as [H Hstate]. apply andb_prop in H as [Hn1 Hn2].
  cbv zeta.
  assert (Cname : convertible (js_or (js_or (member a "instance_name")
                                        (member a "bucket_name"))
                                 (VStr "Unknown")) = true)
    by (repeat apply convertible_js_or; auto).
  assert (Cstate : convertible (js_or (member a "state") (VStr "unknown")) = true)
    by (apply convertible_js_or; auto).
  assert (Cscore : convertible (js_or (member a "security_score")
                                  (VNum (num_of_Z 0))) = true)
    by (apply convertible_js_or; auto).
  assert (Crisk : convertible (js_or (member a "risk_level") (VStr "Unknown"))
                  = true)
    by (apply convertible_js_or; auto).
  repeat split.
  - now apply ToString_convertible.
  - unfold state_badge. destruct (type =? "EC2"); [|reflexivity].
    now rewrite (ToString_convertible _ Cstate).
  - now apply ToNumber_convertible.
  - now apply ToString_convertible.
  - unfold getRiskColor. now rewrite (ToString_convertible _ Crisk).
  - now apply ToString_convertible.
Qed.

(** C6. An assessment card shows the first three issues, in order, each
    as a list item, and after them a marker with the number of issues left
    out (length minus 3) when there are more than three; with five issues
    the marker counts 2; with one to three issues it shows them all and no
    marker, and with none it shows the "no issues" line.  The card is given
    in full: nothing else in it depends on the issues.  A card is made
    whenever the values it shows can be converted to text; otherwise the
    call throws a TypeError and there is no card. *)
Theorem assessment_card_issue_truncation (a : value) (type : string)
    (issues : list value) :
  member a "issues" = VArr issues ->
  let name := text_of FractionToString
                (js_or (js_or (member a "instance_name")
                              (member a "bucket_name")) (VStr "Unknown")) in
  let state := text_of FractionToString
                 (js_or (member a "state") (VStr "unknown")) in
  let score := js_or (member a "security_score") (VNum (num_of_Z 0)) in
  let score_number := number_of StringToNumber FractionToString score in
  let risk := text_of FractionToString
                (js_or (member a "risk_level") (VStr "Unknown")) in
  let li := fun issue => "<li>" ++ text_of FractionToString issue ++ "</li>" in
  let issues_list := fun items marker : string =>
    nl ++ "                <div class=" ++ dq ++ "issues-list" ++ dq ++ ">"
    ++ nl ++ "                    " ++ items
    ++ nl ++ "                    " ++ marker
    ++ nl ++ "                </div>"
    ++ nl ++ "            " in
  let card := fun shown_issues : string =>
    nl ++ "        <div class=" ++ dq ++ "assessment-item" ++ dq ++ ">"
    ++ nl ++ "            <h4>" ++ name ++ "</h4>"
    ++ nl ++ "            <p class=" ++ dq ++ "resource-name" ++ dq ++ ">"
    ++ nl ++ "                "
      ++ (if type =? "EC2" then type ++ " Instance" else "S3 Bucket")
    ++ nl ++ "                "
      ++ (if type =? "EC2"
          then "<span class=" ++ dq ++ "status-badge " ++ state ++ dq ++ ">"
               ++ state ++ "</span>"
          else "")
    ++ nl ++ "            </p>"
    ++ nl ++ "            <div class=" ++ dq ++ "assessment-score" ++ dq ++ ">"
    ++ nl ++ "                <div class=" ++ dq ++ "assessment-score-value" ++ dq
      ++ " style=" ++ dq ++ "color: " ++ getScoreColor score_number ++ dq ++ ">"
    ++ nl ++ "                    "
      ++ NumberToString FractionToString (Math_round score_number)
    ++ nl ++ "                </div>"
    ++ nl ++ "                <div class=" ++ dq ++ "assessment-score-bar" ++ dq
      ++ ">"
    ++ nl ++ "                    <div class=" ++ dq ++ "score-bar" ++ dq ++ ">"
    ++ nl ++ "                        <div class=" ++ dq ++ "score-fill" ++ dq
      ++ " style=" ++ dq ++ "width: " ++ text_of FractionToString score
      ++ "%; background: " ++ getScoreGradient score_number ++ dq ++ "></div>"
    ++ nl ++ "                    </div>"
    ++ nl ++ "                    <p style=" ++ dq
      ++ "font-size: 0.8rem; color: #B0B8C1; margin-top: 0.25rem;" ++ dq ++ ">"
    ++ nl ++ "                        Risk: <strong style=" ++ dq ++ "color: "
      ++ colors_lookup NativeFunctionToString risk ++ dq ++ ">" ++ risk
      ++ "</strong>"
    ++ nl ++ "                    </p>"
    ++ nl ++ "                </div>"
    ++ nl ++ "            </div>"
    ++ nl ++ "            " ++ shown_issues
    ++ nl ++ "        </div>"
    ++ nl ++ "    " in
  (forall i1 i2 i3 i4 rest, issues = i1 :: i2 :: i3 :: i4 :: rest ->
     createAssessmentCard StringToNumber FractionToString NativeFunctionToString
       a type
     = if card_convertible a type
          && (convertible i1 && convertible i2 && convertible i3)
       then Ok (card (issues_list
                        (li i1 ++ li i2 ++ li i3)
                        ("<li>... and "
                         ++ NumberToString FractionToString
                              (num_of_nat (S (List.length rest)))
                         ++ " more issues</li>")))
       else Throw TypeError) /\
  (List.length issues = 5%nat ->
     more_marker FractionToString issues = "<li>... and 2 more issues</li>") /\
  (issues <> [] -> (List.length issues <= 3)%nat ->
     createAssessmentCard StringToNumber FractionToString NativeFunctionToString
       a type
     = if card_convertible a type && forallb convertible issues
       then Ok (card (issues_list (join "" (map li issues)) ""))
       else Throw TypeError) /\
  (issues = [] ->
     createAssessmentCard StringToNumber FractionToString NativeFunctionToString
       a type
     = if card_convertible a type
       then Ok (card ("<p style=" ++ dq ++ "color: #2D8B47; font-size: 0.9rem;"
                      ++ dq ++ ">"
                      ++ string_of_list_ascii
                           (map ascii_of_nat
                              [195; 162; 197; 147; 226; 128; 156]%nat)
                      ++ " No issues found</p>"))
       else Throw TypeError).
Proof.
  intros Hi. cbv zeta.
  rewrite (createAssessmentCard_spec _ _ (issues_is_member_of_object _ _ Hi)),
    Hi.
  cbv zeta. change (js_or (VArr issues) (VArr [])) with (VArr issues).
  rewrite issues_block_array_spec.
  split; [|split; [|split]].
  - intros i1 i2 i3 i4 rest ->. cbn [firstn forallb]. rewrite andb_true_r.
    destruct (card_convertible a type); cbn [andb]; [|reflexivity].
    destruct (convertible i1), (convertible i2), (convertible i3);
      cbn [andb bind]; try reflexivity.
    cbn [firstn map join].
    unfold more_marker. unfold num_of_nat at 1. rewrite num_ltb_Z.
    replace (3 <? Z.of_nat (List.length (i1 :: i2 :: i3 :: i4 :: rest)))%Z
      with true by (symmetry; apply Z.ltb_lt; simpl List.length; lia).
    replace (Z.of_nat (List.length (i1 :: i2 :: i3 :: i4 :: rest)) - 3)%Z
      with (Z.of_nat (S (List.length rest))) by (simpl List.length; lia).
    reflexivity.
  - intros H5. unfold more_marker. rewrite H5. reflexivity.
  - intros Hne Hlen. destruct issues as [|i l]; [congruence|].
    assert (Hfirst : firstn 3 (i :: l) = i :: l) by (apply firstn_all2; exact Hlen).
    rewrite Hfirst.
    destruct (card_convertible a type); cbn [andb]; [|reflexivity].
    destruct (forallb convertible (i :: l)); [|reflexivity].
    cbn [bind].
    unfold more_marker. unfold num_of_nat. rewrite num_ltb_Z.
    replace (3 <? Z.of_nat (List.length (i :: l)))%Z with false
      by (symmetry; apply Z.ltb_ge; lia).
    reflexivity.
  - intros ->. cbn [firstn forallb].
    now destruct (card_convertible a type).
Qed.

(** *** Recommendation cards *)

Lemma text_of_js_or (v : value) (placeholder : string) :
  text_of FractionToString (js_or v (VStr placeholder))
  = if truthy v then text_of FractionToString v else placeholder.
Proof.
  unfold js_or. now destruct (truthy v).
Qed.

Lemma ToString_js_or (v : value) (placeholder : string) :
  convertible v = true ->
  ToString FractionToString (js_or v (VStr placeholder))
  = Ok (if truthy v then text_of FractionToString v else placeholder).
Proof.
  intros Hv. rewrite ToString_convertible by now apply convertible_js_or.
  now rewrite text_of_js_or.
Qed.

Lemma priority_default (r : value) :
  priority_text_or_absent r = true ->
  js_or (member r "priority") (VStr "MEDIUM") = VStr (priority_of r).
Proof.
  unfold priority_text_or_absent, priority_of, js_or.
  destruct (member r "priority") as [| | | |s| |]; try discriminate; try reflexivity.
  intros _. simpl. now destruct (s =? "").
Qed.

Lemma lower_ascii_not_upper (c : ascii) :
  is_upper_letter (lower_ascii c) = false.
Proof.
  destruct c as [[] [] [] [] [] [] [] []]; reflexivity.
Qed.

Lemma lower_letters_no_upper (s : string) :
  forallb (fun c => negb (is_upper_letter c))
    (list_ascii_of_string (lower_letters s)) = true.
Proof.
  induction s as [|c s IH]; [reflexivity|].
  cbn [lower_letters list_ascii_of_string forallb].
  now rewrite lower_ascii_not_upper, IH.
Qed.

Lemma resource_type_block_convertible (v : value) :
  convertible v = true ->
  resource_type_block FractionToString v
  = Ok (if truthy v
        then nl ++ "                <div class=" ++ dq ++ "resource-info" ++ dq
             ++ ">"
             ++ nl ++ "                    <strong>Type:</strong> "
             ++ text_of FractionToString v
             ++ nl ++ "                </div>"
             ++ nl ++ "            "
        else "").
Proof.
  intros Hv. unfold resource_type_block. destruct (truthy v); [|reflexivity].
  now rewrite (ToString_convertible _ Hv).
Qed.

(** C7 (as the code has it). The badge of a recommendation card shows the
    priority as it was supplied, 'MEDIUM' when none was; the two styling
    classes carry the priority in lower case: for a priority of ASCII
    characters its letters A-Z mapped to a-z, so that no upper-case letter
    is left; title, description and issue are replaced by their placeholder
    texts when missing.  The card is given in full. *)
Theorem recommendation_card_fields (r : value) :
  present r = true ->
  priority_text_or_absent r = true ->
  recommendation_fields_convertible r = true ->
  let priority := priority_of r in
  let class := toLowerCase UnicodeToLowerCase priority in
  let field := fun (k placeholder : string) =>
    if truthy (member r k) then text_of FractionToString (member r k)
    else placeholder in
  (createRecommendationCard FractionToString UnicodeToLowerCase r
   = Ok (nl ++ "        <div class=" ++ dq ++ "recommendation-card " ++ class
           ++ dq ++ ">"
         ++ nl ++ "            <div class=" ++ dq ++ "priority-badge " ++ class
           ++ dq ++ ">"
         ++ nl ++ "                " ++ priority
         ++ nl ++ "            </div>"
         ++ nl ++ "            <h4>" ++ field "title" "Security Recommendation"
           ++ "</h4>"
         ++ nl ++ "            <p>"
           ++ field "description" "Review security configuration" ++ "</p>"
         ++ nl ++ "            <div class=" ++ dq ++ "resource-info" ++ dq ++ ">"
         ++ nl ++ "                <strong>Issue:</strong> "
           ++ field "issue" "General security concern"
         ++ nl ++ "            </div>"
         ++ nl ++ "            "
           ++ (if truthy (member r "resource_type")
               then nl ++ "                <div class=" ++ dq ++ "resource-info"
                      ++ dq ++ ">"
                    ++ nl ++ "                    <strong>Type:</strong> "
                      ++ text_of FractionToString (member r "resource_type")
                    ++ nl ++ "                </div>"
                    ++ nl ++ "            "
               else "")
         ++ nl ++ "        </div>"
         ++ nl ++ "    ")) /\
  (is_ascii priority = true ->
     class = lower_letters priority /\
     forallb (fun c => negb (is_upper_letter c)) (list_ascii_of_string class)
     = true) /\
  (member r "priority" = VUndefined -> priority = "MEDIUM" /\ class = "medium") /\
  (member r "title" = VUndefined ->
     field "title" "Security Recommendation" = "Security Recommendation") /\
  (member r "description" = VUndefined ->
     field "description" "Review security configuration"
     = "Review security configuration") /\
  (member r "issue" = VUndefined ->
     field "issue" "General security concern" = "General security concern").
Proof.
  intros Hr Hp Hf. cbv zeta.
  unfold recommendation_fields_convertible in Hf.
  apply andb_prop in Hf as [Hf Htype]. apply andb_prop in Hf as [Hf Hissue].
  apply andb_prop in Hf as [Htitle Hdesc].
  split; [|split; [|split]].
  - unfold createRecommendationCard. rewrite !(get_present _ _ Hr). cbn [bind].
    rewrite (priority_default _ Hp). cbn [call_toLowerCase bind].
    change (ToString FractionToString (VStr (priority_of r)))
      with (@Ok string (priority_of r)).
    cbn [bind].
    rewrite (ToString_js_or _ _ Htitle), (ToString_js_or _ _ Hdesc),
      (ToString_js_or _ _ Hissue), (resource_type_block_convertible _ Htype).
    reflexivity.
  - intros Hascii. unfold toLowerCase. rewrite Hascii.
    split; [reflexivity|apply lower_letters_no_upper].
  - unfold priority_of. intros ->. split; reflexivity.
  - repeat split; intros ->; reflexivity.
Qed.

(** *** Payloads with missing parts *)

Lemma forallb_weaken {A} (p q : A -> bool) (l : list A) :
  (forall a, p a = true -> q a = true) ->
  forallb p l = true -> forallb q l = true.
Proof.
  intros Hpq. induction l as [|a l IH]; [reflexivity|]. cbn [forallb].
  intros H. apply andb_prop in H as [Ha Hl]. now rewrite (Hpq _ Ha), (IH Hl).
Qed.

Lemma entry_readable_present (a : value) :
  entry_readable a = true -> present a = true.
Proof.
  unfold entry_readable. intros H. now apply andb_prop in H as [Ha _].
Qed.

Lemma entries_or_absent_list (v : value) :
  entries_or_absent v = true ->
  exists l, js_or v (VArr []) = VArr l /\ forallb entry_readable l = true /\
            (nullish v = true -> l = []).
Proof.
  destruct v as [| | | | |l|]; try discriminate; intros H.
  - exists []. now repeat split.
  - exists []. now repeat split.
  - exists l. repeat split; [exact H|discriminate].
Qed.

Lemma assessments_of_present (d : value) (category : string) :
  present d = true ->
  assessments_of d category
  = Ok (js_or (get_opt (member d category) "assessments") (VArr [])).
Proof.
  intros Hd. unfold assessments_of. now rewrite (get_present _ _ Hd).
Qed.

Lemma forEach_succeeds {S : Type} (ok : value -> bool)
    (body : value -> S -> result S) :
  (forall a s, ok a = true -> succeeds (body a s)) ->
  forall l s, forallb ok l = true -> succeeds (forEach l body s).
Proof.
  intros Hbody l. induction l as [|a l IH]; intros s Hl; simpl.
  - now exists s.
  - simpl in Hl. apply andb_prop in Hl as [Ha Hl].
    destruct (Hbody a s Ha) as [s' ->]. simpl. now apply IH.
Qed.

Lemma risk_step_succeeds (a : value) (c : riskCounts) :
  entry_readable a = true -> succeeds (risk_step FractionToString a c).
Proof.
  unfold entry_readable. intros H. apply andb_prop in H as [Ha Hr].
  unfold risk_step. rewrite (get_present _ _ Ha). cbn [bind].
  rewrite ToString_convertible by now apply convertible_js_or.
  cbn [bind]. eexists; reflexivity.
Qed.

(** The writes of [updateKPICards] on a payload with a summary whose
    scores and counts can be converted. *)
Lemma updateKPICards_convertible (d : value) (criticalCount : nat) :
  present d = true ->
  present (member d "summary") = true ->
  summary_convertible (member d "summary") = true ->
  countCriticalIssues d = Ok criticalCount ->
  updateKPICards StringToNumber FractionToString UnicodeToLowerCase d
  = Ok (let summary := member d "summary" in
        let score := fun category =>
          js_or (get_opt (member summary category) "average_score")
                (VNum (num_of_Z 0)) in
        let count := fun category =>
          js_or (get_opt (member summary category) "count")
                (VNum (num_of_Z 0)) in
        let number := number_of StringToNumber FractionToString in
        setScoreCard FractionToString UnicodeToLowerCase "overall"
          (Math_round (number (score "overall")))
          (getRiskLevel (number (score "overall")))
        ++ [ mk_write "ec2Score" "textContent"
               (NumberToString FractionToString
                  (Math_round (number (score "ec2"))));
             mk_write "ec2ScoreFill" "style.width"
               (text_of FractionToString (score "ec2") ++ "%");
             mk_write "ec2Count" "textContent"
               (text_of FractionToString (count "ec2") ++ " instances") ]
        ++ [ mk_write "s3Score" "textContent"
               (NumberToString FractionToString
                  (Math_round (number (score "s3"))));
             mk_write "s3ScoreFill" "style.width"
               (text_of FractionToString (score "s3") ++ "%");
             mk_write "s3Count" "textContent"
               (text_of FractionToString (count "s3") ++ " buckets") ]
        ++ [ mk_write "criticalCount" "textContent"
               (NumberToString FractionToString (num_of_nat criticalCount)) ])%list.
Proof.
  intros Hd Hsum Hc Hcrit. unfold summary_convertible in Hc.
  apply andb_prop in Hc as [Hc C5]. apply andb_prop in Hc as [Hc C4].
  apply andb_prop in Hc as [Hc C3]. apply andb_prop in Hc as [C1 C2].
  unfold updateKPICards.
  rewrite (get_present _ _ Hd). cbn [bind].
  rewrite !(get_present _ _ Hsum). cbn [bind].
  rewrite !ToNumber_convertible by (apply convertible_js_or; auto).
  cbn [bind].
  rewrite !ToString_convertible by (apply convertible_js_or; auto).
  cbn [bind]. rewrite Hcrit. reflexivity.
Qed.

Lemma well_shaped_lists (d : value) :
  well_shaped d = true ->
  present d = true /\ present (member d "summary") = true /\
  summary_convertible (member d "summary") = true /\
  exists ec2 s3,
    assessments_of d "ec2" = Ok (VArr ec2) /\
    assessments_of d "s3" = Ok (VArr s3) /\
    forallb entry_readable ec2 = true /\ forallb entry_readable s3 = true /\
    (nullish (get_opt (member d "ec2") "assessments") = true -> ec2 = []) /\
    (nullish (get_opt (member d "s3") "assessments") = true -> s3 = []).
Proof.
  unfold well_shaped. intros H.
  apply andb_prop in H as [H Hs3]. apply andb_prop in H as [H Hec2].
  apply andb_prop in H as [H Hconv]. apply andb_prop in H as [Hd Hsum].
  destruct (entries_or_absent_list _ Hec2) as (ec2 & E1 & P1 & N1).
  destruct (entries_or_absent_list _ Hs3) as (s3 & E2 & P2 & N2).
  repeat split; try assumption.
  exists ec2, s3. rewrite !(assessments_of_present _ _ Hd), E1, E2.
  now repeat split.
Qed.

Lemma createAssessmentCard_ok (a : value) (type : string) :
  assessment_ok a = true ->
  succeeds (createAssessmentCard StringToNumber FractionToString
              NativeFunctionToString a type).
Proof.
  unfold assessment_ok. intros H. apply andb_prop in H as [H Hi].
  apply andb_prop in H as [Ha Hf].
  destruct (card_conversions a type Hf) as (E1 & E2 & E3 & E4 & E5 & E6).
  cbv zeta in E1, E2, E3, E4, E5, E6.
  rewrite (createAssessmentCard_present _ _ Ha). cbv zeta.
  rewrite E1, E2, E3, E4, E5, E6. cbn [bind].
  destruct (member a "issues") as [| | | | |l|]; try discriminate Hi.
  - now eexists.
  - now eexists.
  - change (js_or (VArr l) (VArr [])) with (VArr l).
    rewrite (issues_block_array _ Hi). now eexists.
Qed.

Lemma createRecommendationCard_ok (r : value) :
  recommendation_ok r = true ->
  succeeds (createRecommendationCard FractionToString UnicodeToLowerCase r).
Proof.
  unfold recommendation_ok. intros H. apply andb_prop in H as [H Hf].
  apply andb_prop in H as [Hr Hp].
  unfold recommendation_fields_convertible in Hf.
  apply andb_prop in Hf as [Hf Htype]. apply andb_prop in Hf as [Hf Hissue].
  apply andb_prop in Hf as [Htitle Hdesc].
  unfold createRecommendationCard. rewrite !(get_present _ _ Hr). cbn [bind].
  rewrite (priority_default _ Hp). cbn [call_toLowerCase bind].
  change (ToString FractionToString (VStr (priority_of r)))
    with (@Ok string (priority_of r)).
  cbn [bind].
  rewrite (ToString_js_or _ _ Htitle), (ToString_js_or _ _ Hdesc),
    (ToString_js_or _ _ Hissue), (resource_type_block_convertible _ Htype).
  now eexists.
Qed.

(** C8 (as the code has it). On a payload that is an object with a summary
    of convertible scores and counts, and whose assessment lists are absent
    or arrays of entries with a convertible risk level, every aggregation
    function completes; a missing summary.overall, summary.ec2 or
    summary.s3 gives score 0 and count 0, missing lists give zero counts,
    and an entry without a risk level is counted under no level.  An
    assessment card is built whenever the shown fields are
    convertible and the issues are absent or an array whose first three
    entries are convertible; a recommendation card whenever the priority
    is absent or a string and the shown texts are convertible. *)
Theorem aggregation_completes_on_well_shaped (d : value) :
  well_shaped d = true ->
  (succeeds (updateKPICards StringToNumber FractionToString
               UnicodeToLowerCase d) /\
   succeeds (countCriticalIssues d) /\
   succeeds (updateEC2BreakdownChart d) /\
   succeeds (updateS3BreakdownChart d) /\
   succeeds (updateRiskDistributionChart FractionToString d)) /\
  (forall w,
     updateKPICards StringToNumber FractionToString UnicodeToLowerCase d = Ok w ->
     (nullish (member (member d "summary") "overall") = true ->
        In (mk_write "overallScore" "textContent" "0") w /\
        In (mk_write "overallScoreFill" "style.width" "0%") w) /\
     (nullish (member (member d "summary") "ec2") = true ->
        In (mk_write "ec2Score" "textContent" "0") w /\
        In (mk_write "ec2Count" "textContent" "0 instances") w) /\
     (nullish (member (member d "summary") "s3") = true ->
        In (mk_write "s3Score" "textContent" "0") w /\
        In (mk_write "s3Count" "textContent" "0 buckets") w)) /\
  (nullish (get_opt (member d "ec2") "assessments") = true ->
     updateEC2BreakdownChart d = Ok (EC2.mk 0 0 0 0)) /\
  (nullish (get_opt (member d "s3") "assessments") = true ->
     updateS3BreakdownChart d = Ok (S3.mk 0 0 0 0)) /\
  (nullish (get_opt (member d "ec2") "assessments") = true ->
   nullish (get_opt (member d "s3") "assessments") = true ->
     countCriticalIssues d = Ok 0%nat /\
     updateRiskDistributionChart FractionToString d = Ok (mk_counts 0 0 0 0)) /\
  (forall a type, assessment_ok a = true ->
     succeeds (createAssessmentCard StringToNumber FractionToString
                 NativeFunctionToString a type)) /\
  (forall r, recommendation_ok r = true ->
     succeeds (createRecommendationCard FractionToString UnicodeToLowerCase r)) /\
  (forall a c, present a = true -> nullish (member a "risk_level") = true ->
     risk_step FractionToString a c = Ok c /\
     critical_step a 0%nat = Ok 0%nat).
Proof.
  intros Hw.
  destruct (well_shaped_lists _ Hw)
    as (Hd & Hsum & Hconv & ec2 & s3 & Eec2 & Es3 & Rec2 & Rs3 & Nec2 & Ns3).
  assert (Pec2 : forallb present ec2 = true)
    by exact (forallb_weaken _ _ _ entry_readable_present Rec2).
  assert (Ps3 : forallb present s3 = true)
    by exact (forallb_weaken _ _ _ entry_readable_present Rs3).
  assert (Hall : all_assessments d = Ok (ec2 ++ s3)%list).
  { unfold all_assessments. now rewrite Eec2, Es3. }
  assert (Pall : forallb present (ec2 ++ s3) = true).
  { rewrite forallb_app. now rewrite Pec2, Ps3. }
  assert (Rall : forallb entry_readable (ec2 ++ s3) = true).
  { rewrite forallb_app. now rewrite Rec2, Rs3. }
  assert (Hcrit : countCriticalIssues d
                  = Ok (count_where (risk_level_is "Critical") (ec2 ++ s3)))
    by now apply countCriticalIssues_counts.
  pose proof (updateKPICards_convertible d _ Hd Hsum Hconv Hcrit) as Hkpi.
  cbv zeta in Hkpi.
  split; [|split; [|split; [|split; [|split; [|split; [|split]]]]]].
  - split; [rewrite Hkpi; now eexists|]. split; [now rewrite Hcrit; eexists|].
    split; [|split].
    + unfold updateEC2BreakdownChart. rewrite Eec2. cbn [bind array_receiver].
      rewrite ec2_loop, Pec2. now eexists.
    + unfold updateS3BreakdownChart. rewrite Es3. cbn [bind array_receiver].
      rewrite s3_loop, Ps3. now eexists.
    + unfold updateRiskDistributionChart. rewrite Hall. cbn [bind].
      apply (forEach_succeeds entry_readable); [|exact Rall].
      intros a c Ha. now apply risk_step_succeeds.
  - intros w Hwr. rewrite Hkpi in Hwr. injection Hwr as <-.
    split; [|split]; intros Hnull; unfold get_opt; rewrite Hnull;
      split; find_write.
  - intros Hn. unfold updateEC2BreakdownChart. rewrite Eec2, (Nec2 Hn). reflexivity.
  - intros Hn. unfold updateS3BreakdownChart. rewrite Es3, (Ns3 Hn). reflexivity.
  - intros Hn1 Hn2. unfold updateRiskDistributionChart.
    rewrite Hcrit, Hall, (Nec2 Hn1), (Ns3 Hn2). split; reflexivity.
  - intros a type Ha. now apply createAssessmentCard_ok.
  - intros r Hr. now apply createRecommendationCard_ok.
  - intros a c Ha Hn. unfold risk_step, critical_step.
    rewrite !(get_present _ _ Ha). cbn [bind].
    destruct (member a "risk_level"); try discriminate Hn; split; reflexivity.
Qed.

End DashboardProperties.
(** ** The API client *)

Section ClientProperties.

Variable fetch : string -> options -> fetch_outcome.
Variable JSON_stringify : value -> string.

Lemma transport_fails_throws (this : APIClient) (endpoint method : string)
    (data : value) :
  transport_fails fetch JSON_stringify this endpoint method data ->
  exists error,
    request_try fetch JSON_stringify this endpoint method data = Throw error.
Proof.
  unfold transport_fails, request_try.
  destruct (fetch _ _) as [r|reason]; intros H.
  - rewrite H. simpl. eexists; reflexivity.
  - eexists; reflexivity.
Qed.

(** On an endpoint that starts with '/api', whatever is thrown in the [try]
    block is replaced by the mock payload. *)
Lemma request_api (this : APIClient) (endpoint method : string) (data : value) :
  startsWith endpoint "/api" = true ->
  request fetch JSON_stringify this endpoint method data =
  match request_try fetch JSON_stringify this endpoint method data with
  | Ok v => ([], Ok v)
  | Throw error =>
      ([ console_error "API Request Error:" error;
         console_warn "Falling back to mock data for" endpoint ],
       Ok (mockApiResponse endpoint method))
  end.
Proof.
  intros Hapi. unfold request.
  destruct (request_try _ _ _ _ _ _); [reflexivity|].
  rewrite Hapi. destruct endpoint; [discriminate Hapi|reflexivity].
Qed.

Lemma request_not_api (this : APIClient) (endpoint method : string)
    (data : value) :
  endpoint = "" \/ startsWith endpoint "/api" = false ->
  request fetch JSON_stringify this endpoint method data =
  match request_try fetch JSON_stringify this endpoint method data with
  | Ok v => ([], Ok v)
  | Throw error => ([ console_error "API Request Error:" error ], Throw error)
  end.
Proof.
  intros H. unfold request.
  destruct (request_try _ _ _ _ _ _); [reflexivity|].
  destruct H as [->|H]; [reflexivity|]. rewrite H. now rewrite andb_false_r.
Qed.

Lemma client_endpoints_api (endpoint : string) :
  In endpoint client_endpoints -> startsWith endpoint "/api" = true.
Proof.
  unfold client_endpoints. simpl.
  intros [<-|[<-|[<-|[<-|[<-|[<-|[]]]]]]]; reflexivity.
Qed.

(** C3. For each of the six endpoint names of the client, a failed
    transport call (rejected [fetch] or non-success status) makes [request]
    log the error, log the fallback warning, and return the mock payload of
    that endpoint, which depends on the endpoint name alone; the result of
    [request] on such an endpoint is never a rejection. *)
Theorem request_falls_back_on_client_endpoints (this : APIClient)
    (endpoint method : string) (data : value) :
  In endpoint client_endpoints ->
  (transport_fails fetch JSON_stringify this endpoint method data ->
   exists error,
     request fetch JSON_stringify this endpoint method data
     = ([ console_error "API Request Error:" error;
          console_warn "Falling back to mock data for" endpoint ],
        Ok (mockApiResponse endpoint method))) /\
  mockApiResponse endpoint method = mockApiResponse endpoint "GET" /\
  (forall error,
     snd (request fetch JSON_stringify this endpoint method data)
     <> Throw error).
Proof.
  intros Hin. pose proof (client_endpoints_api _ Hin) as Hapi.
  split; [|split].
  - intros Hfail.
    destruct (transport_fails_throws _ _ _ _ Hfail) as [error Herr].
    exists error. now rewrite (request_api _ _ _ _ Hapi), Herr.
  - reflexivity.
  - intros error. rewrite (request_api _ _ _ _ Hapi).
    destruct (request_try _ _ _ _ _ _); simpl; discriminate.
Qed.


End ClientProperties.

(** The payloads the mock gives the six endpoint names of the client. *)
Lemma mockApiResponse_client_endpoints (method : string) :
  map (fun endpoint => mockApiResponse endpoint method) client_endpoints
  = [ sample; VObj [("ec2", sample_ec2); ("s3", sample_s3)];
      sample_recommendations; sample_summary; VObj []; VObj [] ].
Proof. reflexivity. Qed.

(** ** Concrete runs *)

(** C7, as stated, fails: for the priority 'high' the badge of the card
    reads 'high'; the card is not the one with 'HIGH' in its badge, and the
    text 'HIGH' occurs nowhere in it.  A record whose title is an object
    with a [toString] entry gets no card at all. *)
Lemma recommendation_badge_keeps_case :
  let r := VObj [("priority", VStr "high")] in
  createRecommendationCard (fun _ => "") (fun s => s) r
  = Ok (nl ++ "        <div class=" ++ dq ++ "recommendation-card high" ++ dq ++ ">"
       ++ nl ++ "            <div class=" ++ dq ++ "priority-badge high" ++ dq ++ ">"
       ++ nl ++ "                high"
       ++ nl ++ "            </div>"
       ++ nl ++ "            <h4>Security Recommendation</h4>"
       ++ nl ++ "            <p>Review security configuration</p>"
       ++ nl ++ "            <div class=" ++ dq ++ "resource-info" ++ dq ++ ">"
       ++ nl ++ "                <strong>Issue:</strong> General security concern"
       ++ nl ++ "            </div>"
       ++ nl ++ "            "
       ++ nl ++ "        </div>"
       ++ nl ++ "    ") /\
  createRecommendationCard (fun _ => "") (fun s => s) r
  <> Ok (nl ++ "        <div class=" ++ dq ++ "recommendation-card high" ++ dq ++ ">"
       ++ nl ++ "            <div class=" ++ dq ++ "priority-badge high" ++ dq ++ ">"
       ++ nl ++ "                HIGH"
       ++ nl ++ "            </div>"
       ++ nl ++ "            <h4>Security Recommendation</h4>"
       ++ nl ++ "            <p>Review security configuration</p>"
       ++ nl ++ "            <div class=" ++ dq ++ "resource-info" ++ dq ++ ">"
       ++ nl ++ "                <strong>Issue:</strong> General security concern"
       ++ nl ++ "            </div>"
       ++ nl ++ "            "
       ++ nl ++ "        </div>"
       ++ nl ++ "    ") /\
  (forall card,
     createRecommendationCard (fun _ => "") (fun s => s) r = Ok card ->
     includes card "HIGH" = false) /\
  createRecommendationCard (fun _ => "") (fun s => s)
    (VObj [("priority", VStr "high");
           ("title", VObj [("toString", num 1)])])
  = Throw TypeError.
Proof.
  intros r. split; [reflexivity|]. split; [|split; [|reflexivity]].
  - intros H.
    apply (f_equal (fun r => match r with Ok card => card | Throw _ => "" end)) in H.
    revert H. apply String.eqb_neq. vm_compute. reflexivity.
  - intros card H.
    apply (f_equal (fun r => match r with Ok card => card | Throw _ => "" end)) in H.
    subst card. vm_compute. reflexivity.
Qed.

(** C8, as stated, fails: a payload without a summary makes
    [updateKPICards] throw, and so does an average score that is an object
    with a [toString] entry; an assessments field that is a number makes
    [countCriticalIssues] and the EC2 breakdown throw, and so does an
    assessment list with a null entry; a numeric priority makes the
    recommendation card throw. *)
Lemma aggregation_throws_on_malformed_payload :
  updateKPICards (fun _ => NaN) (fun _ => "") (fun s => s)
    (VObj [ ("ec2", VObj [("assessments", VArr [])]);
            ("s3", VObj [("assessments", VArr [])]) ])
  = Throw TypeError /\
  updateKPICards (fun _ => NaN) (fun _ => "") (fun s => s)
    (VObj [ ("summary",
             VObj [("overall",
                    VObj [("average_score", VObj [("toString", num 1)])])]) ])
  = Throw TypeError /\
  countCriticalIssues
    (VObj [ ("summary", VObj []); ("ec2", VObj [("assessments", num 5)]) ])
  = Throw TypeError /\
  updateEC2BreakdownChart
    (VObj [ ("summary", VObj []); ("ec2", VObj [("assessments", num 5)]) ])
  = Throw TypeError /\
  countCriticalIssues
    (VObj [ ("summary", VObj []); ("ec2", VObj [("assessments", VArr [VNull])]) ])
  = Throw TypeError /\
  createRecommendationCard (fun _ => "") (fun s => s)
    (VObj [("priority", num 1)])
  = Throw TypeError.
Proof. repeat split. Qed.

(** The theorems above, at concrete inputs. *)

Lemma getRiskLevel_tiers_witness :
  num_le (num_of_Z 60) (num_of_Z 70) /\
  num_less (num_of_Z 70) (num_of_Z 80) /\
  getRiskLevel (num_of_Z 70) = "Medium" /\
  ~ num_le (num_of_Z 40) NaN /\
  getRiskLevel NaN = "Critical".
Proof.
  assert (H60 : num_le (num_of_Z 60) (num_of_Z 70))
    by (constructor; discriminate).
  assert (H80 : num_less (num_of_Z 70) (num_of_Z 80))
    by (constructor; reflexivity).
  assert (Hnan : ~ num_le (num_of_Z 40) NaN)
    by (intros H; inversion H; congruence).
  split; [exact H60|]. split; [exact H80|]. split; [|split; [exact Hnan|]].
  - exact (proj1 (proj2 (getRiskLevel_tiers (num_of_Z 70))) H60 H80).
  - exact (proj1 (proj2 (proj2 (proj2 (getRiskLevel_tiers NaN)))) Hnan).
Defined.

Lemma countCriticalIssues_permutation_witness :
  let c := VObj [("risk_level", VStr "Critical")] in
  let m := VObj [("risk_level", VStr "Medium")] in
  all_assessments (payload_of [c; m] [c]) = Ok [c; m; c] /\
  all_assessments (payload_of [c] [m; c]) = Ok [c; m; c] /\
  Permutation [c; m; c] [c; m; c] /\
  all_assessments (payload_of [m; c] [c]) = Ok [m; c; c] /\
  Permutation [c; m; c] [m; c; c] /\
  countCriticalIssues (payload_of [c; m] [c])
  = countCriticalIssues (payload_of [m; c] [c]).
Proof.
  intros c m.
  assert (P : Permutation [c; m; c] [m; c; c]) by apply perm_swap.
  split; [reflexivity|]. split; [reflexivity|]. split; [apply Permutation_refl|].
  split; [reflexivity|]. split; [exact P|].
  exact (countCriticalIssues_permutation
           (payload_of [c; m] [c]) (payload_of [m; c] [c])
           [c; m; c] [m; c; c] eq_refl eq_refl P).
Defined.

Lemma risk_distribution_counts_witness :
  let ec2 := [example_ec2; VObj [("risk_level", VStr "Unknown")]] in
  let s3 := [example_s3; VObj []; VObj [("risk_level", VStr "Critical")]] in
  Forall (fun a => risk_level_text_or_absent a = true) (ec2 ++ s3) /\
  updateRiskDistributionChart (fun _ => "") (payload_of ec2 s3)
  = Ok (mk_counts 1 1 0 1).
Proof.
  intros ec2 s3.
  assert (H : Forall (fun a => risk_level_text_or_absent a = true) (ec2 ++ s3))
    by (repeat constructor).
  split; [exact H|].
  exact (proj1 (proj2 (risk_distribution_counts (fun _ => "") ec2 s3 H))).
Defined.

Lemma assessment_card_issue_truncation_witness :
  let issues := [VStr "a"; VStr "b"; VStr "c"; VStr "d"; VStr "e"] in
  let a := VObj [("instance_name", VStr "web"); ("issues", VArr issues)] in
  member a "issues" = VArr issues /\
  createAssessmentCard (fun _ => NaN) (fun _ => "") (fun _ => "") a "EC2"
  = Ok (nl ++ "        <div class=" ++ dq ++ "assessment-item" ++ dq ++ ">"
       ++ nl ++ "            <h4>web</h4>"
       ++ nl ++ "            <p class=" ++ dq ++ "resource-name" ++ dq ++ ">"
       ++ nl ++ "                EC2 Instance"
       ++ nl ++ "                <span class=" ++ dq ++ "status-badge unknown" ++ dq ++ ">unknown</span>"
       ++ nl ++ "            </p>"
       ++ nl ++ "            <div class=" ++ dq ++ "assessment-score" ++ dq ++ ">"
       ++ nl ++ "                <div class=" ++ dq ++ "assessment-score-value" ++ dq ++ " style=" ++ dq ++ "color: #D32F2F" ++ dq ++ ">"
       ++ nl ++ "                    0"
       ++ nl ++ "                </div>"
       ++ nl ++ "                <div class=" ++ dq ++ "assessment-score-bar" ++ dq ++ ">"
       ++ nl ++ "                    <div class=" ++ dq ++ "score-bar" ++ dq ++ ">"
       ++ nl ++ "                        <div class=" ++ dq ++ "score-fill" ++ dq ++ " style=" ++ dq ++ "width: 0%; background: linear-gradient(90deg, #D32F2F, #F44336)" ++ dq ++ "></div>"
       ++ nl ++ "                    </div>"
       ++ nl ++ "                    <p style=" ++ dq ++ "font-size: 0.8rem; color: #B0B8C1; margin-top: 0.25rem;" ++ dq ++ ">"
       ++ nl ++ "                        Risk: <strong style=" ++ dq ++ "color: #B0B8C1" ++ dq ++ ">Unknown</strong>"
       ++ nl ++ "                    </p>"
       ++ nl ++ "                </div>"
       ++ nl ++ "            </div>"
       ++ nl ++ "            "
       ++ nl ++ "                <div class=" ++ dq ++ "issues-list" ++ dq ++ ">"
       ++ nl ++ "                    <li>a</li><li>b</li><li>c</li>"
       ++ nl ++ "                    <li>... and 2 more issues</li>"
       ++ nl ++ "                </div>"
       ++ nl ++ "            "
       ++ nl ++ "        </div>"
       ++ nl ++ "    ").
Proof.
  intros issues a. split; [reflexivity|].
  exact (proj1 (assessment_card_issue_truncation
                  (fun _ => NaN) (fun _ => "") (fun _ => "") a "EC2" issues
                  eq_refl)
           (VStr "a") (VStr "b") (VStr "c") (VStr "d") [VStr "e"] eq_refl).
Defined.

Lemma recommendation_card_fields_witness :
  let r := VObj [("priority", VStr "High"); ("title", VStr "Rotate keys")] in
  present r = true /\
  priority_text_or_absent r = true /\
  recommendation_fields_convertible r = true /\
  createRecommendationCard (fun _ => "") (fun s => s) r
  = Ok (nl ++ "        <div class=" ++ dq ++ "recommendation-card high" ++ dq ++ ">"
       ++ nl ++ "            <div class=" ++ dq ++ "priority-badge high" ++ dq ++ ">"
       ++ nl ++ "                High"
       ++ nl ++ "            </div>"
       ++ nl ++ "            <h4>Rotate keys</h4>"
       ++ nl ++ "            <p>Review security configuration</p>"
       ++ nl ++ "            <div class=" ++ dq ++ "resource-info" ++ dq ++ ">"
       ++ nl ++ "                <strong>Issue:</strong> General security concern"
       ++ nl ++ "            </div>"
       ++ nl ++ "            "
       ++ nl ++ "        </div>"
       ++ nl ++ "    ").
Proof.
  intros r. split; [reflexivity|]. split; [reflexivity|].
  split; [reflexivity|].
  exact (proj1 (recommendation_card_fields (fun _ => "") (fun s => s) r
                  eq_refl eq_refl eq_refl)).
Defined.

Lemma aggregation_completes_on_well_shaped_witness :
  let d := VObj [("summary", VObj [("ec2", VObj [("average_score", num 90)])])] in
  well_shaped d = true /\
  succeeds (updateKPICards (fun _ => NaN) (fun _ => "") (fun s => s) d) /\
  updateEC2BreakdownChart d = Ok (EC2.mk 0 0 0 0).
Proof.
  intros d. split; [reflexivity|].
  pose proof (aggregation_completes_on_well_shaped
                (fun _ => NaN) (fun _ => "") (fun _ => "") (fun s => s) d eq_refl)
    as (Hrun & _ & Hec2 & _).
  split; [exact (proj1 Hrun)|exact (Hec2 eq_refl)].
Defined.

Lemma request_falls_back_on_client_endpoints_witness :
  let fetch := fun (_ : string) (_ : options) =>
                 Fulfilled (mk_response false 503 "Service Unavailable"
                              (Throw (Rejection "no body"))) in
  let this := mk_client "http://localhost:3000" in
  In "/api/dashboard" client_endpoints /\
  transport_fails fetch (fun _ => "") this "/api/dashboard" "GET" VNull /\
  exists error,
    request fetch (fun _ => "") this "/api/dashboard" "GET" VNull
    = ([ console_error "API Request Error:" error;
         console_warn "Falling back to mock data for" "/api/dashboard" ],
       Ok (mockApiResponse "/api/dashboard" "GET")).
Proof.
  intros fetch this.
  assert (Hin : In "/api/dashboard" client_endpoints) by (left; reflexivity).
  assert (Hfail : transport_fails fetch (fun _ => "") this "/api/dashboard"
                    "GET" VNull) by reflexivity.
  split; [exact Hin|]. split; [exact Hfail|].
  exact (proj1 (request_falls_back_on_client_endpoints fetch (fun _ => "")
                  this "/api/dashboard" "GET" VNull Hin) Hfail).
Defined.


(** * Further properties of the dashboard *)

Lemma text_or_absent_present (l : list value) :
  Forall (fun a => risk_level_text_or_absent a = true) l ->
  forallb present l = true.
Proof.
  induction 1 as [|a l Ha _ IH]; [reflexivity|]. simpl.
  unfold risk_level_text_or_absent in Ha. apply andb_prop in Ha as [Ha _].
  now rewrite Ha.
Qed.





Section AggregatorProperties.

Variable StringToNumber : string -> number.
Variable FractionToString : Q -> string.
Variable NativeFunctionToString : string -> string.

(** The critical-issues KPI and the 'Critical' bar of the risk chart are
    computed by two different loops; on assessments whose risk_level is a
    string or absent they show the same number. *)
Theorem critical_count_matches_distribution (d : value) (l : list value) :
  all_assessments d = Ok l ->
  Forall (fun a => risk_level_text_or_absent a = true) l ->
  exists c,
    updateRiskDistributionChart FractionToString d = Ok c /\
    countCriticalIssues d = Ok (Critical c).
Proof.
  intros Hall Hl. eexists. split.
  - unfold updateRiskDistributionChart. rewrite Hall. cbn [bind].
    apply (risk_loop FractionToString _ _ Hl).
  - rewrite (countCriticalIssues_counts _ _ Hall (text_or_absent_present _ Hl)).
    reflexivity.
Qed.


Lemma forEach_unless {S : Type} (ok : value -> bool)
    (body : value -> S -> result S) :
  (forall a s, ok a = false -> body a s = Throw TypeError) ->
  (forall a s, ok a = true -> succeeds (body a s)) ->
  forall l s, forallb ok l = false -> forEach l body s = Throw TypeError.
Proof.
  intros Hno Hyes l. induction l as [|a l IH]; intros s Hl; simpl in *.
  - discriminate.
  - destruct (ok a) eqn:Ea; simpl in Hl.
    + destruct (Hyes a s Ea) as [s' ->]. simpl. now apply IH.
    + now rewrite (Hno a s Ea).
Qed.

Lemma risk_step_unreadable (a : value) (c : riskCounts) :
  entry_readable a = false ->
  risk_step FractionToString a c = Throw TypeError.
Proof.
  unfold entry_readable, risk_step. intros H.
  destruct (present a) eqn:Ea; [|now rewrite (get_absent _ _ Ea)].
  rewrite (get_present _ _ Ea). cbn [bind]. cbn [andb] in H.
  rewrite ToString_unconvertible; [reflexivity|].
  unfold js_or. destruct (truthy (member a "risk_level")) eqn:Et; [exact H|].
  destruct (member a "risk_level"); discriminate.
Qed.

(** The critical count completes exactly when no entry of either list is
    null or undefined; the risk distribution completes exactly when, in
    addition, the risk level of every entry can be made a property key.
    One entry that is null or undefined, wherever it stands, makes both
    throw; no partial count is returned. *)
Theorem combined_aggregates_need_every_entry (ec2 s3 : list value) :
  (succeeds (countCriticalIssues (payload_of ec2 s3))
   <-> forallb present (ec2 ++ s3) = true) /\
  (succeeds (updateRiskDistributionChart FractionToString (payload_of ec2 s3))
   <-> forallb entry_readable (ec2 ++ s3) = true) /\
  (forallb present (ec2 ++ s3) = false ->
   countCriticalIssues (payload_of ec2 s3) = Throw TypeError /\
   updateRiskDistributionChart FractionToString (payload_of ec2 s3)
   = Throw TypeError) /\
  (forallb entry_readable (ec2 ++ s3) = false ->
   updateRiskDistributionChart FractionToString (payload_of ec2 s3)
   = Throw TypeError).
Proof.
  change (countCriticalIssues (payload_of ec2 s3))
    with (forEach (ec2 ++ s3) critical_step 0%nat).
  change (updateRiskDistributionChart FractionToString (payload_of ec2 s3))
    with (forEach (ec2 ++ s3) (risk_step FractionToString) (mk_counts 0 0 0 0)).
  assert (Hrisk : forallb entry_readable (ec2 ++ s3) = false ->
                  forEach (ec2 ++ s3) (risk_step FractionToString)
                    (mk_counts 0 0 0 0) = Throw TypeError).
  { intros Hf. apply (forEach_unless entry_readable); [| |exact Hf].
    - intros a s Ha. now apply risk_step_unreadable.
    - intros a s Ha. apply (risk_step_succeeds FractionToString _ _ Ha). }
  assert (Hweak : forallb present (ec2 ++ s3) = false ->
                  forallb entry_readable (ec2 ++ s3) = false).
  { intros Hp. destruct (forallb entry_readable (ec2 ++ s3)) eqn:E;
      [|reflexivity].
    now rewrite (forallb_weaken _ _ _ entry_readable_present E) in Hp. }
  rewrite critical_loop.
  split; [|split; [|split]].
  - destruct (forallb present (ec2 ++ s3)).
    + split; [reflexivity|]. intros _. now eexists.
    + split; [intros [n Hn]; discriminate Hn|discriminate].
  - destruct (forallb entry_readable (ec2 ++ s3)) eqn:E.
    + split; [reflexivity|]. intros _.
      apply (forEach_succeeds entry_readable); [|exact E].
      intros a s Ha. apply (risk_step_succeeds FractionToString _ _ Ha).
    + rewrite (Hrisk eq_refl).
      split; [intros [n Hn]; discriminate Hn|discriminate].
  - intros Hp. rewrite Hp. split; [reflexivity|]. exact (Hrisk (Hweak Hp)).
  - exact Hrisk.
Qed.

(** The colour of a risk level and the colour of a score agree: the risk
    colour of the level computed from a score is the colour of that score.
    A level that is none of the four, and no inherited member name, gets
    the neutral colour; 'Unknown', the default level of a card, is one. *)
Theorem risk_color_of_level_is_score_color (s : number) :
  getRiskColor FractionToString NativeFunctionToString (VStr (getRiskLevel s))
  = Ok (getScoreColor s) /\
  (forall k, mem_string k risk_levels = false ->
     mem_string k Object_prototype_members = false ->
     getRiskColor FractionToString NativeFunctionToString (VStr k)
     = Ok "#B0B8C1") /\
  getRiskColor FractionToString NativeFunctionToString (VStr "Unknown")
  = Ok "#B0B8C1".
Proof.
  split; [|split; [|reflexivity]].
  - unfold getRiskLevel, getScoreColor.
    destruct (num_ge s (num_of_Z 80)); [reflexivity|].
    destruct (num_ge s (num_of_Z 60)); [reflexivity|].
    now destruct (num_ge s (num_of_Z 40)).
  - intros k Hk Hm. unfold getRiskColor.
    change (ToString FractionToString (VStr k)) with (@Ok string k).
    cbn [bind]. unfold colors_lookup.
    unfold mem_string, risk_levels in Hk. simpl in Hk.
    repeat (apply orb_false_elim in Hk as [? Hk]).
    repeat match goal with H : (k =? _) = false |- _ => rewrite H; clear H end.
    rewrite Hm.
    assert (Hp : (k =? "__proto__") = false).
    { unfold mem_string, Object_prototype_members in Hm. simpl in Hm.
      apply orb_false_elim in Hm as [_ Hm].
      now apply orb_false_elim in Hm as [Hm _]. }
    now rewrite Hp.
Qed.

(** The gradient of a score bar starts at the colour of the score. *)
Theorem gradient_starts_at_score_color (s : number) :
  exists stop,
    getScoreGradient s
    = "linear-gradient(90deg, " ++ getScoreColor s ++ ", " ++ stop ++ ")".
Proof.
  unfold getScoreGradient, getScoreColor.
  destruct (num_ge s (num_of_Z 80)); [now exists "#4CAF50"|].
  destruct (num_ge s (num_of_Z 60)); [now exists "#FF9800"|].
  destruct (num_ge s (num_of_Z 40)); [now exists "#FF6B6B"|now exists "#F44336"].
Qed.

End AggregatorProperties.

(** ** KPI cards and lists of cards *)

Lemma Qred_inject_Z (z : Z) : Qred (inject_Z z) = inject_Z z.
Proof.
  unfold Qred, inject_Z.
  pose proof (Z.ggcd_gcd z 1) as Hg.
  pose proof (Z.ggcd_correct_divisors z 1) as Hd.
  destruct (Z.ggcd z 1) as [g [aa bb]]. simpl in *.
  rewrite Z.gcd_1_r in Hg. subst g. destruct Hd as [Ha Hb].
  rewrite Z.mul_1_l in Ha, Hb. now subst.
Qed.

Lemma Math_round_Z (z : Z) : Math_round (num_of_Z z) = num_of_Z z.
Proof.
  unfold Math_round, num_of_Z. f_equal. f_equal.
  unfold Qfloor, Qplus, inject_Z. simpl.
  rewrite Z.div_add_l by discriminate. change (1 / 2)%Z with 0%Z. lia.
Qed.

Lemma mapM_ok {A B} (f : A -> result B) (l : list A) :
  Forall (fun x => succeeds (f x)) l ->
  exists ys, mapM f l = Ok ys /\ Forall2 (fun x y => f x = Ok y) l ys.
Proof.
  induction 1 as [|x l [y Hy] _ [ys [Hys HF]]].
  - exists []. split; [reflexivity|constructor].
  - exists (y :: ys). simpl. rewrite Hy. cbn [bind]. rewrite Hys. cbn [bind].
    split; [reflexivity|now constructor].
Qed.

Lemma mapM_throw {A B} (f : A -> result B) (l : list A) :
  (forall x e, f x = Throw e -> e = TypeError) ->
  Exists (fun x => f x = Throw TypeError) l ->
  mapM f l = Throw TypeError.
Proof.
  intros Hty. induction 1 as [x l Hx|x l _ IH]; simpl.
  - now rewrite Hx.
  - destruct (f x) as [y|e] eqn:Ex; cbn [bind].
    + now rewrite IH.
    + now rewrite (Hty _ _ Ex).
Qed.

(** *** What a run can throw *)

Lemma toe_Ok {A} (a : A) : throws_only_TypeError (Ok a).
Proof. intros e H. discriminate H. Qed.

Lemma toe_Throw {A} : throws_only_TypeError (@Throw A TypeError).
Proof. intros e H. now injection H as <-. Qed.

Lemma toe_bind {A B} (c : result A) (k : A -> result B) :
  throws_only_TypeError c -> (forall a, throws_only_TypeError (k a)) ->
  throws_only_TypeError (bind c k).
Proof.
  intros Hc Hk e. destruct c as [a|e']; cbn [bind].
  - apply Hk.
  - intros H. injection H as <-. now apply Hc.
Qed.

Lemma toe_get (v : value) (k : string) : throws_only_TypeError (get v k).
Proof. unfold get. destruct (nullish v); [apply toe_Throw|apply toe_Ok]. Qed.

Lemma toe_spread (v : value) : throws_only_TypeError (spread v).
Proof. destruct v; first [apply toe_Throw|apply toe_Ok]. Qed.

Lemma toe_array_receiver (v : value) : throws_only_TypeError (array_receiver v).
Proof. destruct v; first [apply toe_Throw|apply toe_Ok]. Qed.

Lemma toe_call_toLowerCase (UnicodeToLowerCase : string -> string)
    (v : value) :
  throws_only_TypeError (call_toLowerCase UnicodeToLowerCase v).
Proof. destruct v; first [apply toe_Throw|apply toe_Ok]. Qed.

Lemma toe_forEach {S : Type} (body : value -> S -> result S) (l : list value) :
  (forall a s, throws_only_TypeError (body a s)) ->
  forall s, throws_only_TypeError (forEach l body s).
Proof.
  intros Hb. induction l as [|a l IH]; intros s; simpl.
  - apply toe_Ok.
  - apply toe_bind; [apply Hb|exact IH].
Qed.

Lemma toe_mapM {A B} (f : A -> result B) (l : list A) :
  (forall x, throws_only_TypeError (f x)) ->
  throws_only_TypeError (mapM f l).
Proof.
  intros Hf. induction l as [|x l IH]; simpl.
  - apply toe_Ok.
  - apply toe_bind; [apply Hf|]. intros y.
    apply toe_bind; [exact IH|]. intros ys. apply toe_Ok.
Qed.

Lemma toe_if {A} (b : bool) (r1 r2 : result A) :
  throws_only_TypeError r1 -> throws_only_TypeError r2 ->
  throws_only_TypeError (if b then r1 else r2).
Proof. now destruct b. Qed.

Lemma toe_ToString (FractionToString : Q -> string) (v : value) :
  throws_only_TypeError (ToString FractionToString v).
Proof.
  rewrite ToString_spec. destruct (convertible v); [apply toe_Ok|apply toe_Throw].
Qed.

Lemma toe_ToNumber (StringToNumber : string -> number)
    (FractionToString : Q -> string) (v : value) :
  throws_only_TypeError (ToNumber StringToNumber FractionToString v).
Proof.
  rewrite ToNumber_spec. destruct (convertible v); [apply toe_Ok|apply toe_Throw].
Qed.

Create HintDb js_throw.
#[local] Hint Resolve toe_Ok toe_Throw toe_get toe_spread toe_array_receiver
  toe_call_toLowerCase toe_ToString toe_ToNumber : js_throw.

(** Splits a chain of binds and closes each link with the hints. *)
Ltac only_TypeError :=
  repeat first
    [ progress cbv zeta
    | apply toe_bind; [|intros ?]
    | apply toe_forEach; intros ? ?
    | apply toe_mapM; intros ?
    | apply toe_if
    | solve [auto with js_throw] ].

Lemma toe_createRecommendationCard (FractionToString : Q -> string)
    (UnicodeToLowerCase : string -> string) (r : value) :
  throws_only_TypeError
    (createRecommendationCard FractionToString UnicodeToLowerCase r).
Proof.
  unfold createRecommendationCard, resource_type_block. only_TypeError.
Qed.

Lemma toe_createAssessmentCard (StringToNumber : string -> number)
    (FractionToString : Q -> string) (NativeFunctionToString : string -> string)
    (a : value) (type : string) :
  throws_only_TypeError
    (createAssessmentCard StringToNumber FractionToString
       NativeFunctionToString a type).
Proof.
  unfold createAssessmentCard, state_badge, getRiskColor, issues_block,
    issue_item.
  only_TypeError.
Qed.

(** A run that cannot succeed throws a [TypeError]. *)
Lemma toe_fails {A} (c : result A) :
  throws_only_TypeError c -> (forall a, c <> Ok a) -> c = Throw TypeError.
Proof.
  intros Hc Hno. destruct c as [a|e]; [now destruct (Hno a)|].
  now rewrite (Hc e eq_refl).
Qed.

(** A string that ends on [tail] after [x], whatever stands before. *)
Lemma append_before (a b before c : string) :
  b = before ++ c -> a ++ b = (a ++ before) ++ c.
Proof.
  intros ->. induction a as [|ch a IH]; [reflexivity|]. simpl. now rewrite IH.
Qed.

(** A default that is a string or a number does not change whether a
    value can be converted: the values it replaces are primitive. *)
Lemma convertible_js_or_eq (v w : value) :
  convertible w = true -> convertible (js_or v w) = convertible v.
Proof.
  intros Hw. unfold js_or. destruct (truthy v) eqn:Et; [reflexivity|].
  rewrite Hw. destruct v; try reflexivity; discriminate Et.
Qed.


Section CardProperties.

Variable StringToNumber : string -> number.
Variable FractionToString : Q -> string.
Variable NativeFunctionToString : string -> string.
Variable UnicodeToLowerCase : string -> string.

Lemma NumberToString_Z (z : Z) :
  (Z.abs z <= 2 ^ 53)%Z ->
  NumberToString FractionToString (num_of_Z z) = string_of_Z z.
Proof.
  intros Hz. unfold NumberToString, num_of_Z. cbv zeta.
  rewrite Qred_inject_Z. cbn [inject_Z Qden Qnum].
  apply Z.leb_le in Hz. now rewrite Hz.
Qed.

(** A completed run of [updateKPICards] read a summary of convertible
    scores and counts, and counted the critical issues. *)
Lemma updateKPICards_inv (d : value) (w : list dom_write) :
  updateKPICards StringToNumber FractionToString UnicodeToLowerCase d = Ok w ->
  present d = true /\ present (member d "summary") = true /\
  summary_convertible (member d "summary") = true /\
  exists n, countCriticalIssues d = Ok n.
Proof.
  unfold updateKPICards, get, present, summary_convertible. intros H.
  destruct (nullish d); [discriminate H|]. cbn [bind] in H.
  destruct (nullish (member d "summary")); [discriminate H|]. cbn [bind] in H.
  rewrite !ToNumber_spec, !ToString_spec in H.
  rewrite !convertible_js_or_eq in H by reflexivity.
  destruct (convertible (get_opt (member (member d "summary") "overall")
                           "average_score")); [|discriminate H].
  cbn [bind] in H.
  destruct (convertible (get_opt (member (member d "summary") "ec2")
                           "average_score")); [|discriminate H].
  cbn [bind] in H.
  destruct (convertible (get_opt (member (member d "summary") "ec2") "count"));
    [|discriminate H].
  cbn [bind] in H.
  destruct (convertible (get_opt (member (member d "summary") "s3")
                           "average_score")); [|discriminate H].
  cbn [bind] in H.
  destruct (convertible (get_opt (member (member d "summary") "s3") "count"));
    [|discriminate H].
  cbn [bind] in H.
  destruct (countCriticalIssues d) as [n|e]; [|discriminate H].
  repeat split. now exists n.
Qed.

Lemma getRiskLevel_known (s : number) : In (getRiskLevel s) risk_levels.
Proof.
  unfold getRiskLevel, risk_levels.
  destruct (num_ge s (num_of_Z 80)); [simpl; auto|].
  destruct (num_ge s (num_of_Z 60)); [simpl; auto|].
  destruct (num_ge s (num_of_Z 40)); simpl; auto.
Qed.

(** A completed run of [updateKPICards] writes the same eleven properties
    of the same elements, in the same order, whatever the payload; the
    class it gives the risk label is one of the four risk classes, the
    lower-cased level shown in the label; and the critical-issues card
    shows the result of [countCriticalIssues]. *)
Theorem kpi_writes_shape (d : value) (w : list dom_write) :
  updateKPICards StringToNumber FractionToString UnicodeToLowerCase d = Ok w ->
  map (fun x => (element x, property x)) w
  = [ ("overallScore", "textContent"); ("overallScoreFill", "style.width");
      ("overallRiskLevel", "textContent"); ("overallRiskLevel", "className");
      ("ec2Score", "textContent"); ("ec2ScoreFill", "style.width");
      ("ec2Count", "textContent");
      ("s3Score", "textContent"); ("s3ScoreFill", "style.width");
      ("s3Count", "textContent");
      ("criticalCount", "textContent") ] /\
  (exists lvl,
     In lvl risk_levels /\
     In (mk_write "overallRiskLevel" "textContent" ("Risk Level: " ++ lvl)) w /\
     In (mk_write "overallRiskLevel" "className"
           ("risk-level " ++ toLowerCase UnicodeToLowerCase lvl)) w /\
     In ("risk-level " ++ toLowerCase UnicodeToLowerCase lvl)
        [ "risk-level low"; "risk-level medium"; "risk-level high";
          "risk-level critical" ]) /\
  (exists n,
     countCriticalIssues d = Ok n /\
     In (mk_write "criticalCount" "textContent"
           (NumberToString FractionToString (num_of_nat n))) w).
Proof.
  intros H.
  destruct (updateKPICards_inv _ _ H) as (Hd & Hsum & Hconv & n & Hn).
  rewrite (updateKPICards_convertible _ _ _ _ _ Hd Hsum Hconv Hn) in H.
  cbv zeta in H. injection H as <-.
  split; [reflexivity|]. split.
  - set (lvl := getRiskLevel _).
    exists lvl. pose proof (getRiskLevel_known
      (number_of StringToNumber FractionToString
         (js_or (get_opt (member (member d "summary") "overall") "average_score")
            (VNum (num_of_Z 0))))) as Hin.
    fold lvl in Hin. split; [exact Hin|].
    split; [find_write|]. split; [find_write|].
    unfold risk_levels in Hin. simpl in Hin.
    destruct Hin as [<-|[<-|[<-|[<-|[]]]]]; simpl; auto.
  - exists n. split; [exact Hn|]. find_write.
Qed.

(** Scores are not clamped to the range from 0 to 100: an integer overall
    average below 0 or above 100 is shown as it is, digit by digit while
    it is an integer a number holds exactly, and is the width, in per
    cent, of the score bar. *)
Theorem kpi_overall_score_unclamped (d : value) (z : Z)
    (w : list dom_write) :
  member (member (member d "summary") "overall") "average_score"
    = VNum (num_of_Z z) ->
  z <> 0%Z -> (Z.abs z <= 2 ^ 53)%Z ->
  updateKPICards StringToNumber FractionToString UnicodeToLowerCase d = Ok w ->
  In (mk_write "overallScore" "textContent" (string_of_Z z)) w /\
  In (mk_write "overallScoreFill" "style.width" (string_of_Z z ++ "%")) w /\
  In (mk_write "overallRiskLevel" "textContent"
        ("Risk Level: " ++ getRiskLevel (num_of_Z z))) w.
Proof.
  intros Hscore Hz Hbound H.
  destruct (updateKPICards_inv _ _ H) as (Hd & Hsum & Hconv & n & Hn).
  rewrite (updateKPICards_convertible _ _ _ _ _ Hd Hsum Hconv Hn) in H.
  cbv zeta in H. injection H as <-.
  assert (Hov : js_or (get_opt (member (member d "summary") "overall")
                         "average_score") (VNum (num_of_Z 0))
                = VNum (num_of_Z z)).
  { unfold get_opt.
    destruct (nullish (member (member d "summary") "overall")) eqn:En.
    - destruct (member (member d "summary") "overall");
        try discriminate En; discriminate Hscore.
    - rewrite Hscore. unfold js_or, truthy, num_truthy, num_of_Z.
      replace (Qeq_bool (inject_Z z) 0) with false; [reflexivity|].
      symmetry. unfold Qeq_bool, inject_Z. simpl.
      apply Z.eqb_neq. lia. }
  rewrite Hov. cbn [number_of]. unfold setScoreCard. rewrite !Math_round_Z.
  rewrite (NumberToString_Z _ Hbound).
  repeat split; find_write.
Qed.

(** What the [issues] field of an assessment may be: a non-empty string
    in place of the list makes the card throw; a boolean, a number, or an
    object without a length is rendered as the "no issues" line, with
    which the card then ends. *)
Theorem issues_field_shapes (a : value) (type : string) :
  present a = true ->
  (forall s, member a "issues" = VStr s -> s <> "" ->
     createAssessmentCard StringToNumber FractionToString
       NativeFunctionToString a type = Throw TypeError) /\
  (card_convertible a type = true ->
   forall v, member a "issues" = v ->
     match v with
     | VBool _ | VNum _ => True
     | VObj props => lookup "length" props = None
     | _ => False
     end ->
     exists before,
       createAssessmentCard StringToNumber FractionToString
         NativeFunctionToString a type
       = Ok (before
             ++ "<p style=" ++ dq ++ "color: #2D8B47; font-size: 0.9rem;" ++ dq
             ++ ">"
             ++ string_of_list_ascii
                  (map ascii_of_nat [195; 162; 197; 147; 226; 128; 156]%nat)
             ++ " No issues found</p>"
             ++ nl ++ "        </div>"
             ++ nl ++ "    ")).
Proof.
  intros Ha. split.
  - intros s Hs Hne. apply toe_fails; [apply toe_createAssessmentCard|].
    intros card E.
    rewrite (createAssessmentCard_present _ _ _ _ _ Ha), Hs in E.
    cbv zeta in E.
    assert (Hib : issues_block StringToNumber FractionToString
                    (js_or (VStr s) (VArr [])) = Throw TypeError).
    { destruct s as [|c s]; [congruence|].
      unfold js_or. cbn [truthy String.eqb negb]. unfold issues_block.
      change (ToNumber StringToNumber FractionToString
                (member (VStr (String c s)) "length"))
        with (@Ok number (num_of_Z (Z.of_nat (String.length (String c s))))).
      cbn [bind]. rewrite num_ltb_Z.
      replace (0 <? Z.of_nat (String.length (String c s)))%Z with true
        by (symmetry; apply Z.ltb_lt; simpl String.length; lia).
      reflexivity. }
    rewrite Hib in E.
    repeat match type of E with
           | bind ?c _ = Ok _ =>
               destruct c; cbn [bind] in E; [|discriminate E]
           end.
    discriminate E.
  - intros Hf v Hv Hshape.
    rewrite (createAssessmentCard_spec _ _ _ _ _ Ha), Hf, Hv. cbv zeta.
    assert (Hib : issues_block StringToNumber FractionToString
                    (js_or v (VArr [])) = Ok no_issues_html).
    { destruct v as [| |b|n|s|l|props]; try contradiction.
      - destruct b; reflexivity.
      - unfold js_or. destruct (truthy (VNum n)); reflexivity.
      - unfold js_or, issues_block. cbn [truthy member]. now rewrite Hshape. }
    rewrite Hib. cbn [bind]. unfold assessment_html.
    eexists. f_equal.
    repeat first [reflexivity | apply append_before].
Qed.

End CardProperties.

Section ListProperties.

Variable StringToNumber : string -> number.
Variable FractionToString : Q -> string.
Variable NativeFunctionToString : string -> string.
Variable UnicodeToLowerCase : string -> string.

Lemma length_not_zero (a : value) (l : list value) :
  strict_eq_num (member (VArr (a :: l)) "length") 0 = false.
Proof.
  change (member (VArr (a :: l)) "length")
    with (VNum (Fin (inject_Z (Z.of_nat (List.length (a :: l)))))).
  unfold strict_eq_num, Qeq_bool, inject_Z. simpl Qnum. simpl Qden.
  apply Z.eqb_neq. simpl List.length. lia.
Qed.

(** The recommendations section is rendered all or nothing.  With no
    recommendations (missing or empty list) it shows the placeholder line;
    with recommendations that each make a card, it shows the cards joined
    in the order of the list; and one record whose card throws, wherever it
    stands, makes the whole section throw. *)
Theorem recommendations_all_or_nothing (d : value) :
  present d = true ->
  (nullish (member d "recommendations") = true
   \/ member d "recommendations" = VArr [] ->
   updateRecommendations FractionToString UnicodeToLowerCase d
   = Ok (mk_write "recommendationsContainer" "innerHTML"
           ("<div class=" ++ dq ++ "loading" ++ dq
            ++ ">No critical recommendations at this time</div>"))) /\
  (forall l, member d "recommendations" = VArr l -> l <> [] ->
     (Forall (fun r => succeeds (createRecommendationCard FractionToString
                                   UnicodeToLowerCase r)) l ->
      exists cards,
        Forall2 (fun r card =>
                   createRecommendationCard FractionToString
                     UnicodeToLowerCase r = Ok card) l cards /\
        updateRecommendations FractionToString UnicodeToLowerCase d
        = Ok (mk_write "recommendationsContainer" "innerHTML" (join "" cards))) /\
     (Exists (fun r => createRecommendationCard FractionToString
                         UnicodeToLowerCase r = Throw TypeError) l ->
      updateRecommendations FractionToString UnicodeToLowerCase d
      = Throw TypeError)).
Proof.
  intros Hd. unfold updateRecommendations. rewrite (get_present _ _ Hd).
  cbn [bind]. split.
  - intros [Hn| ->]; [|reflexivity].
    destruct (member d "recommendations"); try discriminate Hn; reflexivity.
  - intros l -> Hne.
    change (js_or (VArr l) (VArr [])) with (VArr l).
    destruct l as [|r l]; [congruence|].
    rewrite length_not_zero. cbn [array_receiver bind]. split.
    + intros Hok.
      destruct (mapM_ok (createRecommendationCard FractionToString
                           UnicodeToLowerCase) (r :: l) Hok)
        as (cards & Hcards & HF).
      exists cards. split; [exact HF|]. now rewrite Hcards.
    + intros Hex.
      rewrite (mapM_throw (createRecommendationCard FractionToString
                             UnicodeToLowerCase) (r :: l)
                 (toe_createRecommendationCard _ _) Hex).
      reflexivity.
Qed.

Lemma updateAssessmentList_array (elementId type : string) (l : list value) :
  Forall (fun a => succeeds (createAssessmentCard StringToNumber
                               FractionToString NativeFunctionToString a type))
    l ->
  exists cards,
    Forall2 (fun a card =>
               createAssessmentCard StringToNumber FractionToString
                 NativeFunctionToString a type = Ok card) l cards /\
    updateAssessmentList StringToNumber FractionToString NativeFunctionToString
      elementId (VArr l) type
    = Ok (mk_write elementId "innerHTML"
            (match l with
             | [] => "<div class=" ++ dq ++ "loading" ++ dq ++ ">No " ++ type
                     ++ " assessments found</div>"
             | _ => join "" cards
             end)).
Proof.
  intros Hok.
  destruct (mapM_ok (fun a => createAssessmentCard StringToNumber
                                FractionToString NativeFunctionToString a type)
              l Hok)
    as (cards & Hcards & HF).
  exists cards. split; [exact HF|].
  unfold updateAssessmentList. destruct l as [|a l]; [reflexivity|].
  rewrite length_not_zero. cbn [array_receiver bind]. now rewrite Hcards.
Qed.

(** The two assessment lists are rendered with their own card type, EC2
    entries as 'EC2' cards and S3 entries as 'S3' cards, each list joined
    in its order; an empty list shows the line that names its type. *)
Theorem assessment_lists_rendering (ec2 s3 : list value) :
  Forall (fun a => succeeds (createAssessmentCard StringToNumber
                               FractionToString NativeFunctionToString a "EC2"))
    ec2 ->
  Forall (fun a => succeeds (createAssessmentCard StringToNumber
                               FractionToString NativeFunctionToString a "S3"))
    s3 ->
  exists cards_ec2 cards_s3,
    Forall2 (fun a card =>
               createAssessmentCard StringToNumber FractionToString
                 NativeFunctionToString a "EC2" = Ok card) ec2 cards_ec2 /\
    Forall2 (fun a card =>
               createAssessmentCard StringToNumber FractionToString
                 NativeFunctionToString a "S3" = Ok card) s3 cards_s3 /\
    updateAssessments StringToNumber FractionToString NativeFunctionToString
      (payload_of ec2 s3)
    = Ok [ mk_write "ec2AssessmentList" "innerHTML"
             (match ec2 with
              | [] => "<div class=" ++ dq ++ "loading" ++ dq
                      ++ ">No EC2 assessments found</div>"
              | _ => join "" cards_ec2
              end);
           mk_write "s3AssessmentList" "innerHTML"
             (match s3 with
              | [] => "<div class=" ++ dq ++ "loading" ++ dq
                      ++ ">No S3 assessments found</div>"
              | _ => join "" cards_s3
              end) ].
Proof.
  intros H1 H2.
  destruct (updateAssessmentList_array "ec2AssessmentList" "EC2" ec2 H1)
    as (c1 & F1 & E1).
  destruct (updateAssessmentList_array "s3AssessmentList" "S3" s3 H2)
    as (c2 & F2 & E2).
  exists c1, c2. split; [exact F1|]. split; [exact F2|].
  unfold updateAssessments.
  change (assessments_of (payload_of ec2 s3) "ec2") with (Ok (VArr ec2)).
  change (assessments_of (payload_of ec2 s3) "s3") with (Ok (VArr s3)).
  cbn [bind]. rewrite E1. cbn [bind]. rewrite E2. cbn [bind].
  destruct ec2, s3; reflexivity.
Qed.

End ListProperties.

(** * Further properties of the API client *)

Lemma prefix_append (p s : string) : String.prefix p (p ++ s) = true.
Proof.
  induction p as [|c p IH]; simpl; [now destruct s|].
  destruct (ascii_dec c c) as [_|Hc]; [exact IH|congruence].
Qed.

Lemma includes_prefix (s sub : string) :
  String.prefix sub s = true -> includes s sub = true.
Proof.
  intros H. destruct s; cbn [includes]; rewrite H; reflexivity.
Qed.

(** [includes] finds a text wherever it stands. *)
Lemma includes_inside (before sub after : string) :
  includes (before ++ sub ++ after) sub = true.
Proof.
  induction before as [|c before IH].
  - change ("" ++ sub ++ after) with (sub ++ after).
    apply includes_prefix, prefix_append.
  - cbn [append includes]. fold append. rewrite IH. apply orb_true_r.
Qed.

Section ClientFurther.

Variable fetch : string -> options -> fetch_outcome.
Variable JSON_stringify : value -> string.

(** A success response with a readable body is handed to the caller as it
    is, on every endpoint: nothing is written to the console and the mock
    is not consulted. *)
Theorem request_returns_parsed_body (this : APIClient)
    (endpoint method : string) (data : value) (r : response) (v : value) :
  fetch (baseUrl this ++ endpoint)
    (mk_options method [("Content-Type", "application/json")]
       (if truthy data then Some (JSON_stringify data) else None))
  = Fulfilled r ->
  ok r = true ->
  json r = Ok v ->
  request fetch JSON_stringify this endpoint method data = ([], Ok v).
Proof.
  intros Hf Hok Hj. unfold request, request_try.
  now rewrite Hf, Hok, Hj.
Qed.

(** On every endpoint that starts with '/api', not only the six of the
    client, [request] never rejects; a success status whose body cannot be
    read falls back to the mock like a failed transport does. *)
Theorem request_never_rejects_on_api (this : APIClient)
    (endpoint method : string) (data : value) :
  startsWith endpoint "/api" = true ->
  (forall error,
     snd (request fetch JSON_stringify this endpoint method data)
     <> Throw error) /\
  (forall r reason,
     fetch (baseUrl this ++ endpoint)
       (mk_options method [("Content-Type", "application/json")]
          (if truthy data then Some (JSON_stringify data) else None))
     = Fulfilled r ->
     ok r = true ->
     json r = Throw reason ->
     request fetch JSON_stringify this endpoint method data
     = ([ console_error "API Request Error:" reason;
          console_warn "Falling back to mock data for" endpoint ],
        Ok (mockApiResponse endpoint method))).
Proof.
  intros Hapi. rewrite (request_api _ _ _ _ _ _ Hapi). split.
  - intros error. destruct (request_try _ _ _ _ _ _); simpl; discriminate.
  - intros r reason Hf Hok Hj. unfold request_try. now rewrite Hf, Hok, Hj.
Qed.

(** Off the '/api' prefix the caller sees what the transport did: a
    non-success status is re-thrown as the error 'API Error: <status>
    <statusText>', an unreadable body as the reason it was rejected with,
    each logged once. *)
Theorem request_rethrows_off_api (this : APIClient)
    (endpoint method : string) (data : value) (r : response) :
  endpoint = "" \/ startsWith endpoint "/api" = false ->
  fetch (baseUrl this ++ endpoint)
    (mk_options method [("Content-Type", "application/json")]
       (if truthy data then Some (JSON_stringify data) else None))
  = Fulfilled r ->
  (ok r = false ->
   let error := Error ("API Error: " ++ string_of_Z (status r) ++ " "
                       ++ statusText r) in
   request fetch JSON_stringify this endpoint method data
   = ([ console_error "API Request Error:" error ], Throw error)) /\
  (forall reason, ok r = true -> json r = Throw reason ->
   request fetch JSON_stringify this endpoint method data
   = ([ console_error "API Request Error:" reason ], Throw reason)).
Proof.
  intros Hoff Hf. rewrite (request_not_api _ _ _ _ _ _ Hoff).
  unfold request_try. rewrite Hf. split.
  - intros Hok. now rewrite Hok.
  - intros reason Hok Hj. now rewrite Hok, Hj.
Qed.

(** A failed transport call on the dashboard endpoint followed by any
    query string still falls back to the full sample: the mock looks for
    the path anywhere in the endpoint, and the dashboard path is looked for
    first. *)
Theorem dashboard_fallback_with_query (this : APIClient)
    (query method : string) (data : value) :
  transport_fails fetch JSON_stringify this ("/api/dashboard" ++ query)
    method data ->
  (exists error,
     request fetch JSON_stringify this ("/api/dashboard" ++ query) method data
     = ([ console_error "API Request Error:" error;
          console_warn "Falling back to mock data for"
            ("/api/dashboard" ++ query) ],
        Ok sample)) /\
  (forall before after,
     mockApiResponse (before ++ "/api/dashboard" ++ after) method = sample).
Proof.
  intros Hfail.
  assert (Hmock : forall before after,
             mockApiResponse (before ++ "/api/dashboard" ++ after) method
             = sample).
  { intros before after. unfold mockApiResponse.
    now rewrite includes_inside. }
  split; [|exact Hmock].
  destruct (transport_fails_throws _ _ _ _ _ _ Hfail) as [error Herr].
  exists error.
  rewrite (request_api _ _ _ _ _ _ (eq_refl : startsWith ("/api/dashboard" ++ query) "/api" = true)).
  rewrite Herr. f_equal. f_equal. exact (Hmock "" query).
Qed.

End ClientFurther.

(** The body of a response with a non-success status is never looked at:
    two transports that answer with the same status and status text, and
    different bodies, make [request] behave alike. *)
Theorem non_success_body_is_ignored
    (fetch1 fetch2 : string -> options -> fetch_outcome)
    (JSON_stringify : value -> string) (this : APIClient)
    (endpoint method : string) (data : value) (r1 r2 : response) :
  let sent := mk_options method [("Content-Type", "application/json")]
                (if truthy data then Some (JSON_stringify data) else None) in
  fetch1 (baseUrl this ++ endpoint) sent = Fulfilled r1 ->
  fetch2 (baseUrl this ++ endpoint) sent = Fulfilled r2 ->
  ok r1 = false -> ok r2 = false ->
  status r1 = status r2 -> statusText r1 = statusText r2 ->
  request fetch1 JSON_stringify this endpoint method data
  = request fetch2 JSON_stringify this endpoint method data.
Proof.
  intros sent H1 H2 Hok1 Hok2 Hs Ht. unfold request, request_try.
  fold sent. now rewrite H1, H2, Hok1, Hok2, Hs, Ht.
Qed.

(** * The refresh cycle *)

(** The text of the clock has five characters, whatever the time, and
    reads back as the hours and minutes it was made from. *)
Theorem clock_text_round_trip (hours minutes : nat) :
  (hours < 24)%nat -> (minutes < 60)%nat ->
  element (updateLastUpdatedTime hours minutes) = "lastUpdated" /\
  String.length (text (updateLastUpdatedTime hours minutes)) = 5%nat /\
  clock_of_text (text (updateLastUpdatedTime hours minutes))
  = Some (hours, minutes).
Proof.
  intros Hh Hm.
  set (check := fun h m =>
         let t := text (updateLastUpdatedTime h m) in
         (String.length t =? 5)%nat &&
         match clock_of_text t with
         | Some (h', m') => (h' =? h)%nat && (m' =? m)%nat
         | None => false
         end).
  assert (Hall : forallb (fun h => forallb (check h) (seq 0 60)) (seq 0 24)
                 = true) by (vm_compute; reflexivity).
  rewrite forallb_forall in Hall.
  assert (Hin_h : In hours (seq 0 24)) by (apply in_seq; lia).
  specialize (Hall hours Hin_h). rewrite forallb_forall in Hall.
  assert (Hin_m : In minutes (seq 0 60)) by (apply in_seq; lia).
  specialize (Hall minutes Hin_m). unfold check in Hall. cbv zeta in Hall.
  apply andb_prop in Hall as [Hlen Hback].
  split; [reflexivity|]. split; [now apply Nat.eqb_eq|].
  destruct (clock_of_text _) as [[h' m']|]; [|discriminate].
  apply andb_prop in Hback as [H1 H2].
  apply Nat.eqb_eq in H1, H2. now subst.
Qed.

Section RefreshProperties.

Variable StringToNumber : string -> number.
Variable FractionToString : Q -> string.
Variable NativeFunctionToString : string -> string.
Variable UnicodeToLowerCase : string -> string.
Variable fetch : string -> options -> fetch_outcome.
Variable JSON_stringify : value -> string.

Lemma toe_all_assessments (d : value) :
  throws_only_TypeError (all_assessments d).
Proof. unfold all_assessments, assessments_of. only_TypeError. Qed.

Lemma toe_update_all (d : value) :
  throws_only_TypeError
    (update_all StringToNumber FractionToString NativeFunctionToString
       UnicodeToLowerCase d).
Proof.
  pose proof toe_all_assessments as Hall.
  pose proof toe_createRecommendationCard as Hrec.
  pose proof toe_createAssessmentCard as Hcard.
  unfold update_all, updateKPICards, countCriticalIssues, critical_step,
    updateCharts, updateEC2BreakdownChart, updateS3BreakdownChart,
    updateRiskDistributionChart, ec2_step, s3_step, risk_step,
    updateRecommendations, updateAssessments, updateAssessmentList,
    assessments_of.
  repeat first
    [ progress cbv zeta
    | apply Hall
    | apply Hrec
    | apply Hcard
    | apply toe_bind; [|intros ?]
    | apply toe_forEach; intros ? ?
    | apply toe_mapM; intros ?
    | apply toe_if
    | solve [auto with js_throw] ].
Qed.

Lemma getDashboardData_resolves (hostname : string) :
  exists v,
    snd (getDashboardData fetch JSON_stringify (apiClient hostname)) = Ok v.
Proof.
  unfold getDashboardData.
  rewrite (request_api fetch JSON_stringify _ "/api/dashboard" "GET" VNull
             eq_refl).
  destruct (request_try _ _ _ _ _ _); now eexists.
Qed.

(** Every outcome of [refreshDashboard]: [dashboardData] is replaced by
    what [getDashboardData] resolved with, the response or the mock,
    whether or not the page could be rendered from it; a refresh that does
    not render fails by a [TypeError] of an update step, never by the
    transport, and reports it by the two error lines; a refresh that
    renders shows the result of the four update steps on the new data and
    logs its success last. *)
Theorem refresh_outcome (hostname : string) (hours minutes : nat)
    (old : value) :
  let R := refreshDashboard StringToNumber FractionToString
             NativeFunctionToString UnicodeToLowerCase fetch JSON_stringify
             hostname hours minutes old in
  let client_console :=
    map client_entry
      (fst (getDashboardData fetch JSON_stringify (apiClient hostname))) in
  snd (getDashboardData fetch JSON_stringify (apiClient hostname))
    = Ok (dashboardData_after R) /\
  (rendered R = None ->
   update_all StringToNumber FractionToString NativeFunctionToString
     UnicodeToLowerCase (dashboardData_after R) = Throw TypeError /\
   console_out R
   = (client_console
      ++ [ client_entry (console_error "Dashboard refresh error:" TypeError);
           console_error_message "Failed to refresh dashboard data" ])%list) /\
  (forall r, rendered R = Some r ->
   update_all StringToNumber FractionToString NativeFunctionToString
     UnicodeToLowerCase (dashboardData_after R) = Ok r /\
   console_out R
   = (client_console
      ++ [ console_log "Dashboard refreshed successfully" ])%list).
Proof.
  intros R client_console. subst R client_console. unfold refreshDashboard.
  destruct (getDashboardData_resolves hostname) as [v Hv].
  destruct (getDashboardData fetch JSON_stringify (apiClient hostname))
    as [client_console response].
  cbn [fst snd] in *. subst response.
  destruct (update_all StringToNumber FractionToString NativeFunctionToString
              UnicodeToLowerCase v)
    as [r|e] eqn:Eu; cbn [dashboardData_after rendered console_out].
  - split; [reflexivity|]. split; [discriminate|].
    intros r' Hr. injection Hr as <-. now rewrite Eu.
  - pose proof (toe_update_all v e Eu) as ->.
    split; [reflexivity|]. split; [|discriminate].
    intros _. now rewrite Eu.
Qed.

(** With the backend unreachable (or answering with a non-success
    status) the page still renders: the refresh falls back to the sample,
    every update step completes on it, and the charts show the sample's
    two instances and one bucket. *)
Theorem refresh_offline_renders_sample (hostname : string)
    (hours minutes : nat) (old : value) :
  transport_fails fetch JSON_stringify (apiClient hostname) "/api/dashboard"
    "GET" VNull ->
  exists error r,
    update_all StringToNumber FractionToString NativeFunctionToString
      UnicodeToLowerCase sample
    = Ok r /\
    refreshDashboard StringToNumber FractionToString NativeFunctionToString
      UnicodeToLowerCase fetch JSON_stringify hostname hours minutes old
    = mk_refreshed (updateLastUpdatedTime hours minutes)
        [ client_entry (console_error "API Request Error:" error);
          client_entry (console_warn "Falling back to mock data for"
                          "/api/dashboard");
          console_log "Dashboard refreshed successfully" ]
        sample (Some r) /\
    ec2_chart r = EC2.mk 1 1 1 1 /\
    s3_chart r = S3.mk 1 0 0 1 /\
    risk_chart r = mk_counts 1 2 0 0 /\
    In (mk_write "criticalCount" "textContent" "0") (kpi_writes r).
Proof.
  intros Hfail.
  destruct (transport_fails_throws _ _ _ _ _ _ Hfail) as [error Herr].
  exists error.
  destruct (update_all StringToNumber FractionToString NativeFunctionToString
              UnicodeToLowerCase sample) as [r|e] eqn:Eu;
    [|exfalso; revert Eu; vm_compute; discriminate].
  exists r. split; [reflexivity|]. split.
  - unfold refreshDashboard, getDashboardData.
    rewrite (request_api fetch JSON_stringify _ "/api/dashboard" "GET" VNull
               eq_refl), Herr.
    change (mockApiResponse "/api/dashboard" "GET") with sample.
    now rewrite Eu.
  - revert Eu. vm_compute. intros Eu. injection Eu as <-.
    repeat split. do 10 right. now left.
Qed.

End RefreshProperties.

Section RenderableProperties.

Variable StringToNumber : string -> number.
Variable FractionToString : Q -> string.
Variable NativeFunctionToString : string -> string.
Variable UnicodeToLowerCase : string -> string.
Variable fetch : string -> options -> fetch_outcome.
Variable JSON_stringify : value -> string.

Lemma assessments_ok_list (v : value) :
  assessments_ok v = true ->
  exists l, js_or v (VArr []) = VArr l /\ forallb assessment_ok l = true.
Proof.
  destruct v as [| | | | |l|]; try discriminate; intros H.
  - now exists [].
  - now exists [].
  - now exists l.
Qed.

Lemma assessment_ok_readable (a : value) :
  assessment_ok a = true -> entry_readable a = true.
Proof.
  unfold assessment_ok, entry_readable, card_fields_convertible. intros H.
  apply andb_prop in H as [H _]. apply andb_prop in H as [Ha H].
  apply andb_prop in H as [_ Hrisk]. now rewrite Ha, Hrisk.
Qed.

Lemma forallb_succeeds {A B} (ok : A -> bool) (f : A -> result B)
    (l : list A) :
  (forall x, ok x = true -> succeeds (f x)) ->
  forallb ok l = true -> Forall (fun x => succeeds (f x)) l.
Proof.
  intros Hok Hl. apply Forall_forall. intros x Hx.
  apply Hok. rewrite forallb_forall in Hl. now apply Hl.
Qed.

Lemma updateRecommendations_ok (d : value) :
  present d = true ->
  recommendations_ok (member d "recommendations") = true ->
  succeeds (updateRecommendations FractionToString UnicodeToLowerCase d).
Proof.
  intros Hd Hr. unfold updateRecommendations. rewrite (get_present _ _ Hd).
  cbn [bind].
  destruct (member d "recommendations") as [| | | | |l|]; try discriminate Hr.
  - now eexists.
  - now eexists.
  - change (js_or (VArr l) (VArr [])) with (VArr l).
    destruct (strict_eq_num (member (VArr l) "length") 0); [now eexists|].
    cbn [array_receiver bind].
    destruct (mapM_ok (createRecommendationCard FractionToString
                         UnicodeToLowerCase) l)
      as (cards & Hcards & _).
    { apply (forallb_succeeds recommendation_ok); [|exact Hr].
      apply createRecommendationCard_ok. }
    rewrite Hcards. now eexists.
Qed.

Lemma update_all_renderable (d : value) :
  renderable d = true ->
  succeeds (update_all StringToNumber FractionToString NativeFunctionToString
              UnicodeToLowerCase d).
Proof.
  unfold renderable. intros H.
  apply andb_prop in H as [H Hrec]. apply andb_prop in H as [H Hs3].
  apply andb_prop in H as [H Hec2]. apply andb_prop in H as [H Hconv].
  apply andb_prop in H as [Hd Hsum].
  destruct (assessments_ok_list _ Hec2) as (ec2 & Eec2 & Oec2).
  destruct (assessments_ok_list _ Hs3) as (s3 & Es3 & Os3).
  pose proof (forallb_weaken _ _ _ assessment_ok_readable Oec2) as Rec2.
  pose proof (forallb_weaken _ _ _ assessment_ok_readable Os3) as Rs3.
  pose proof (forallb_weaken _ _ _ entry_readable_present Rec2) as Pec2.
  pose proof (forallb_weaken _ _ _ entry_readable_present Rs3) as Ps3.
  assert (Aec2 : assessments_of d "ec2" = Ok (VArr ec2))
    by now rewrite (assessments_of_present _ _ Hd), Eec2.
  assert (As3 : assessments_of d "s3" = Ok (VArr s3))
    by now rewrite (assessments_of_present _ _ Hd), Es3.
  assert (Hall : all_assessments d = Ok (ec2 ++ s3)%list)
    by (unfold all_assessments; now rewrite Aec2, As3).
  assert (Pall : forallb present (ec2 ++ s3) = true)
    by (rewrite forallb_app; now rewrite Pec2, Ps3).
  assert (Rall : forallb entry_readable (ec2 ++ s3) = true)
    by (rewrite forallb_app; now rewrite Rec2, Rs3).
  unfold update_all.
  (* KPI cards *)
  rewrite (updateKPICards_convertible StringToNumber FractionToString
             UnicodeToLowerCase d _ Hd Hsum Hconv
             (countCriticalIssues_counts _ _ Hall Pall)).
  cbn [bind].
  (* charts *)
  unfold updateCharts, updateEC2BreakdownChart, updateS3BreakdownChart,
    updateRiskDistributionChart.
  rewrite Aec2, As3, Hall. cbn [bind array_receiver].
  rewrite ec2_loop, Pec2, s3_loop, Ps3. cbn [bind].
  destruct (forEach_succeeds entry_readable (risk_step FractionToString)
              (fun a c Ha => risk_step_succeeds FractionToString a c Ha)
              (ec2 ++ s3)%list (mk_counts 0 0 0 0) Rall) as [c ->].
  cbn [bind].
  (* recommendations *)
  destruct (updateRecommendations_ok d Hd Hrec) as [wr ->]. cbn [bind].
  (* assessment lists *)
  unfold updateAssessments. rewrite Aec2, As3. cbn [bind].
  destruct (updateAssessmentList_array StringToNumber FractionToString
              NativeFunctionToString "ec2AssessmentList" "EC2" ec2
              (forallb_succeeds assessment_ok _ _
                 (fun a => createAssessmentCard_ok StringToNumber
                             FractionToString NativeFunctionToString a "EC2")
                 Oec2))
    as (c1 & _ & ->).
  destruct (updateAssessmentList_array StringToNumber FractionToString
              NativeFunctionToString "s3AssessmentList" "S3" s3
              (forallb_succeeds assessment_ok _ _
                 (fun a => createAssessmentCard_ok StringToNumber
                             FractionToString NativeFunctionToString a "S3")
                 Os3))
    as (c2 & _ & ->).
  cbn [bind]. now eexists.
Qed.

(** End to end: when the backend answers the dashboard request with a
    success status and a payload that is an object with a summary of
    convertible scores and counts, whose assessment lists are absent or
    arrays of assessments with convertible fields and absent or array
    issues, and whose recommendations are absent or an array of records
    with absent or string priority and convertible texts, the refresh
    renders every section from that payload and logs nothing but its
    success. *)
Theorem refresh_renders_renderable_payload (hostname : string)
    (hours minutes : nat) (old d : value) (r : response) :
  fetch (baseUrl (apiClient hostname) ++ "/api/dashboard")
    (mk_options "GET" [("Content-Type", "application/json")] None)
  = Fulfilled r ->
  ok r = true ->
  json r = Ok d ->
  renderable d = true ->
  exists page,
    update_all StringToNumber FractionToString NativeFunctionToString
      UnicodeToLowerCase d
    = Ok page /\
    refreshDashboard StringToNumber FractionToString NativeFunctionToString
      UnicodeToLowerCase fetch JSON_stringify hostname hours minutes old
    = mk_refreshed (updateLastUpdatedTime hours minutes)
        [console_log "Dashboard refreshed successfully"] d (Some page).
Proof.
  intros Hf Hok Hj Hd.
  destruct (update_all_renderable d Hd) as [page Hpage].
  exists page. split; [exact Hpage|].
  unfold refreshDashboard, getDashboardData, request, request_try.
  cbn [truthy]. rewrite Hf, Hok, Hj. cbn [negb]. now rewrite Hpage.
Qed.

End RenderableProperties.

(** * Switching tabs *)

Lemma nth_error_update_at (k : nat) (f : dom_element -> dom_element)
    (doc : list dom_element) (j : nat) :
  nth_error (update_at k f doc) j
  = if (j =? k)%nat then option_map f (nth_error doc j) else nth_error doc j.
Proof.
  revert k j. induction doc as [|el doc IH]; intros k j.
  - destruct k, j; simpl; try reflexivity; now destruct (j =? k)%nat.
  - destruct k, j; simpl; try reflexivity. apply IH.
Qed.

Lemma ids_deactivate_all (cls : string) (doc : list dom_element) :
  map el_id (deactivate_all cls doc) = map el_id doc.
Proof.
  unfold deactivate_all. rewrite map_map. apply map_ext. intros el.
  now destruct (classList_contains cls el).
Qed.

Lemma ids_update_at_add (k : nat) (doc : list dom_element) :
  map el_id (update_at k (classList_add "active") doc) = map el_id doc.
Proof.
  revert k. induction doc as [|el doc IH]; intros k; [now destruct k|].
  destruct k; simpl.
  - f_equal. unfold classList_add. now destruct (classList_contains _ _).
  - now rewrite IH.
Qed.

(** [getElementById] looks at ids only. *)
Lemma getElementById_ids (id : string) (doc doc' : list dom_element) :
  map el_id doc = map el_id doc' ->
  getElementById id doc = getElementById id doc'.
Proof.
  revert doc'. induction doc as [|el doc IH]; intros [|el' doc'] H;
    try discriminate H; [reflexivity|].
  simpl in H. injection H as Hid Hrest. simpl.
  now rewrite Hid, (IH _ Hrest).
Qed.

Lemma mem_filter_other (token : string) (l : list string) :
  token <> "active" ->
  mem_string token (filter (fun t => negb (t =? "active")) l)
  = mem_string token l.
Proof.
  intros Hne. unfold mem_string. induction l as [|t l IH]; [reflexivity|].
  cbn [filter existsb]. destruct (t =? "active") eqn:Et; cbn [negb existsb].
  - apply String.eqb_eq in Et. subst t.
    rewrite IH. apply String.eqb_neq in Hne. now rewrite Hne.
  - now rewrite IH.
Qed.

Lemma mem_filter_active (l : list string) :
  mem_string "active" (filter (fun t => negb (t =? "active")) l) = false.
Proof.
  unfold mem_string. induction l as [|t l IH]; [reflexivity|].
  cbn [filter]. destruct (t =? "active") eqn:Et; cbn [negb existsb];
    [exact IH|].
  rewrite IH. rewrite String.eqb_sym in Et. now rewrite Et.
Qed.

Lemma filter_without_active (l : list string) :
  mem_string "active" l = false ->
  filter (fun t => negb (t =? "active")) l = l.
Proof.
  unfold mem_string. induction l as [|t l IH]; [reflexivity|].
  cbn [filter existsb]. intros H. apply orb_false_elim in H as [Ht Hl].
  rewrite String.eqb_sym in Ht. rewrite Ht. cbn [negb]. now rewrite (IH Hl).
Qed.

Lemma contains_remove_other (token : string) (el : dom_element) :
  token <> "active" ->
  classList_contains token (classList_remove "active" el)
  = classList_contains token el.
Proof.
  intros H. unfold classList_contains. cbn [classList_remove el_class].
  now apply mem_filter_other.
Qed.

Lemma contains_add_other (token : string) (el : dom_element) :
  token <> "active" ->
  classList_contains token (classList_add "active" el)
  = classList_contains token el.
Proof.
  intros H. unfold classList_add.
  destruct (classList_contains "active" el); [reflexivity|].
  unfold classList_contains, mem_string. cbn [el_class].
  rewrite existsb_app. cbn [existsb].
  apply String.eqb_neq in H. rewrite H. now rewrite !orb_false_r.
Qed.

Lemma contains_add_active (el : dom_element) :
  classList_contains "active" (classList_add "active" el) = true.
Proof.
  unfold classList_add. destruct (classList_contains "active" el) eqn:E;
    [exact E|].
  unfold classList_contains, mem_string. cbn [el_class].
  rewrite existsb_app. cbn [existsb]. rewrite String.eqb_refl.
  apply orb_true_r.
Qed.

Lemma remove_remove (el : dom_element) :
  classList_remove "active" (classList_remove "active" el)
  = classList_remove "active" el.
Proof.
  unfold classList_remove. cbn [el_id el_class]. f_equal.
  apply filter_without_active, mem_filter_active.
Qed.

Lemma remove_add (el : dom_element) :
  classList_remove "active" (classList_add "active" el)
  = classList_remove "active" el.
Proof.
  unfold classList_add. destruct (classList_contains "active" el); [reflexivity|].
  unfold classList_remove. cbn [el_id el_class]. f_equal.
  rewrite filter_app. cbn [filter]. rewrite String.eqb_refl. cbn [negb].
  apply app_nil_r.
Qed.

Lemma add_add (el : dom_element) :
  classList_add "active" (classList_add "active" el)
  = classList_add "active" el.
Proof.
  unfold classList_add at 1. now rewrite contains_add_active.
Qed.

Lemma is_tab_or_button_remove (el : dom_element) :
  is_tab_or_button (classList_remove "active" el) = is_tab_or_button el.
Proof.
  unfold is_tab_or_button. now rewrite !contains_remove_other by discriminate.
Qed.

Lemma is_tab_or_button_add (el : dom_element) :
  is_tab_or_button (classList_add "active" el) = is_tab_or_button el.
Proof.
  unfold is_tab_or_button. now rewrite !contains_add_other by discriminate.
Qed.

(** The two [querySelectorAll] loops together, on one element. *)
Lemma deactivate_twice (el : dom_element) :
  (let e1 := if classList_contains "assessment-tab" el
             then classList_remove "active" el else el in
   if classList_contains "tab-btn" e1 then classList_remove "active" e1 else e1)
  = if is_tab_or_button el then classList_remove "active" el else el.
Proof.
  cbv zeta. unfold is_tab_or_button.
  destruct (classList_contains "assessment-tab" el) eqn:Et; simpl.
  - rewrite contains_remove_other by discriminate.
    destruct (classList_contains "tab-btn" el); [apply remove_remove|reflexivity].
  - reflexivity.
Qed.

(** The document after [switchTab], element by element. *)
Lemma switchTab_elementwise (tabName : string) (event : option nat)
    (page : tabs_page) (j : nat) :
  nth_error (document (fst (switchTab tabName event page))) j
  = option_map
      (switch_element
         (match getElementById tabName (document page) with
          | Some k => (j =? k)%nat
          | None => false
          end)
         (match event with Some target => (j =? target)%nat | None => false end))
      (nth_error (document page) j).
Proof.
  unfold switchTab.
  rewrite (getElementById_ids tabName
             (deactivate_all "tab-btn"
                (deactivate_all "assessment-tab" (document page)))
             (document page))
    by now rewrite !ids_deactivate_all.
  assert (Hd : forall i,
             nth_error (deactivate_all "tab-btn"
                          (deactivate_all "assessment-tab" (document page))) i
             = option_map
                 (fun el => if is_tab_or_button el
                            then classList_remove "active" el else el)
                 (nth_error (document page) i)).
  { intros i. unfold deactivate_all. rewrite !nth_error_map.
    destruct (nth_error (document page) i) as [el|]; [|reflexivity].
    simpl. f_equal. apply deactivate_twice. }
  unfold switch_element.
  destruct (getElementById tabName (document page)) as [k|],
    event as [target|]; cbn [fst document];
    rewrite ?nth_error_update_at, Hd;
    destruct (nth_error (document page) j) as [el|];
    try (destruct (j =? k)%nat); try (destruct (j =? target)%nat);
    cbn [option_map orb]; try reflexivity.
  now rewrite add_add.
Qed.

Lemma switch_element_again (selected target : bool) (el : dom_element) :
  switch_element selected target (switch_element selected target el)
  = switch_element selected target el.
Proof.
  unfold switch_element.
  destruct (selected || target), (is_tab_or_button el) eqn:Eb;
    rewrite ?is_tab_or_button_add, ?is_tab_or_button_remove, ?Eb;
    rewrite ?remove_add, ?remove_remove, ?add_add; reflexivity.
Qed.

Lemma ids_switchTab (tabName : string) (event : option nat) (page : tabs_page) :
  map el_id (document (fst (switchTab tabName event page)))
  = map el_id (document page).
Proof.
  unfold switchTab.
  destruct (getElementById tabName _), event; cbn [fst document];
    now rewrite ?ids_update_at_add, !ids_deactivate_all.
Qed.

(** After a tab switch, a tab panel or tab button is active only if it is
    the selected tab (the first element whose id is the tab name) or the
    element that was clicked; and both of these are active. *)
Theorem switchTab_leaves_only_selected_and_target_active (tabName : string)
    (target : nat) (page : tabs_page) (j : nat) (el : dom_element) :
  nth_error (document (fst (switchTab tabName (Some target) page))) j = Some el ->
  (is_tab_or_button el = true -> classList_contains "active" el = true ->
   j = target \/ getElementById tabName (document page) = Some j) /\
  (j = target \/ getElementById tabName (document page) = Some j ->
   classList_contains "active" el = true) /\
  currentTab (fst (switchTab tabName (Some target) page)) = tabName.
Proof.
  rewrite switchTab_elementwise.
  destruct (nth_error (document page) j) as [el0|]; [|discriminate].
  cbn [option_map]. intros H. injection H as <-.
  split; [|split; [|reflexivity]].
  - intros Htab Hact.
    destruct (Nat.eqb_spec j target) as [-> | Hjt]; [now left|].
    destruct (getElementById tabName (document page)) as [k|].
    + destruct (Nat.eqb_spec j k) as [-> | Hjk]; [now right|].
      exfalso. unfold switch_element in *. cbn [orb] in *.
      destruct (is_tab_or_button el0) eqn:Eb.
      * unfold classList_contains in Hact.
        cbn [classList_remove el_class] in Hact.
        now rewrite mem_filter_active in Hact.
      * congruence.
    + exfalso. unfold switch_element in *. cbn [orb] in *.
      destruct (is_tab_or_button el0) eqn:Eb.
      * unfold classList_contains in Hact.
        cbn [classList_remove el_class] in Hact.
        now rewrite mem_filter_active in Hact.
      * congruence.
  - intros Hsel. unfold switch_element.
    replace (_ || _) with true; [apply contains_add_active|].
    symmetry. destruct Hsel as [-> | ->].
    + rewrite Nat.eqb_refl. apply orb_true_r.
    + now rewrite Nat.eqb_refl.
Qed.

(** Switching to the same tab by the same click a second time changes
    nothing: neither the classes of any element nor the current tab. *)
Theorem switchTab_idempotent (tabName : string) (event : option nat)
    (page : tabs_page) :
  switchTab tabName event (fst (switchTab tabName event page))
  = switchTab tabName event page.
Proof.
  assert (Hdoc : document (fst (switchTab tabName event
                                  (fst (switchTab tabName event page))))
                 = document (fst (switchTab tabName event page))).
  { apply nth_error_ext. intros j.
    rewrite (switchTab_elementwise tabName event
               (fst (switchTab tabName event page)) j).
    rewrite (getElementById_ids tabName _ (document page)
               (ids_switchTab tabName event page)).
    rewrite (switchTab_elementwise tabName event page j).
    destruct (nth_error (document page) j) as [el|]; [|reflexivity].
    cbn [option_map]. now rewrite switch_element_again. }
  destruct event as [target|].
  - unfold switchTab in *. cbn [fst document currentTab] in *.
    now rewrite Hdoc.
  - unfold switchTab in *. cbn [fst document currentTab] in *.
    now rewrite Hdoc.
Qed.

(** * The further properties, at concrete inputs *)

Lemma critical_count_matches_distribution_witness :
  let crit := VObj [("risk_level", VStr "Critical")] in
  let d := payload_of [crit; example_ec2] [crit] in
  all_assessments d = Ok [crit; example_ec2; crit] /\
  Forall (fun a => risk_level_text_or_absent a = true)
    [crit; example_ec2; crit] /\
  exists c,
    updateRiskDistributionChart (fun _ => "") d = Ok c /\
    countCriticalIssues d = Ok (Critical c).
Proof.
  intros crit d.
  assert (H : Forall (fun a => risk_level_text_or_absent a = true)
                [crit; example_ec2; crit]) by (repeat constructor).
  split; [reflexivity|]. split; [exact H|].
  exact (critical_count_matches_distribution (fun _ => "") d
           [crit; example_ec2; crit] eq_refl H).
Defined.


Lemma kpi_writes_shape_witness :
  exists w,
    updateKPICards (fun _ => NaN) (fun _ => "") (fun s => s) sample = Ok w /\
    exists n,
      countCriticalIssues sample = Ok n /\
      In (mk_write "criticalCount" "textContent"
            (NumberToString (fun _ => "") (num_of_nat n))) w.
Proof.
  destruct (updateKPICards (fun _ => NaN) (fun _ => "") (fun s => s) sample)
    as [w|e] eqn:E;
    [|exfalso; revert E; vm_compute; discriminate].
  exists w. split; [reflexivity|].
  exact (proj2 (proj2 (kpi_writes_shape (fun _ => NaN) (fun _ => "")
                         (fun s => s) sample w E))).
Defined.

Lemma kpi_overall_score_unclamped_witness :
  let d := VObj [("summary",
                  VObj [("overall", VObj [("average_score", num 150)])])] in
  member (member (member d "summary") "overall") "average_score"
    = VNum (num_of_Z 150) /\
  150%Z <> 0%Z /\ (Z.abs 150 <= 2 ^ 53)%Z /\
  exists w,
    updateKPICards (fun _ => NaN) (fun _ => "") (fun s => s) d = Ok w /\
    In (mk_write "overallScoreFill" "style.width" "150%") w.
Proof.
  intros d.
  assert (Hz : 150%Z <> 0%Z) by discriminate.
  assert (Hb : (Z.abs 150 <= 2 ^ 53)%Z) by (vm_compute; discriminate).
  split; [reflexivity|]. split; [exact Hz|]. split; [exact Hb|].
  destruct (updateKPICards (fun _ => NaN) (fun _ => "") (fun s => s) d)
    as [w|e] eqn:E;
    [|exfalso; revert E; vm_compute; discriminate].
  exists w. split; [reflexivity|].
  exact (proj1 (proj2 (kpi_overall_score_unclamped (fun _ => NaN)
                         (fun _ => "") (fun s => s) d 150 w eq_refl Hz Hb E))).
Defined.

Lemma issues_field_shapes_witness :
  let a := VObj [("bucket_name", VStr "logs");
                 ("issues", VStr "Versioning disabled")] in
  present a = true /\
  member a "issues" = VStr "Versioning disabled" /\
  createAssessmentCard (fun _ => NaN) (fun _ => "") (fun _ => "") a "S3"
  = Throw TypeError.
Proof.
  intros a. split; [reflexivity|]. split; [reflexivity|].
  refine (proj1 (issues_field_shapes (fun _ => NaN) (fun _ => "")
                   (fun _ => "") a "S3" eq_refl)
            "Versioning disabled" eq_refl _).
  discriminate.
Defined.

Lemma recommendations_all_or_nothing_witness :
  let good := VObj [("title", VStr "Rotate keys")] in
  let bad := VObj [("priority", num 1)] in
  let d := VObj [("recommendations", VArr [good; bad])] in
  present d = true /\
  member d "recommendations" = VArr [good; bad] /\
  Exists (fun r => createRecommendationCard (fun _ => "") (fun s => s) r
                   = Throw TypeError)
    [good; bad] /\
  updateRecommendations (fun _ => "") (fun s => s) d = Throw TypeError.
Proof.
  intros good bad d.
  assert (Hne : [good; bad] <> []) by discriminate.
  assert (Hex : Exists (fun r => createRecommendationCard (fun _ => "")
                                   (fun s => s) r
                                 = Throw TypeError) [good; bad])
    by (apply Exists_cons_tl, Exists_cons_hd; reflexivity).
  split; [reflexivity|]. split; [reflexivity|]. split; [exact Hex|].
  exact (proj2 (proj2 (recommendations_all_or_nothing (fun _ => "")
                         (fun s => s) d eq_refl)
                  [good; bad] eq_refl Hne) Hex).
Defined.

Lemma assessment_lists_rendering_witness :
  Forall (fun a => succeeds (createAssessmentCard (fun _ => NaN) (fun _ => "")
                               (fun _ => "") a "EC2")) [example_ec2] /\
  exists cards_ec2 cards_s3,
    Forall2 (fun a card =>
               createAssessmentCard (fun _ => NaN) (fun _ => "") (fun _ => "")
                 a "EC2" = Ok card) [example_ec2] cards_ec2 /\
    Forall2 (fun a card =>
               createAssessmentCard (fun _ => NaN) (fun _ => "") (fun _ => "")
                 a "S3" = Ok card) [] cards_s3 /\
    updateAssessments (fun _ => NaN) (fun _ => "") (fun _ => "")
      (payload_of [example_ec2] [])
    = Ok [ mk_write "ec2AssessmentList" "innerHTML" (join "" cards_ec2);
           mk_write "s3AssessmentList" "innerHTML"
             ("<div class=" ++ dq ++ "loading" ++ dq
              ++ ">No S3 assessments found</div>") ].
Proof.
  assert (H1 : Forall (fun a => succeeds (createAssessmentCard (fun _ => NaN)
                                            (fun _ => "") (fun _ => "") a "EC2"))
                 [example_ec2])
    by (constructor; [eexists; reflexivity|constructor]).
  split; [exact H1|].
  exact (assessment_lists_rendering (fun _ => NaN) (fun _ => "") (fun _ => "")
           [example_ec2] [] H1 (Forall_nil _)).
Defined.

Lemma request_returns_parsed_body_witness :
  let r := mk_response true 200 "OK" (Ok sample_summary) in
  let fetch := fun (_ : string) (_ : options) => Fulfilled r in
  let this := mk_client "" in
  fetch (baseUrl this ++ "/api/security-score-summary")
    (mk_options "GET" [("Content-Type", "application/json")] None)
  = Fulfilled r /\
  ok r = true /\ json r = Ok sample_summary /\
  request fetch (fun _ => "") this "/api/security-score-summary" "GET" VNull
  = ([], Ok sample_summary).
Proof.
  intros r fetch this.
  split; [reflexivity|]. split; [reflexivity|]. split; [reflexivity|].
  exact (request_returns_parsed_body fetch (fun _ => "") this
           "/api/security-score-summary" "GET" VNull r sample_summary
           eq_refl eq_refl eq_refl).
Defined.

Lemma request_never_rejects_on_api_witness :
  let r := mk_response true 200 "OK" (Throw (Rejection "Unexpected token <")) in
  let fetch := fun (_ : string) (_ : options) => Fulfilled r in
  let this := mk_client "" in
  startsWith "/api/export" "/api" = true /\
  request fetch (fun _ => "") this "/api/export" "GET" VNull
  = ([ console_error "API Request Error:" (Rejection "Unexpected token <");
       console_warn "Falling back to mock data for" "/api/export" ],
     Ok (VObj [])).
Proof.
  intros r fetch this. split; [reflexivity|].
  exact (proj2 (request_never_rejects_on_api fetch (fun _ => "") this
                  "/api/export" "GET" VNull eq_refl)
           r (Rejection "Unexpected token <") eq_refl eq_refl eq_refl).
Defined.

Lemma request_rethrows_off_api_witness :
  let r := mk_response false 500 "Internal Server Error" (Ok VNull) in
  let fetch := fun (_ : string) (_ : options) => Fulfilled r in
  let this := mk_client "" in
  startsWith "/health" "/api" = false /\
  fetch (baseUrl this ++ "/health")
    (mk_options "GET" [("Content-Type", "application/json")] None)
  = Fulfilled r /\
  ok r = false /\
  request fetch (fun _ => "") this "/health" "GET" VNull
  = ([ console_error "API Request Error:"
         (Error "API Error: 500 Internal Server Error") ],
     Throw (Error "API Error: 500 Internal Server Error")).
Proof.
  intros r fetch this.
  split; [reflexivity|]. split; [reflexivity|]. split; [reflexivity|].
  exact (proj1 (request_rethrows_off_api fetch (fun _ => "") this "/health"
                  "GET" VNull r (or_intror eq_refl) eq_refl) eq_refl).
Defined.

Lemma dashboard_fallback_with_query_witness :
  let fetch := fun (_ : string) (_ : options) =>
                 Rejected (Rejection "Failed to fetch") in
  let this := mk_client "" in
  transport_fails fetch (fun _ => "") this ("/api/dashboard" ++ "?range=7d")
    "GET" VNull /\
  exists error,
    request fetch (fun _ => "") this ("/api/dashboard" ++ "?range=7d") "GET"
      VNull
    = ([ console_error "API Request Error:" error;
         console_warn "Falling back to mock data for"
           ("/api/dashboard" ++ "?range=7d") ],
       Ok sample).
Proof.
  intros fetch this.
  assert (Hfail : transport_fails fetch (fun _ => "") this
                    ("/api/dashboard" ++ "?range=7d") "GET" VNull) by exact I.
  split; [exact Hfail|].
  exact (proj1 (dashboard_fallback_with_query fetch (fun _ => "") this
                  "?range=7d" "GET" VNull Hfail)).
Defined.

Lemma non_success_body_is_ignored_witness :
  let r1 := mk_response false 404 "Not Found" (Ok sample) in
  let r2 := mk_response false 404 "Not Found" (Throw (Rejection "empty body")) in
  let fetch1 := fun (_ : string) (_ : options) => Fulfilled r1 in
  let fetch2 := fun (_ : string) (_ : options) => Fulfilled r2 in
  let this := mk_client "" in
  ok r1 = false /\ ok r2 = false /\
  status r1 = status r2 /\ statusText r1 = statusText r2 /\
  request fetch1 (fun _ => "") this "/api/assessments" "GET" VNull
  = request fetch2 (fun _ => "") this "/api/assessments" "GET" VNull.
Proof.
  intros r1 r2 fetch1 fetch2 this.
  split; [reflexivity|]. split; [reflexivity|].
  split; [reflexivity|]. split; [reflexivity|].
  exact (non_success_body_is_ignored fetch1 fetch2 (fun _ => "") this
           "/api/assessments" "GET" VNull r1 r2
           eq_refl eq_refl eq_refl eq_refl eq_refl eq_refl).
Defined.

Lemma clock_text_round_trip_witness :
  (9 < 24)%nat /\ (5 < 60)%nat /\
  String.length (text (updateLastUpdatedTime 9 5)) = 5%nat /\
  clock_of_text (text (updateLastUpdatedTime 9 5)) = Some (9, 5)%nat.
Proof.
  assert (Hh : (9 < 24)%nat) by lia. assert (Hm : (5 < 60)%nat) by lia.
  split; [exact Hh|]. split; [exact Hm|].
  exact (proj2 (clock_text_round_trip 9 5 Hh Hm)).
Defined.

Lemma refresh_offline_renders_sample_witness :
  let fetch := fun (_ : string) (_ : options) =>
                 Rejected (Rejection "Failed to fetch") in
  transport_fails fetch (fun _ => "") (apiClient "localhost") "/api/dashboard"
    "GET" VNull /\
  exists error r,
    update_all (fun _ => NaN) (fun _ => "") (fun _ => "") (fun s => s) sample
    = Ok r /\
    refreshDashboard (fun _ => NaN) (fun _ => "") (fun _ => "") (fun s => s)
      fetch (fun _ => "") "localhost" 9 5 VNull
    = mk_refreshed (updateLastUpdatedTime 9 5)
        [ client_entry (console_error "API Request Error:" error);
          client_entry (console_warn "Falling back to mock data for"
                          "/api/dashboard");
          console_log "Dashboard refreshed successfully" ]
        sample (Some r) /\
    ec2_chart r = EC2.mk 1 1 1 1 /\
    s3_chart r = S3.mk 1 0 0 1 /\
    risk_chart r = mk_counts 1 2 0 0 /\
    In (mk_write "criticalCount" "textContent" "0") (kpi_writes r).
Proof.
  intros fetch.
  assert (Hfail : transport_fails fetch (fun _ => "") (apiClient "localhost")
                    "/api/dashboard" "GET" VNull) by exact I.
  split; [exact Hfail|].
  exact (refresh_offline_renders_sample (fun _ => NaN) (fun _ => "")
           (fun _ => "") (fun s => s) fetch (fun _ => "") "localhost" 9 5 VNull
           Hfail).
Defined.

Lemma refresh_renders_renderable_payload_witness :
  let d := VObj [ ("summary", VObj []);
                  ("ec2", VObj [("assessments", VArr [example_ec2])]) ] in
  let r := mk_response true 200 "OK" (Ok d) in
  let fetch := fun (_ : string) (_ : options) => Fulfilled r in
  ok r = true /\ json r = Ok d /\ renderable d = true /\
  exists page,
    update_all (fun _ => NaN) (fun _ => "") (fun _ => "") (fun s => s) d
    = Ok page /\
    refreshDashboard (fun _ => NaN) (fun _ => "") (fun _ => "") (fun s => s)
      fetch (fun _ => "") "example.org" 9 5 VNull
    = mk_refreshed (updateLastUpdatedTime 9 5)
        [console_log "Dashboard refreshed successfully"] d (Some page).
Proof.
  intros d r fetch.
  split; [reflexivity|]. split; [reflexivity|]. split; [reflexivity|].
  exact (refresh_renders_renderable_payload (fun _ => NaN) (fun _ => "")
           (fun _ => "") (fun s => s) fetch (fun _ => "") "example.org" 9 5
           VNull d r eq_refl eq_refl eq_refl eq_refl).
Defined.

Lemma switchTab_leaves_only_selected_and_target_active_witness :
  let page :=
    mk_tabs_page
      [ mk_element "ec2-assessments" ["assessment-tab"; "active"];
        mk_element "s3-assessments" ["assessment-tab"];
        mk_element "" ["tab-btn"; "active"];
        mk_element "" ["tab-btn"] ]
      "ec2-assessments" in
  let el := mk_element "s3-assessments" ["assessment-tab"; "active"] in
  nth_error (document (fst (switchTab "s3-assessments" (Some 3%nat) page))) 1
  = Some el /\
  is_tab_or_button el = true /\
  classList_contains "active" el = true /\
  (1%nat = 3%nat
   \/ getElementById "s3-assessments" (document page) = Some 1%nat).
Proof.
  intros page el.
  split; [reflexivity|]. split; [reflexivity|]. split; [reflexivity|].
  exact (proj1 (switchTab_leaves_only_selected_and_target_active
                  "s3-assessments" 3 page 1 el eq_refl) eq_refl eq_refl).
Defined.
